(** * A shallow embedding of the webhook forwarding gateway

  The program under study is [webhook_server.py]: a FastAPI application
  ([WebhookForwarder]) that receives JSON payloads on configurable routes,
  reshapes them ([_preprocess_message], [_apply_template]), records them
  in a bounded history ([_add_to_history]) and forwards them to outbound
  targets ([process_message], [_should_forward], [_format_message]).

  The code is dynamically typed: payloads, targets, routes and the whole
  configuration are JSON trees handled through [dict.get], [in],
  subscripts and [isinstance].  The embedding keeps this: one type
  [value] of JSON trees, Python's operations on it as total functions
  into a [result] type whose [Raise] side carries the exception, and
  every method of the class written against these operations, line by
  line.

  Python dictionaries are insertion ordered, so a dictionary is an
  association list with at most one binding per key; strings are
  UTF-8 byte strings.  A function that updates its argument in place
  returns the updated object next to its result, so that what the caller
  still holds after an exception is part of the model.  Trees are
  values: where the source lets two places share one dictionary object
  (the shallow merge of the field mapping, a sub-dictionary that is
  mapped or injected) and then writes through one of them, the other
  place keeps its tree here.  The theorems about the in-place stages of
  [_preprocess_message] are therefore stated for specs without field
  mapping and, where two writes can meet, for paths that part ways:
  there no object is reached from two places, and the trees are what the
  program holds.

  The one place where the identity of an object decides what the
  gateway does is the table of handlers: a handler holds the route
  object it was bound with, and the first handler bound for a method and
  a path answers.  The table is part of the state ([handlers]), and a
  handler refers to its route either through the catalogue or, once the
  catalogue has moved on to another object, to the object it kept
  ([route_ref]).  What the web framework decides stays abstract: whether
  registering a path raises ([path_error]) and which registered path
  serves a request path ([path_matches]).

  Two families of built-ins are narrower than Python's: [str.lower] and
  [str.upper] map the ASCII letters only, and [int] and [float] read
  ASCII digits, without a limit on their number.  Theorems that depend
  on a case mapping are stated for ASCII names. *)

From Stdlib Require Import ZArith List String Ascii Bool Lia.
From Stdlib Require Import Floats.SpecFloat.
From Stdlib Require Import DecimalString.
Import ListNotations.

Local Open Scope string_scope.
Local Open Scope Z_scope.

(** ** Python strings *)

Module PyStr.

(** [s.startswith(p)] *)
Definition startswith (p s : string) : bool := String.prefix p s.

(** [needle in hay] on two strings *)
Fixpoint contains (needle hay : string) : bool :=
  String.prefix needle hay ||
  match hay with
  | EmptyString => false
  | String _ hay' => contains needle hay'
  end.

(** [s.split(sep)] for a one-character separator: never the empty list. *)
Fixpoint split (sep : ascii) (s : string) : list string :=
  match s with
  | EmptyString => [EmptyString]
  | String c s' =>
      if Ascii.eqb c sep then EmptyString :: split sep s'
      else match split sep s' with
           | [] => [String c EmptyString]
           | h :: t => String c h :: t
           end
  end.

Definition lower_ascii (c : ascii) : ascii :=
  let n := nat_of_ascii c in
  if (Nat.leb 65 n && Nat.leb n 90)%bool then ascii_of_nat (n + 32) else c.

(** [s.lower()], on the ASCII letters.  The needles the program looks for
    after lowering ("wechat", "feishu", "true", ...) are ASCII. *)
Fixpoint lower (s : string) : string :=
  match s with
  | EmptyString => EmptyString
  | String c s' => String (lower_ascii c) (lower s')
  end.

Definition upper_ascii (c : ascii) : ascii :=
  let n := nat_of_ascii c in
  if (Nat.leb 97 n && Nat.leb n 122)%bool then ascii_of_nat (n - 32) else c.

(** [s.upper()], on the ASCII letters. *)
Fixpoint upper (s : string) : string :=
  match s with
  | EmptyString => EmptyString
  | String c s' => String (upper_ascii c) (upper s')
  end.

(** [s[n:]] for a prefix made of [n] ASCII characters. *)
Fixpoint drop (n : nat) (s : string) : string :=
  match n, s with
  | O, _ => s
  | S n', String _ s' => drop n' s'
  | S _, EmptyString => EmptyString
  end.

(** [s.replace(old, new)] for a non-empty [old]: every occurrence, left to
    right, without overlap.  [skip] counts the characters of a match that
    are still to be passed over. *)
Fixpoint replace_from (old new : string) (skip : nat) (s : string) : string :=
  match s with
  | EmptyString => EmptyString
  | String c s' =>
      match skip with
      | S k => replace_from old new k s'
      | O =>
          if String.prefix old s
          then new ++ replace_from old new (Nat.pred (String.length old)) s'
          else String c (replace_from old new O s')
      end
  end.

Definition replace (old new s : string) : string := replace_from old new O s.

(** A byte of the form 10xxxxxx continues a UTF-8 character. *)
Definition is_continuation (c : ascii) : bool :=
  let n := nat_of_ascii c in (Nat.leb 128 n && Nat.ltb n 192)%bool.

(** The characters of a string, as iterating over a [str] yields them:
    each element is one UTF-8 encoded code point. *)
Fixpoint chars (s : string) : list string :=
  match s with
  | EmptyString => []
  | String c s' =>
      match chars s' with
      | h :: t =>
          match s' with
          | String c' _ =>
              if is_continuation c' then String c h :: t
              else String c EmptyString :: h :: t
          | EmptyString => String c EmptyString :: h :: t
          end
      | [] => [String c EmptyString]
      end
  end.

Definition is_space (c : ascii) : bool :=
  let n := nat_of_ascii c in
  ((Nat.leb 9 n && Nat.leb n 13) || (Nat.leb 28 n && Nat.leb n 32))%bool.

Fixpoint lstrip (s : string) : string :=
  match s with
  | String c s' => if is_space c then lstrip s' else s
  | EmptyString => EmptyString
  end.

Fixpoint rev_string (s acc : string) : string :=
  match s with
  | EmptyString => acc
  | String c s' => rev_string s' (String c acc)
  end.

(** [s.strip()] on ASCII white space. *)
Definition strip (s : string) : string :=
  rev_string (lstrip (rev_string (lstrip s) EmptyString)) EmptyString.

End PyStr.

(** ** JSON trees and Python's operations on them *)

Module Py.

Set Warnings "-register-all".

(** A Python object as [json.load] builds it. [float] is IEEE binary64,
    kept as the Standard Library's [spec_float] at precision 53. *)
Inductive value : Type :=
| VNone
| VBool (b : bool)
| VInt (n : Z)
| VFloat (f : spec_float)
| VStr (s : string)
| VList (l : list value)
| VDict (d : list (string * value)).

Definition dict : Type := list (string * value).

(** The exceptions the program can meet. *)
Inductive exn : Type :=
| TypeError
| AttributeError
| KeyError
| IndexError
| ValueError
| OverflowError
| AssertionError
| HTTPException (status_code : Z) (detail : string).

Inductive result (A : Type) : Type :=
| Ok (a : A)
| Raise (e : exn).
Arguments Ok {A} a.
Arguments Raise {A} e.

Definition bind {A B} (r : result A) (k : A -> result B) : result B :=
  match r with
  | Ok a => k a
  | Raise e => Raise e
  end.

Declare Scope py_scope.
Delimit Scope py_scope with py.
Notation "x <- c ;; k" := (bind c (fun x => k))
  (at level 61, c at next level, right associativity) : py_scope.

(** [for x in xs: s = body(x, s)], where an exception leaves the loop with
    the state reached so far: the pair is the outcome and the state the
    caller can still observe. *)
Fixpoint for_each {A S} (body : A -> S -> result S) (xs : list A) (s : S)
  : result S * S :=
  match xs with
  | [] => (Ok s, s)
  | x :: xs' =>
      match body x s with
      | Ok s' => for_each body xs' s'
      | Raise e => (Raise e, s)
      end
  end.

(** *** Dictionaries *)

Fixpoint dict_get (k : string) (d : dict) : option value :=
  match d with
  | [] => None
  | (k', v) :: d' => if String.eqb k k' then Some v else dict_get k d'
  end.

Definition dict_mem (k : string) (d : dict) : bool :=
  match dict_get k d with Some _ => true | None => false end.

(** [d[k] = v]: an existing key keeps its place, a new one goes last. *)
Fixpoint dict_set (k : string) (v : value) (d : dict) : dict :=
  match d with
  | [] => [(k, v)]
  | (k', v') :: d' =>
      if String.eqb k k' then (k, v) :: d' else (k', v') :: dict_set k v d'
  end.

(** [del d[k]] *)
Fixpoint dict_del (k : string) (d : dict) : dict :=
  match d with
  | [] => []
  | (k', v') :: d' =>
      if String.eqb k k' then d' else (k', v') :: dict_del k d'
  end.

(** [d.update(e)], also [{**d, **e}] *)
Definition dict_update (d e : dict) : dict :=
  fold_left (fun acc kv => dict_set (fst kv) (snd kv) acc) e d.

Definition keys (d : dict) : list string := map fst d.

(** *** Truth, equality *)

Definition SFis_zero (f : spec_float) : bool :=
  match f with S754_zero _ => true | _ => false end.

(** [bool(v)] *)
Definition truthy (v : value) : bool :=
  match v with
  | VNone => false
  | VBool b => b
  | VInt n => negb (n =? 0)
  | VFloat f => negb (SFis_zero f)
  | VStr s => negb (String.eqb s EmptyString)
  | VList l => match l with [] => false | _ => true end
  | VDict d => match d with [] => false | _ => true end
  end.

Inductive num : Type :=
| NInt (n : Z)
| NFloat (f : spec_float).

(** [bool] is a subclass of [int]. *)
Definition as_num (v : value) : option num :=
  match v with
  | VBool b => Some (NInt (if b then 1 else 0))
  | VInt n => Some (NInt n)
  | VFloat f => Some (NFloat f)
  | _ => None
  end.

(** An integer and a float are equal when they denote the same number. *)
Definition SFeq_Z (f : spec_float) (z : Z) : bool :=
  match f with
  | S754_zero _ => z =? 0
  | S754_finite s m e =>
      let mz := if s then Z.neg m else Z.pos m in
      if 0 <=? e then z =? mz * 2 ^ e else mz =? z * 2 ^ (- e)
  | _ => false
  end.

Definition num_eq (x y : num) : bool :=
  match x, y with
  | NInt a, NInt b => a =? b
  | NFloat f, NFloat g => SFeqb f g
  | NInt a, NFloat g => SFeq_Z g a
  | NFloat f, NInt b => SFeq_Z f b
  end.

(** [a == b] *)
Fixpoint py_eq (a b : value) {struct a} : bool :=
  match as_num a, as_num b with
  | Some x, Some y => num_eq x y
  | None, None =>
      match a, b with
      | VNone, VNone => true
      | VStr s, VStr t => String.eqb s t
      | VList l, VList m =>
          (fix eq_list (l m : list value) : bool :=
             match l, m with
             | [], [] => true
             | x :: l', y :: m' => py_eq x y && eq_list l' m'
             | _, _ => false
             end) l m
      | VDict d, VDict e =>
          Nat.eqb (List.length d) (List.length e) &&
          (fix all_in (d : dict) : bool :=
             match d with
             | [] => true
             | (k, v) :: d' =>
                 match dict_get k e with
                 | Some w => py_eq v w
                 | None => false
                 end && all_in d'
             end) d
      | _, _ => false
      end
  | _, _ => false
  end.

Definition hashable (v : value) : bool :=
  match v with VList _ | VDict _ => false | _ => true end.

(** *** Containers *)

(** [item in container] *)
Definition py_contains (item container : value) : result bool :=
  match container with
  | VDict d =>
      match item with
      | VStr k => Ok (dict_mem k d)
      | _ => if hashable item then Ok false else Raise TypeError
      end
  | VList l => Ok (existsb (fun x => py_eq x item) l)
  | VStr s =>
      match item with
      | VStr t => Ok (PyStr.contains t s)
      | _ => Raise TypeError
      end
  | _ => Raise TypeError
  end.

(** A list index: negative indices count from the end. *)
Definition index {A} (l : list A) (i : Z) : option A :=
  let n := Z.of_nat (List.length l) in
  let j := if i <? 0 then i + n else i in
  if (0 <=? j) && (j <? n) then nth_error l (Z.to_nat j) else None.

(** [container[key]] *)
Definition py_getitem (container key : value) : result value :=
  match container with
  | VDict d =>
      match key with
      | VStr k =>
          match dict_get k d with Some v => Ok v | None => Raise KeyError end
      | _ => if hashable key then Raise KeyError else Raise TypeError
      end
  | VList l =>
      match as_num key with
      | Some (NInt i) =>
          match index l i with Some v => Ok v | None => Raise IndexError end
      | _ => Raise TypeError
      end
  | VStr s =>
      match as_num key with
      | Some (NInt i) =>
          match index (PyStr.chars s) i with
          | Some c => Ok (VStr c)
          | None => Raise IndexError
          end
      | _ => Raise TypeError
      end
  | _ => Raise TypeError
  end.

(** [container[key] = v] for a string [key]: only a dictionary takes it. *)
Definition py_setitem (container : value) (key : string) (v : value)
  : result value :=
  match container with
  | VDict d => Ok (VDict (dict_set key v d))
  | _ => Raise TypeError
  end.

(** [obj.get(key, default)] for a string [key] *)
Definition py_get (obj : value) (key : string) (default : value)
  : result value :=
  match obj with
  | VDict d =>
      Ok (match dict_get key d with Some v => v | None => default end)
  | _ => Raise AttributeError
  end.

(** [obj.items()] *)
Definition py_items (obj : value) : result dict :=
  match obj with
  | VDict d => Ok d
  | _ => Raise AttributeError
  end.

(** [for x in obj] *)
Definition py_iter (obj : value) : result (list value) :=
  match obj with
  | VList l => Ok l
  | VDict d => Ok (map VStr (keys d))
  | VStr s => Ok (map VStr (PyStr.chars s))
  | _ => Raise TypeError
  end.

(** [len(obj)] *)
Definition py_len (obj : value) : result Z :=
  match obj with
  | VList l => Ok (Z.of_nat (List.length l))
  | VDict d => Ok (Z.of_nat (List.length d))
  | VStr s => Ok (Z.of_nat (List.length (PyStr.chars s)))
  | _ => Raise TypeError
  end.

(** [{**obj}]: the items of a mapping *)
Definition py_unpack (obj : value) : result dict :=
  match obj with
  | VDict d => Ok d
  | _ => Raise TypeError
  end.

(** [isinstance(v, (str, int, float, bool)) or v is None] *)
Definition is_scalar (v : value) : bool :=
  match v with VList _ | VDict _ => false | _ => true end.

(** *** Numeric conversions *)

Definition is_digit (c : ascii) : bool :=
  let n := nat_of_ascii c in (Nat.leb 48 n && Nat.leb n 57)%bool.

Definition digit_val (c : ascii) : Z := Z.of_nat (nat_of_ascii c) - 48.

(** The longest prefix of the form digit (["_"] digit)*, read in base ten
    on top of [acc]; [n] counts the digits read so far in this part. *)
Fixpoint digitpart (s : string) (acc : Z) (n : nat) : Z * nat * string :=
  match s with
  | EmptyString => (acc, n, s)
  | String c s' =>
      if is_digit c then digitpart s' (10 * acc + digit_val c) (S n)
      else if Ascii.eqb c "_" then
        match n, s' with
        | S _, String c' _ =>
            if is_digit c' then digitpart s' acc n else (acc, n, s)
        | _, _ => (acc, n, s)
        end
      else (acc, n, s)
  end.

Definition read_sign (s : string) : bool * string :=
  match s with
  | String "-" s' => (true, s')
  | String "+" s' => (false, s')
  | _ => (false, s)
  end.

(** The binary64 number nearest to [m * 10 ^ e10] (ties to even), for
    [0 <= m]; too large a number gives an infinity. *)
Definition dec_to_float (neg : bool) (m e10 : Z) : spec_float :=
  if m =? 0 then S754_zero neg
  else
    let f :=
      if 0 <=? e10 then binary_normalize 53 1024 (m * 10 ^ e10) 0 false
      else SFdiv 53 1024 (S754_finite false (Z.to_pos m) 0)
                         (S754_finite false (Z.to_pos (10 ^ (- e10))) 0) in
    if neg then SFopp f else f.

(** [float(s)] for a string: white space, sign, then [inf], [infinity],
    [nan] or a decimal number with optional fraction and exponent
    (ASCII digits). *)
Definition parse_float (s : string) : option spec_float :=
  let (neg, body) := read_sign (PyStr.strip s) in
  let low := PyStr.lower body in
  if String.eqb low "inf" || String.eqb low "infinity"
  then Some (S754_infinity neg)
  else if String.eqb low "nan" then Some S754_nan
  else
    let '(m1, n1, r1) := digitpart body 0 O in
    let '(m, n2, r2) :=
      match r1 with
      | String "." r => digitpart r m1 O
      | _ => (m1, O, r1)
      end in
    if Nat.eqb (n1 + n2) 0 then None
    else
      match r2 with
      | EmptyString => Some (dec_to_float neg m (- Z.of_nat n2))
      | String c r3 =>
          if Ascii.eqb c "e" || Ascii.eqb c "E" then
            let (eneg, r4) := read_sign r3 in
            let '(ex, n3, r5) := digitpart r4 0 O in
            if Nat.eqb n3 0 || negb (String.eqb r5 EmptyString) then None
            else Some (dec_to_float neg m
                         ((if eneg then - ex else ex) - Z.of_nat n2))
          else None
      end.

(** [int(s)] for a string in base ten. *)
Definition parse_int (s : string) : option Z :=
  let (neg, body) := read_sign (PyStr.strip s) in
  let '(m, n, r) := digitpart body 0 O in
  if Nat.eqb n 0 || negb (String.eqb r EmptyString) then None
  else Some (if neg then - m else m).

(** The binary64 number 1.0, that is 2^52 * 2^-52. *)
Definition float_one : spec_float := S754_finite false 4503599627370496 (-52).

(** [float(v)] *)
Definition py_float (v : value) : result spec_float :=
  match v with
  | VFloat f => Ok f
  | VBool b => Ok (if b then float_one else S754_zero false)
  | VInt n =>
      match binary_normalize 53 1024 n 0 false with
      | S754_infinity _ => Raise OverflowError
      | f => Ok f
      end
  | VStr s =>
      match parse_float s with Some f => Ok f | None => Raise ValueError end
  | _ => Raise TypeError
  end.

(** [int(v)]: a float is truncated towards zero. *)
Definition py_int (v : value) : result Z :=
  match v with
  | VInt n => Ok n
  | VBool b => Ok (if b then 1 else 0)
  | VFloat f =>
      match f with
      | S754_zero _ => Ok 0
      | S754_finite s m e =>
          let a := if 0 <=? e then Z.pos m * 2 ^ e
                   else Z.pos m / 2 ^ (- e) in
          Ok (if s then - a else a)
      | S754_infinity _ => Raise OverflowError
      | S754_nan => Raise ValueError
      end
  | VStr s =>
      match parse_int s with Some n => Ok n | None => Raise ValueError end
  | _ => Raise TypeError
  end.

End Py.

Import Py.
Local Open Scope py_scope.

(** ** The forwarder *)

Section Forwarder.

(** Two built-ins of the language stay abstract: [repr] of an object that
    is not a string (floats are printed with their shortest round-trip
    digits) and [str.format] with keyword arguments, which raises
    [KeyError] on a placeholder that names no argument. *)
Variable py_repr : value -> string.
Variable py_format : string -> dict -> result string.

(** [str(v)] *)
Definition py_str (v : value) : string :=
  match v with
  | VStr s => s
  | _ => py_repr v
  end.

(** *** Dotted paths *)

(** The loop of [_get_nested_value] over the split path. *)
Fixpoint walk (keys : list string) (current : value) : value :=
  match keys with
  | [] => current
  | key :: keys' =>
      match current with
      | VDict d =>
          match dict_get key d with
          | Some v => walk keys' v
          | None => VNone
          end
      | _ => VNone
      end
  end.

(** [_get_nested_value(data, path)], called everywhere with the default
    [None]; [path.split] needs a string. *)
Definition _get_nested_value (data path : value) : result value :=
  match path with
  | VStr p => Ok (walk (PyStr.split "." p) data)
  | _ => Raise AttributeError
  end.

(** The loop that [_preprocess_message] repeats in each of its stages:
<<
    current = root
    for i, part in enumerate(parts):
        if i == len(parts) - 1: current[part] = value
        else:
            if part not in current: current[part] = {}
            current = current[part]
>>
    The result is [root] after the loop; the child that the loop descends
    into is written back in its parent. *)
Fixpoint set_parts (parts : list string) (v : value) (current : value)
  : result value :=
  match parts with
  | [] => Ok current
  | [part] => py_setitem current part v
  | part :: rest =>
      present <- py_contains (VStr part) current ;;
      current1 <- (if present then Ok current
                   else py_setitem current part (VDict [])) ;;
      child <- py_getitem current1 (VStr part) ;;
      child' <- set_parts rest v child ;;
      py_setitem current1 part child'
  end.

Definition set_nested (root field v : value) : result value :=
  match field with
  | VStr f => set_parts (PyStr.split "." f) v root
  | _ => Raise AttributeError
  end.

(** *** [_preprocess_message] *)

(** One entry of [field_mapping]. *)
Definition mapping_body (message : value) (entry : string * value)
  (mapped_message : value) : result value :=
  let (target_field, source_path) := entry in
  v <- _get_nested_value message source_path ;;
  match v with
  | VNone => Ok mapped_message
  | _ => set_parts (PyStr.split "." target_field) v mapped_message
  end.

(** Stage 1, field mapping: the new [result]. *)
Definition map_fields (message cfg : value) : result value :=
  mappings <- py_getitem cfg (VStr "field_mapping") ;;
  items <- py_items mappings ;;
  mapped_message <- fst (for_each (mapping_body message) items (VDict [])) ;;
  merge <- py_get cfg "merge_mapped" (VBool true) ;;
  if truthy merge then
    d <- py_unpack message ;;
    m <- py_unpack mapped_message ;;
    Ok (VDict (dict_update d m))
  else Ok mapped_message.

(** One element of [include_fields]. *)
Definition include_body (result0 : value) (field : value) (filtered : value)
  : result value :=
  v <- _get_nested_value result0 field ;;
  match v with
  | VNone => Ok filtered
  | _ => set_nested filtered field v
  end.

(** Stage 2, inclusion filter: the new [result]. *)
Definition include_fields (result0 cfg : value) : result value :=
  fields <- py_getitem cfg (VStr "include_fields") ;;
  fields <- py_iter fields ;;
  fst (for_each (include_body result0) fields (VDict [])).

(** The chain of [if]/[elif] on [transform_type]. *)
Definition transformed (transform_type v : value) : result value :=
  if py_eq transform_type (VStr "to_string") then Ok (VStr (py_str v))
  else if py_eq transform_type (VStr "to_int") then
    match py_int v with
    | Ok n => Ok (VInt n)
    | Raise ValueError | Raise TypeError => Ok (VInt 0)
    | Raise e => Raise e
    end
  else if py_eq transform_type (VStr "to_float") then
    match py_float v with
    | Ok f => Ok (VFloat f)
    | Raise ValueError | Raise TypeError => Ok (VFloat (S754_zero false))
    | Raise e => Raise e
    end
  else if py_eq transform_type (VStr "to_bool") then
    match v with
    | VStr s =>
        Ok (VBool (existsb (String.eqb (PyStr.lower s))
                     ["true"; "yes"; "1"; "y"]))
    | _ => Ok (VBool (truthy v))
    end
  else
    match transform_type with
    | VStr t =>
        if PyStr.startswith "format:" t then
          match py_format (PyStr.drop 7 t) [("value", v)] with
          | Ok s => Ok (VStr s)
          | Raise _ => Ok v
          end
        else Ok v
    | _ => Raise AttributeError
    end.

(** One entry of [transformations]. *)
Definition transform_body (entry : string * value) (result0 : value)
  : result value :=
  let (field, transform_type) := entry in
  v <- _get_nested_value result0 (VStr field) ;;
  match v with
  | VNone => Ok result0
  | _ =>
      t <- transformed transform_type v ;;
      set_parts (PyStr.split "." field) t result0
  end.

(** One entry of [add_fields]. *)
Definition add_body (entry : string * value) (result0 : value)
  : result value :=
  let (field, v) := entry in
  set_parts (PyStr.split "." field) v result0.

(** A stage that updates [result] in place, entry by entry:
    [if key in cfg: for entry in cfg[key].items(): body].  The second
    component is the object as the stage leaves it, also when it raises. *)
Definition run_stage (cfg : value) (key : string)
  (body : string * value -> value -> result value) (result0 : value)
  : result value * value :=
  match py_contains (VStr key) cfg with
  | Raise e => (Raise e, result0)
  | Ok false => (Ok result0, result0)
  | Ok true =>
      match (t <- py_getitem cfg (VStr key) ;; py_items t) with
      | Raise e => (Raise e, result0)
      | Ok items => for_each body items result0
      end
  end.

(** Stages 3 and 4, type transforms then field injection. *)
Definition in_place_stages (cfg result0 : value) : result value * value :=
  match run_stage cfg "transformations" transform_body result0 with
  | (Raise e, obj) => (Raise e, obj)
  | (Ok r, _) => run_stage cfg "add_fields" add_body r
  end.

(** [_preprocess_message(message, preprocess_config)]: what the call
    returns or raises, and the caller's [message] object after the call.
    Stages 1 and 2 bind [result] to a new dictionary; without them
    [result] is [message] itself and stages 3 and 4 update it. *)
Definition _preprocess_message (message preprocess_config : value)
  : result value * value :=
  if negb (truthy preprocess_config) then (Ok message, message)
  else
    let cfg := preprocess_config in
    match
      (has_mapping <- py_contains (VStr "field_mapping") cfg ;;
       r1 <- (if has_mapping then map_fields message cfg else Ok message) ;;
       has_include <- py_contains (VStr "include_fields") cfg ;;
       r2 <- (if has_include then include_fields r1 cfg else Ok r1) ;;
       Ok (r2, has_mapping || has_include))
    with
    | Raise e => (Raise e, message)
    | Ok (result0, rebound) =>
        let (out, obj) := in_place_stages cfg result0 in
        (out, if rebound then message else obj)
    end.

(** *** [_apply_template] *)

(** [_flatten_dict(data, result, prefix)]: [result] after the call. *)
Fixpoint _flatten_dict (data : value) (result0 : dict) (prefix : string)
  : dict :=
  match data with
  | VDict d =>
      (fix items (d : dict) (result0 : dict) : dict :=
         match d with
         | [] => result0
         | (key, v) :: d' =>
             let new_key :=
               if String.eqb prefix EmptyString then key
               else prefix ++ "." ++ key in
             match v with
             | VDict _ =>
                 items d' (dict_set new_key v (_flatten_dict v result0 new_key))
             | _ => items d' (dict_set new_key v result0)
             end
         end) d result0
  | _ => result0
  end.

(** The inner function [replace_variables(template_value, data)]. *)
Fixpoint replace_variables (template_value : value) (data : dict)
  : result value :=
  match template_value with
  | VDict d =>
      d' <- (fix each (d : dict) : result dict :=
               match d with
               | [] => Ok []
               | (k, v) :: rest =>
                   v' <- replace_variables v data ;;
                   rest' <- each rest ;;
                   Ok ((k, v') :: rest')
               end) d ;;
      Ok (VDict d')
  | VList l =>
      l' <- (fix each (l : list value) : result (list value) :=
               match l with
               | [] => Ok []
               | v :: rest =>
                   v' <- replace_variables v data ;;
                   rest' <- each rest ;;
                   Ok (v' :: rest')
               end) l ;;
      Ok (VList l')
  | VStr s =>
      if PyStr.contains "{" s then
        match py_format s data with
        | Ok s' => Ok (VStr s')
        | Raise KeyError => Ok template_value
        | Raise e => Raise e
        end
      else Ok template_value
  | _ => Ok template_value
  end.

(** [_apply_template(message, template_name)] under the configuration
    [config]. *)
Definition _apply_template (config message template_name : value)
  : result value :=
  if negb (truthy template_name) then Ok message
  else
    templates <- py_get config "templates" (VDict []) ;;
    known <- py_contains template_name templates ;;
    if negb known then Ok message
    else
      templates <- py_getitem config (VStr "templates") ;;
      template <- py_getitem templates template_name ;;
      let format_data := _flatten_dict message [] EmptyString in
      entries <- py_items template ;;
      r <- fst (for_each
                  (fun (entry : string * value) (acc : dict) =>
                     v <- replace_variables (snd entry) format_data ;;
                     Ok (dict_set (fst entry) v acc))
                  entries []) ;;
      Ok (VDict r).

(** The transform of a payload, as [webhook_handler] runs it: preprocess
    when the route has a spec, then the template when it names one; a
    stage that raises is logged and the payload object goes on as it is. *)
Definition transform (config preprocess template_name payload : value)
  : value :=
  let payload1 :=
    if truthy preprocess then
      match _preprocess_message payload preprocess with
      | (Ok r, _) => r
      | (Raise _, obj) => obj
      end
    else payload in
  if truthy template_name then
    match _apply_template config payload1 template_name with
    | Ok r => r
    | Raise _ => payload1
    end
  else payload1.

(** *** Target eligibility *)

(** [_should_forward(message, target)] *)
Definition _should_forward (message target : value) : result bool :=
  enabled <- py_get target "enabled" (VBool true) ;;
  if negb (truthy enabled) then Ok false
  else
    event_type <- py_get message "event_type" VNone ;;
    has_types <- py_contains (VStr "event_types") target ;;
    type_rejected <-
      (if has_types then
         event_types <- py_getitem target (VStr "event_types") ;;
         listed <- py_contains event_type event_types ;;
         Ok (negb listed)
       else Ok false) ;;
    if type_rejected then Ok false
    else
      has_symbols <- py_contains (VStr "symbols") target ;;
      if has_symbols &&
         existsb (fun x => py_eq x event_type)
           [VStr "trade"; VStr "position_update"]
      then
        data <- py_get message "data" (VDict []) ;;
        symbol <- py_get data "symbol" VNone ;;
        if truthy symbol then
          symbols <- py_getitem target (VStr "symbols") ;;
          listed <- py_contains symbol symbols ;;
          Ok listed
        else Ok true
      else Ok true.

(** *** [_format_message] *)

Definition add_scalars (items data : dict) : dict :=
  fold_left
    (fun acc kv => if is_scalar (snd kv) then dict_set (fst kv) (snd kv) acc
                   else acc)
    items data.

(** The dictionary that both custom formats build: the scalar fields of
    the message, then those of [message["data"]]. *)
Definition scalar_fields (message : value) : result dict :=
  items <- py_items message ;;
  let data := add_scalars items [] in
  has_data <- py_contains (VStr "data") message ;;
  if has_data then
    inner <- py_getitem message (VStr "data") ;;
    match inner with
    | VDict d => Ok (add_scalars d data)
    | _ => Ok data
    end
  else Ok data.

(** The inner function [replace_vars(template, data)]. *)
Fixpoint replace_vars (template : value) (data : dict) : value :=
  match template with
  | VDict d =>
      VDict ((fix each (d : dict) : dict :=
                match d with
                | [] => []
                | (k, v) :: rest => (k, replace_vars v data) :: each rest
                end) d)
  | VList l =>
      VList ((fix each (l : list value) : list value :=
                match l with
                | [] => []
                | v :: rest => replace_vars v data :: each rest
                end) l)
  | VStr s =>
      if PyStr.contains "$" s then
        VStr (fold_left
                (fun t kv => PyStr.replace ("$" ++ fst kv) (py_str (snd kv)) t)
                data s)
      else template
  | _ => template
  end.

(** [message.get("description", str(message))] *)
Definition description_of (message : value) : result value :=
  py_get message "description" (VStr (py_str message)).

(** [d.get(key)] for any key *)
Definition py_get_key (obj key : value) : result value :=
  match obj with
  | VDict d =>
      match key with
      | VStr k =>
          Ok (match dict_get k d with Some v => v | None => VNone end)
      | _ => if hashable key then Ok VNone else Raise TypeError
      end
  | _ => Raise AttributeError
  end.

(** [target.get("type") == kind or kind in target.get("url", '').lower()] *)
Definition is_kind (target : value) (kind : string) : result bool :=
  ty <- py_get target "type" VNone ;;
  if py_eq ty (VStr kind) then Ok true
  else
    url <- py_get target "url" (VStr EmptyString) ;;
    match url with
    | VStr u => Ok (PyStr.contains kind (PyStr.lower u))
    | _ => Raise AttributeError
    end.

Definition text_message (key : string) (d : value) : value :=
  VDict [("msgtype", VStr "text"); ("text", VDict [(key, d)])].

(** The rules that follow the custom formats: the chat schemas by target
    kind, first match wins, then the message itself. *)
Definition format_by_kind (message target : value) : result value :=
  wechat <- is_kind target "wechat" ;;
  if wechat then
    d <- description_of message ;;
    Ok (text_message "content" d)
  else
    ty <- py_get target "type" VNone ;;
    if py_eq ty (VStr "wechat_personal") then
      wxid <- py_get target "wxid" (VStr EmptyString) ;;
      if negb (truthy wxid) then Ok (VDict [])
      else
        d <- description_of message ;;
        Ok (VDict [("type", VStr "sendText");
                   ("data", VDict [("wxid", wxid); ("msg", d)])])
    else
      feishu <- is_kind target "feishu" ;;
      if feishu then
        d <- description_of message ;;
        Ok (VDict [("msg_type", VStr "text");
                   ("content", VDict [("text", d)])])
      else
        dingtalk <- is_kind target "dingtalk" ;;
        if dingtalk then
          d <- description_of message ;;
          Ok (text_message "content" d)
        else Ok message.

(** [_format_message(message, target)] *)
Definition _format_message (message target : value) : result value :=
  has_format <- py_contains (VStr "format") target ;;
  if has_format then
    format_type <- py_get target "format_type" (VStr "default") ;;
    if py_eq format_type (VStr "template") then
      template <- py_getitem target (VStr "format") ;;
      data <- scalar_fields message ;;
      Ok (replace_vars template data)
    else if py_eq format_type (VStr "text") then
      event_type <- py_get message "event_type" (VStr "unknown") ;;
      format <- py_getitem target (VStr "format") ;;
      format_template <- py_get_key format event_type ;;
      format_template <-
        (if negb (truthy format_template)
         then py_get format "default" (VStr "{description}")
         else Ok format_template) ;;
      format_data <- scalar_fields message ;;
      match format_template with
      | VStr t =>
          match py_format t format_data with
          | Ok text => Ok (VDict [("text", VStr text)])
          | Raise KeyError =>
              d <- description_of message ;;
              Ok (VDict [("text", d)])
          | Raise e => Raise e
          end
      | _ => Raise AttributeError
      end
    else format_by_kind message target
  else format_by_kind message target.

(** *** Outbound delivery *)

(** What [forward_to_target] hands to the HTTP client. *)
Record outbound : Type := {
  out_url : value;
  out_json : value;
  out_headers : dict;
  out_timeout : value
}.

(** The HTTP client: whether the POST came back with a 2xx status.  A
    network error or a timeout is a failure. *)
Variable http_post : outbound -> bool.

(** The body of the [try] of [forward_to_target] up to the POST: the
    request to send, or [None] when the target has no URL. *)
Definition outbound_request (message target : value)
  : result (option outbound) :=
  url <- py_get target "url" VNone ;;
  if negb (truthy url) then Ok None
  else
    payload <- _format_message message target ;;
    extra <- py_get target "headers" VNone ;;
    extra <- py_unpack (if truthy extra then extra else VDict []) ;;
    timeout <- py_get target "timeout" (VInt 10) ;;
    Ok (Some {| out_url := url;
                out_json := payload;
                out_headers :=
                  dict_update [("Content-Type", VStr "application/json")]
                              extra;
                out_timeout := timeout |}).

(** [forward_to_target(message, target)]: every exception is caught and
    counts as a failure. *)
Definition forward_to_target (message target : value) : bool :=
  match outbound_request message target with
  | Ok (Some r) => http_post r
  | _ => false
  end.

(** *** The forwarder's state and the history *)

(** The route object that a webhook handler holds.  [_register_route]
    closes the handler over the dictionary it is given.  As long as the
    catalogue holds that dictionary under [key], what [PUT] writes into
    it is what the handler reads; once [POST] has put another dictionary
    under the key, or [DELETE] has removed the key, nothing writes to it
    any more and the handler holds it as it was then. *)
Inductive route_ref : Type :=
| InCatalogue (key : string)
| Detached (route_config : value).

(** A webhook handler of the application, bound by [_register_route] for
    one method and one path. *)
Record handler : Type := {
  h_method : string;
  h_path : string;
  h_route : route_ref
}.

(** The forwarder: its configuration, its history, and the webhook
    handlers that its application holds, in the order they were added. *)
Record forwarder : Type := {
  config : value;
  message_history : list value;
  max_history_size : nat;
  handlers : list handler
}.

(** [__init__] up to the call of [_register_routes]: an empty history of
    capacity 100 and no webhook handler yet. *)
Definition init (cfg : value) : forwarder :=
  {| config := cfg; message_history := []; max_history_size := 100;
     handlers := [] |}.

Definition history_entry (now : string) (message : value) : value :=
  VDict [("timestamp", VStr now); ("message", message)].

(** [_add_to_history(message)], at the local time [now]. *)
Definition _add_to_history (now : string) (message : value)
  (self : forwarder) : forwarder :=
  let h := history_entry now message :: message_history self in
  {| config := config self;
     message_history :=
       if Nat.ltb (max_history_size self) (List.length h)
       then firstn (max_history_size self) h
       else h;
     max_history_size := max_history_size self;
     handlers := handlers self |}.

(** *** [process_message] *)

(** The state of the two loops: the [results] list and, as a ghost log,
    the targets that [forward_to_target] was called with, in order. *)
Definition log : Type := (list value * list value)%type.

Definition results_of (l : log) : list value := fst l.
Definition forwarded (l : log) : list value := snd l.

(** [result = await self.forward_to_target(message, target)] followed by
    [results.append({...})]. *)
Definition deliver (message target : value) (l : log) : result log :=
  let ok := forward_to_target message target in
  id <- py_get target "id" VNone ;;
  name <- py_get target "name" VNone ;;
  Ok ((results_of l ++ [VDict [("target_id", id); ("target_name", name);
                               ("success", VBool ok)]])%list,
      (forwarded l ++ [target])%list).

(** The body of the loop under [if target_ids and len(target_ids) > 0]. *)
Definition explicit_body (message target_ids target : value) (l : log)
  : result log :=
  id <- py_get target "id" VNone ;;
  listed <- py_contains id target_ids ;;
  if listed then
    enabled <- py_get target "enabled" (VBool true) ;;
    if truthy enabled then deliver message target l else Ok l
  else Ok l.

(** The body of the loop that follows the [else]. *)
Definition broadcast_body (message target : value) (l : log) : result log :=
  enabled <- py_get target "enabled" (VBool true) ;;
  if truthy enabled then
    pass <- _should_forward message target ;;
    if pass then deliver message target l else Ok l
  else Ok l.

(** [for target in self.config.get("targets", []): body] *)
Definition over_targets (cfg : value) (body : value -> log -> result log)
  (l : log) : result log * log :=
  match (targets <- py_get cfg "targets" (VList []) ;; py_iter targets) with
  | Raise e => (Raise e, l)
  | Ok targets => for_each body targets l
  end.

(** [process_message(message, target_ids)]: the returned list or the
    exception, the calls made to [forward_to_target], and the forwarder
    afterwards.  In the source the second loop is indented at the level
    of the [if], not inside the [else], whose only statement is the log
    line: it runs in both cases. *)
Definition process_message (self : forwarder) (now : string)
  (message target_ids : value) : result (list value) * list value * forwarder :=
  let self' := _add_to_history now message self in
  let first :=
    match (if truthy target_ids
           then (n <- py_len target_ids ;; Ok (0 <? n))
           else Ok false) with
    | Raise e => (Raise e, ([], []))
    | Ok true =>
        over_targets (config self) (explicit_body message target_ids) ([], [])
    | Ok false => (Ok ([], []), ([], []))
    end in
  match first with
  | (Raise e, l) => (Raise e, forwarded l, self')
  | (Ok l, _) =>
      match over_targets (config self) (broadcast_body message) l with
      | (Raise e, l') => (Raise e, forwarded l', self')
      | (Ok l', _) => (Ok (results_of l'), forwarded l', self')
      end
  end.

(** *** The router *)

(** An inbound request as the handler sees it.  Header names are matched
    without regard to case and the first value of a name counts; a query
    parameter repeated in the URL has its last value.  [req_body] is the
    payload that the content-type-directed decoding produced, or the
    exception of a body that is announced as JSON and is not. *)
Record request : Type := {
  req_method : string;
  req_headers : list (string * string);
  req_query : list (string * string);
  req_body : result value
}.

Fixpoint header_get (name : string) (hs : list (string * string))
  : option string :=
  match hs with
  | [] => None
  | (k, v) :: hs' =>
      if String.eqb (PyStr.lower k) (PyStr.lower name) then Some v
      else header_get name hs'
  end.

Fixpoint query_get (name : string) (qs : list (string * string))
  : option string :=
  match qs with
  | [] => None
  | (k, v) :: qs' =>
      match query_get name qs' with
      | Some v' => Some v'
      | None => if String.eqb k name then Some v else None
      end
  end.

(** One required header or query parameter: [get] looks the name up in
    the request, [missing] and [mismatch] build the two diagnostics. *)
Definition check_entry (get : string -> option string)
  (missing mismatch : string -> string) (entry : string * value) (_ : unit)
  : result unit :=
  let (name, expected) := entry in
  match get name with
  | None => Raise (HTTPException 400 (missing name))
  | Some got =>
      if truthy expected && negb (py_eq (VStr got) expected)
      then Raise (HTTPException 400 (mismatch name))
      else Ok tt
  end.

(** [if key in route_config and route_config[key]: for ... in
    route_config[key].items(): ...] *)
Definition check_section (route_config : value) (key : string)
  (get : string -> option string) (missing mismatch : string -> string)
  : result unit :=
  has <- py_contains (VStr key) route_config ;;
  if has then
    required <- py_getitem route_config (VStr key) ;;
    if truthy required then
      entries <- py_items required ;;
      fst (for_each (check_entry get missing mismatch) entries tt)
    else Ok tt
  else Ok tt.

Definition header_missing (name : string) : string :=
  "缺少必要的请求头: " ++ name.
Definition header_mismatch (name : string) : string :=
  "请求头 " ++ name ++ " 的值不匹配".
Definition param_missing (name : string) : string :=
  "缺少必要的查询参数: " ++ name.
Definition param_mismatch (name : string) : string :=
  "查询参数 " ++ name ++ " 的值不匹配".

(** The dependency [request_filter(request)] of a route. *)
Definition request_filter (route_config : value) (r : request)
  : result bool :=
  _ <- check_section route_config "headers"
         (fun n => header_get n (req_headers r))
         header_missing header_mismatch ;;
  _ <- check_section route_config "query_params"
         (fun n => query_get n (req_query r))
         param_missing param_mismatch ;;
  Ok true.

(** [str(e)] for a caught exception. *)
Variable exn_str : exn -> string.

Definition route_info (route_path : string) (r : request) (now_ms : Z)
  : value :=
  VDict [("path", VStr route_path); ("method", VStr (req_method r));
         ("timestamp", VInt now_ms)].

(** [d.setdefault(k, v)] *)
Definition setdefault (k : string) (v : value) (d : dict) : dict :=
  if dict_mem k d then d else dict_set k v d.

(** [if isinstance(payload, dict): payload.setdefault("_route", {...})] *)
Definition enrich (route_path : string) (r : request) (now_ms : Z)
  (payload : value) : value :=
  match payload with
  | VDict d => VDict (setdefault "_route" (route_info route_path r now_ms) d)
  | _ => payload
  end.

(** The message that [webhook_handler] passes to [process_message], and
    the target list it passes with it. *)
Definition handler_message (self : forwarder) (route_path : string)
  (route_config : value) (r : request) (now_ms : Z) : result (value * value) :=
  payload <- req_body r ;;
  preprocess <- py_get route_config "preprocess" VNone ;;
  template <- py_get route_config "template" VNone ;;
  let payload := transform (config self) preprocess template payload in
  let payload := enrich route_path r now_ms payload in
  target_ids <- py_get route_config "target_ids" (VList []) ;;
  Ok (payload, target_ids).

(** [webhook_handler(request)] of the route [route_path], at the clock
    readings [now_ms] and [now]: the response or the HTTP error, the
    calls to [forward_to_target], and the forwarder afterwards. *)
Definition webhook_handler (self : forwarder) (route_path : string)
  (route_config : value) (r : request) (now_ms : Z) (now : string)
  : result value * list value * forwarder :=
  match handler_message self route_path route_config r now_ms with
  | Raise e => (Raise (HTTPException 500 (exn_str e)), [], self)
  | Ok (payload, target_ids) =>
      match process_message self now payload target_ids with
      | (Ok results, sent, self') =>
          (Ok (VDict [("status", VStr "success");
                      ("message",
                       VStr ("消息已接收并通过路由 " ++ route_path ++ " 处理"));
                      ("results", VList results)]),
           sent, self')
      | (Raise e, sent, self') =>
          (Raise (HTTPException 500 (exn_str e)), sent, self')
      end
  end.

(** A request to a registered route: the framework resolves the
    dependency first and calls the handler only when it returns. *)
Definition serve (self : forwarder) (route_path : string)
  (route_config : value) (r : request) (now_ms : Z) (now : string)
  : result value * list value * forwarder :=
  match request_filter route_config r with
  | Raise e => (Raise e, [], self)
  | Ok _ => webhook_handler self route_path route_config r now_ms now
  end.

(** [if not path.startswith('/'): path = f"/{path}"] *)
Definition normalize_path (path : string) : string :=
  if PyStr.startswith "/" path then path else "/" ++ path.

(** *** Registration *)

Definition set_config (self : forwarder) (cfg : value) : forwarder :=
  {| config := cfg;
     message_history := message_history self;
     max_history_size := max_history_size self;
     handlers := handlers self |}.

Definition set_handlers (self : forwarder) (hs : list handler) : forwarder :=
  {| config := config self;
     message_history := message_history self;
     max_history_size := max_history_size self;
     handlers := hs |}.

(** The route object behind a reference, as the handler reads it when a
    request comes in. *)
Definition held (self : forwarder) (r : route_ref) : option value :=
  match r with
  | Detached route_config => Some route_config
  | InCatalogue key =>
      match config self with
      | VDict c =>
          match dict_get "routes" c with
          | Some (VDict routes) => dict_get key routes
          | _ => None
          end
      | _ => None
      end
  end.

(** The catalogue is about to let go of the dictionary under [key]
    (another one is assigned to the key, or the key is deleted): the
    handlers that were bound with it keep it as it is now. *)
Definition detach (key : string) (self : forwarder) : forwarder :=
  match held self (InCatalogue key) with
  | None => self
  | Some route_config =>
      set_handlers self
        (map (fun h =>
                match h_route h with
                | InCatalogue k =>
                    if String.eqb k key
                    then {| h_method := h_method h; h_path := h_path h;
                            h_route := Detached route_config |}
                    else h
                | Detached _ => h
                end)
             (handlers self))
  end.

(** Adding a route to the application is the framework's business: it
    compiles the path and refuses some (two parameters of one name, an
    unknown convertor).  [path_error p] is the exception it raises for
    the path [p], if any. *)
Variable path_error : string -> option exn.

(** One turn of [for method in methods]: [self.app.post(route_path,
    ...)(webhook_handler)] and its siblings append a handler to the
    application's routes; a method outside the five is skipped with a
    warning. *)
Definition bind_method (route_path : string) (held_as : route_ref)
  (m : value) (hs : list handler) : result (list handler) :=
  match m with
  | VStr m =>
      let m := PyStr.upper m in
      if existsb (String.eqb m) ["GET"; "POST"; "PUT"; "DELETE"; "PATCH"]
      then
        match path_error route_path with
        | Some e => Raise e
        | None =>
            Ok (hs ++ [{| h_method := m; h_path := route_path;
                          h_route := held_as |}])%list
        end
      else Ok hs
  | _ => Raise AttributeError
  end.

(** [_register_route(route_path, route_config)]: the outcome and the
    forwarder with the handlers bound so far, also when a later method
    raises.  [held_as] says how the handlers hold [route_config]: under
    which key of the catalogue the caller keeps this dictionary. *)
Definition _register_route (self : forwarder) (route_path : string)
  (route_config : value) (held_as : route_ref) : result unit * forwarder :=
  let route_path := normalize_path route_path in
  match py_get route_config "methods" (VList [VStr "POST"]) with
  | Raise e => (Raise e, self)
  | Ok methods =>
      let methods :=
        match methods with
        | VList (m :: ms) => m :: ms
        | _ => [VStr "POST"]
        end in
      match for_each (bind_method route_path held_as) methods
              (handlers self) with
      | (Ok _, hs) => (Ok tt, set_handlers self hs)
      | (Raise e, hs) => (Raise e, set_handlers self hs)
      end
  end.

(** The first loop of [_register_routes], run by [__init__]: one
    [_register_route] per route of the configuration, each with the
    dictionary that the catalogue holds.  The endpoints of the control
    API are declared after it. *)
Definition _register_routes (self : forwarder) : result forwarder :=
  routes <- py_get (config self) "routes" (VDict []) ;;
  items <- py_items routes ;;
  fst (for_each
         (fun (entry : string * value) (self : forwarder) =>
            match _register_route self (fst entry) (snd entry)
                    (InCatalogue (fst entry)) with
            | (Ok _, self') => Ok self'
            | (Raise e, _) => Raise e
            end)
         items self).

(** *** Webhook requests *)

(** Whether a request path matches the path of a route is the
    framework's business too (a path without parameters matches itself
    only). *)
Variable path_matches : string -> string -> bool.

(** The webhook handler that answers a request: the first one, in the
    order they were added, whose path matches and whose method is the
    request's.  This is for requests that none of the application's
    other routes (the control API, the documentation pages) takes
    first. *)
Definition webhook_for (self : forwarder) (method path : string)
  : option handler :=
  find (fun h => path_matches (h_path h) path
                 && String.eqb (h_method h) method)
       (handlers self).

(** A request to the application on [path]: nothing when no webhook
    handler answers it, else what [serve] makes of it with the route
    object that the handler holds. *)
Definition webhook_request (self : forwarder) (path : string) (r : request)
  (now_ms : Z) (now : string)
  : option (result value * list value * forwarder) :=
  match webhook_for self (req_method r) path with
  | None => None
  | Some h =>
      match held self (h_route h) with
      | None => None
      | Some route_config =>
          Some (serve self (h_path h) route_config r now_ms now)
      end
  end.

(** *** The control API for routes *)

(** [self.config["routes"][path] = route_config] *)
Definition store_route (cfg : value) (path : string) (route_config : value)
  : result value :=
  routes <- py_getitem cfg (VStr "routes") ;;
  routes <- py_setitem routes path route_config ;;
  py_setitem cfg "routes" routes.

(** [POST /routes] with the JSON object [route] as body.  The new
    dictionary takes the place of the one the catalogue may hold under
    the path, and the handlers are bound with the new one. *)
Definition add_route (self : forwarder) (route : value)
  : result value * forwarder :=
  match
    (has_path <- py_contains (VStr "path") route ;;
     if negb has_path
     then Raise (HTTPException 400 "路由必须包含path字段")
     else
       path <- py_getitem route (VStr "path") ;;
       match path with
       | VStr p =>
           let path := normalize_path p in
           target_ids <- py_get route "target_ids" (VList []) ;;
           description <- py_get route "description" (VStr ("路由 " ++ path)) ;;
           methods <- py_get route "methods" (VList [VStr "POST"]) ;;
           headers <- py_get route "headers" (VDict []) ;;
           query_params <- py_get route "query_params" (VDict []) ;;
           let route_config :=
             [("target_ids", target_ids); ("description", description);
              ("methods", methods); ("headers", headers);
              ("query_params", query_params)] in
           cfg <- store_route (config self) path (VDict route_config) ;;
           Ok (path, route_config, cfg)
       | _ => Raise AttributeError
       end)
  with
  | Raise e => (Raise e, self)
  | Ok (path, route_config, cfg) =>
      let self' := set_config (detach path self) cfg in
      match _register_route self' path (VDict route_config)
              (InCatalogue path) with
      | (Raise e, self'') => (Raise e, self'')
      | (Ok _, self'') =>
          (Ok (VDict [("status", VStr "success");
                      ("message", VStr ("已添加路由: " ++ path));
                      ("route",
                       VDict (dict_update [("path", VStr path)] route_config))]),
           self'')
      end
  end.

(** [del container[key]] for a string [key] *)
Definition py_delitem (container : value) (key : string) : result value :=
  match container with
  | VDict d =>
      if dict_mem key d then Ok (VDict (dict_del key d)) else Raise KeyError
  | _ => Raise TypeError
  end.

Definition not_found (path : string) : exn :=
  HTTPException 404 ("未找到路由: " ++ path).

(** [DELETE /routes/{path}]: the entry leaves the catalogue; no handler
    is removed from the application. *)
Definition delete_route (self : forwarder) (path : string)
  : result value * forwarder :=
  let path := normalize_path path in
  match
    (routes <- py_get (config self) "routes" (VDict []) ;;
     known <- py_contains (VStr path) routes ;;
     if known then
       routes <- py_getitem (config self) (VStr "routes") ;;
       routes <- py_delitem routes path ;;
       py_setitem (config self) "routes" routes
     else Raise (not_found path))
  with
  | Raise e => (Raise e, self)
  | Ok cfg =>
      (Ok (VDict [("status", VStr "success");
                  ("message", VStr ("已删除路由: " ++ path))]),
       set_config (detach path self) cfg)
  end.

(** [PUT /routes/{path}] with the JSON object [route_update] as body:
    the dictionary of the catalogue is updated in place, so the handlers
    bound with it read the update, and handlers are bound with it once
    more. *)
Definition update_route (self : forwarder) (path : string)
  (route_update : value) : result value * forwarder :=
  let path := normalize_path path in
  match
    (routes <- py_get (config self) "routes" (VDict []) ;;
     known <- py_contains (VStr path) routes ;;
     if known then
       routes <- py_getitem (config self) (VStr "routes") ;;
       route <- py_getitem routes (VStr path) ;;
       route <- (match route with
                 | VDict d =>
                     u <- py_unpack route_update ;;
                     Ok (dict_update d u)
                 | _ => Raise AttributeError
                 end) ;;
       cfg <- store_route (config self) path (VDict route) ;;
       Ok (route, cfg)
     else Raise (not_found path))
  with
  | Raise e => (Raise e, self)
  | Ok (route, cfg) =>
      let self' := set_config self cfg in
      match _register_route self' path (VDict route) (InCatalogue path) with
      | (Raise e, self'') => (Raise e, self'')
      | (Ok _, self'') =>
          (Ok (VDict [("status", VStr "success");
                      ("message", VStr ("已更新路由: " ++ path));
                      ("route",
                       VDict (dict_update [("path", VStr path)] route))]),
           self'')
      end
  end.

(** *** The control API for targets *)

(** [str(n)] for an integer *)
Definition int_str (n : Z) : string := NilZero.string_of_int (Z.to_int n).

Definition bad_target : exn :=
  HTTPException 400 "目标必须包含name和url字段".

Definition target_not_found (target_id : string) : exn :=
  HTTPException 404 ("未找到ID为 " ++ target_id ++ " 的转发目标").

(** [targets.append(target)] *)
Definition py_append (container item : value) : result value :=
  match container with
  | VList l => Ok (VList (l ++ [item])%list)
  | _ => Raise AttributeError
  end.

(** [POST /targets] with the JSON object [target] as body, at the clock
    reading [now_s] (seconds). *)
Definition add_target (self : forwarder) (target : value) (now_s : Z)
  : result value * forwarder :=
  match
    (has_name <- py_contains (VStr "name") target ;;
     has_url <- (if has_name then py_contains (VStr "url") target
                 else Ok false) ;;
     if negb (has_name && has_url) then Raise bad_target
     else
       has_id <- py_contains (VStr "id") target ;;
       target <- (if has_id then Ok target
                  else py_setitem target "id"
                         (VStr ("target_" ++ int_str now_s))) ;;
       has_enabled <- py_contains (VStr "enabled") target ;;
       target <- (if has_enabled then Ok target
                  else py_setitem target "enabled" (VBool true)) ;;
       targets <- py_getitem (config self) (VStr "targets") ;;
       targets <- py_append targets target ;;
       cfg <- py_setitem (config self) "targets" targets ;;
       name <- py_getitem target (VStr "name") ;;
       Ok (target, name, cfg))
  with
  | Raise e => (Raise e, self)
  | Ok (target, name, cfg) =>
      (Ok (VDict [("status", VStr "success");
                  ("message", VStr ("已添加转发目标: " ++ py_str name));
                  ("target", target)]),
       set_config self cfg)
  end.

(** [[t for t in targets if t.get("id") != target_id]] *)
Fixpoint without_id (target_id : string) (targets : list value)
  : result (list value) :=
  match targets with
  | [] => Ok []
  | t :: rest =>
      id <- py_get t "id" VNone ;;
      rest' <- without_id target_id rest ;;
      Ok (if py_eq id (VStr target_id) then rest' else t :: rest')
  end.

(** [DELETE /targets/{target_id}].  The filtered list is stored before
    the count is compared, so the configuration of the second component
    holds it also when the answer is 404. *)
Definition delete_target (self : forwarder) (target_id : string)
  : result value * forwarder :=
  match
    (targets <- py_get (config self) "targets" (VList []) ;;
     initial_count <- py_len targets ;;
     items <- py_iter targets ;;
     kept <- without_id target_id items ;;
     cfg <- py_setitem (config self) "targets" (VList kept) ;;
     Ok (initial_count, kept, cfg))
  with
  | Raise e => (Raise e, self)
  | Ok (initial_count, kept, cfg) =>
      if Z.of_nat (List.length kept) <? initial_count then
        (Ok (VDict [("status", VStr "success");
                    ("message", VStr ("已删除转发目标 ID: " ++ target_id))]),
         set_config self cfg)
      else (Raise (target_not_found target_id), set_config self cfg)
  end.

(** The loop of [update_target]: the index and the target of the first
    element whose [id] equals [target_id]. *)
Fixpoint find_target (target_id : string) (targets : list value) (i : nat)
  : result (option (nat * value)) :=
  match targets with
  | [] => Ok None
  | t :: rest =>
      id <- py_get t "id" VNone ;;
      if py_eq id (VStr target_id) then Ok (Some (i, t))
      else find_target target_id rest (S i)
  end.

(** [l[i] = v] for an index inside the list *)
Fixpoint list_set (l : list value) (i : nat) (v : value) : list value :=
  match l, i with
  | [], _ => []
  | _ :: rest, O => v :: rest
  | x :: rest, S i' => x :: list_set rest i' v
  end.

(** [PUT /targets/{target_id}] with the JSON object [target_update] as
    body. *)
Definition update_target (self : forwarder) (target_id : string)
  (target_update : value) : result value * forwarder :=
  match
    (targets <- py_get (config self) "targets" (VList []) ;;
     items <- py_iter targets ;;
     found <- find_target target_id items O ;;
     match found with
     | None => Raise (target_not_found target_id)
     | Some (i, _) =>
         targets <- py_getitem (config self) (VStr "targets") ;;
         target <- py_getitem targets (VInt (Z.of_nat i)) ;;
         target <- (match target with
                    | VDict d =>
                        u <- py_unpack target_update ;;
                        Ok (VDict (dict_update d u))
                    | _ => Raise AttributeError
                    end) ;;
         targets <- (match targets with
                     | VList l => Ok (VList (list_set l i target))
                     | _ => Raise TypeError
                     end) ;;
         cfg <- py_setitem (config self) "targets" targets ;;
         name <- py_get target "name" VNone ;;
         Ok (target, name, cfg)
     end)
  with
  | Raise e => (Raise e, self)
  | Ok (target, name, cfg) =>
      (Ok (VDict [("status", VStr "success");
                  ("message", VStr ("已更新转发目标: " ++ py_str name));
                  ("target", target)]),
       set_config self cfg)
  end.

(** [GET /targets] *)
Definition get_targets (self : forwarder) : result value :=
  targets <- py_get (config self) "targets" (VList []) ;;
  Ok (VDict [("targets", targets)]).

(** [GET /routes] *)
Definition get_routes (self : forwarder) : result value :=
  routes <- py_get (config self) "routes" (VDict []) ;;
  Ok (VDict [("routes", routes)]).

(** *** History query and test dispatch *)

(** [l[:limit]]: a negative limit counts from the end. *)
Definition slice_to {A} (l : list A) (limit : Z) : list A :=
  if 0 <=? limit then firstn (Z.to_nat limit) l
  else firstn (List.length l - Z.to_nat (- limit)) l.

(** [GET /history?limit=N] *)
Definition get_history (self : forwarder) (limit : Z) : value :=
  VDict [("history", VList (slice_to (message_history self) limit))].

(** The binary64 number nearest to 0.1. *)
Definition float_0_1 : spec_float := S754_finite false 7205759403792794 (-56).

Definition test_message (now_ms : Z) : value :=
  VDict [("event_type", VStr "test");
         ("description", VStr "这是一条测试消息");
         ("timestamp", VInt now_ms);
         ("data", VDict [("symbol", VStr "BTC/USDT");
                         ("operation", VStr "测试");
                         ("price", VInt 50000);
                         ("amount", VFloat float_0_1)])].

(** The first loop of [send_test_message]: the first target whose [id]
    equals [target_id]. *)
Fixpoint first_with_id (target_id : string) (targets : list value)
  : result (option value) :=
  match targets with
  | [] => Ok None
  | t :: rest =>
      id <- py_get t "id" VNone ;;
      if py_eq id (VStr target_id) then Ok (Some t)
      else first_with_id target_id rest
  end.

(** [POST /test] with the optional query parameters [target_id] and
    [route_path]: the response or the error, the calls to
    [forward_to_target], and the forwarder afterwards. *)
Definition send_test_message (self : forwarder) (target_id : option string)
  (route_path : option string) (now_ms : Z) (now : string)
  : result value * list value * forwarder :=
  let message := test_message now_ms in
  let given (o : option string) : option string :=
    match o with
    | Some s => if String.eqb s EmptyString then None else Some s
    | None => None
    end in
  match given target_id, given route_path with
  | Some id, _ =>
      match (targets <- py_get (config self) "targets" (VList []) ;;
             items <- py_iter targets ;;
             first_with_id id items) with
      | Raise e => (Raise e, [], self)
      | Ok None => (Raise (target_not_found id), [], self)
      | Ok (Some target) =>
          if truthy target then
            let ok := forward_to_target message target in
            match py_get target "name" VNone with
            | Raise e => (Raise e, [target], self)
            | Ok name =>
                (Ok (VDict [("status",
                             VStr (if ok then "success" else "error"));
                            ("message",
                             VStr ("测试消息已发送到: " ++ py_str name));
                            ("result", VBool ok)]),
                 [target], self)
            end
          else (Raise (target_not_found id), [], self)
      end
  | None, Some path =>
      let path := normalize_path path in
      match (routes <- py_get (config self) "routes" (VDict []) ;;
             known <- py_contains (VStr path) routes ;;
             if negb known then Raise (not_found path)
             else
               routes <- py_getitem (config self) (VStr "routes") ;;
               route_config <- py_getitem routes (VStr path) ;;
               py_get route_config "target_ids" (VList [])) with
      | Raise e => (Raise e, [], self)
      | Ok target_ids =>
          match process_message self now message target_ids with
          | (Ok results, sent, self') =>
              (Ok (VDict [("status", VStr "success");
                          ("message",
                           VStr ("测试消息已通过路由 " ++ path ++ " 发送"));
                          ("results", VList results)]),
               sent, self')
          | (Raise e, sent, self') => (Raise e, sent, self')
          end
      end
  | None, None =>
      match process_message self now message VNone with
      | (Ok results, sent, self') =>
          (Ok (VDict [("status", VStr "success");
                      ("message", VStr "测试消息已发送到所有启用的目标");
                      ("results", VList results)]),
           sent, self')
      | (Raise e, sent, self') => (Raise e, sent, self')
      end
  end.

(** *** Loading the configuration *)

(** The document that [_load_config] falls back on. *)
Definition default_config : value :=
  VDict
    [("targets", VList []);
     ("routes",
      VDict [("/webhook",
              VDict [("target_ids", VList []);
                     ("description", VStr "默认webhook路由");
                     ("methods", VList [VStr "POST"]);
                     ("headers", VDict []);
                     ("query_params", VDict []);
                     ("template", VNone);
                     ("preprocess", VNone)])]);
     ("templates",
      VDict [("trade",
              VDict [("event_type", VStr "trade");
                     ("description",
                      VStr "交易信号: {symbol} {operation} 价格: {price} 数量: {amount}");
                     ("data",
                      VDict [("symbol", VStr "{symbol}");
                             ("operation", VStr "{operation}");
                             ("price", VStr "{price}");
                             ("amount", VStr "{amount}")])]);
             ("error",
              VDict [("event_type", VStr "error");
                     ("description", VStr "错误通知: {message}");
                     ("data", VDict [("message", VStr "{message}")])])]);
     ("message_format",
      VDict [("trade",
              VStr "交易信号: {symbol} {operation} 价格: {price} 数量: {amount}");
             ("position_update",
              VStr "持仓更新: {symbol} 数量: {amount} 价格: {current_price} 盈亏: {pnl}");
             ("error", VStr "错误通知: {message}");
             ("status", VStr "状态通知: {message}")])].

(** What [_load_config] finds on disk: the directory cannot be made, the
    file is not there, the file cannot be opened or parsed, or the file
    holds a JSON document. *)
Inductive config_file : Type :=
| NoDirectory
| Missing
| Unreadable
| Parsed (document : value).

(** [default_config[key]] *)
Definition default_of (key : string) : value :=
  match default_config with
  | VDict d => match dict_get key d with Some v => v | None => VNone end
  | _ => VNone
  end.

(** [if key not in config: config[key] = default_config[key]] *)
Definition backfill (key : string) (cfg : value) : result value :=
  has <- py_contains (VStr key) cfg ;;
  if has then Ok cfg else py_setitem cfg key (default_of key).

(** [_load_config()]: every exception of the [try] block gives the
    default configuration. *)
Definition _load_config (file : config_file) : value :=
  match file with
  | Parsed document =>
      match (cfg <- backfill "routes" document ;; backfill "templates" cfg)
      with
      | Ok cfg => cfg
      | Raise _ => default_config
      end
  | _ => default_config
  end.

(** [WebhookForwarder(config_path)]: the configuration is loaded, the
    history is empty, and the routes of the configuration are
    registered; the constructor raises when one of them cannot be. *)
Definition WebhookForwarder (file : config_file) : result forwarder :=
  _register_routes (init (_load_config file)).

End Forwarder.


(** ** Statements and inputs of the properties *)

(** *** History *)

(** [inserts self entries]: one [_add_to_history] per element of [entries],
    oldest first; an element is the clock reading and the message. *)
Definition inserts (self : forwarder) (entries : list (string * value))
  : forwarder :=
  fold_left (fun s e => _add_to_history (fst e) (snd e) s) entries self.

(** A forwarder with an empty history of capacity [C]. *)
Definition fresh (cfg : value) (C : nat) : forwarder :=
  {| config := cfg; message_history := []; max_history_size := C;
     handlers := [] |}.

(** *** The preprocess scenario *)

Definition tv_payload : value :=
  VDict [("type", VStr "trade"); ("p", VStr "42.5")].

Definition tv_preprocess : value :=
  VDict [("field_mapping",
          VDict [("event_type", VStr "type"); ("data.price", VStr "p")]);
         ("transformations", VDict [("data.price", VStr "to_float")]);
         ("add_fields", VDict [("data.source", VStr "tv")])].

(** The binary64 number 42.5, that is 85 * 2^46 * 2^-47. *)
Definition float_42_5 : spec_float := S754_finite false 5981343255101440 (-47).

Definition tv_expected : value :=
  VDict [("type", VStr "trade"); ("p", VStr "42.5");
         ("event_type", VStr "trade");
         ("data", VDict [("price", VFloat float_42_5); ("source", VStr "tv")])].

(** *** Idempotence of the transform *)

(** The transform applied to its own output gives that output again. *)
Definition transform_idempotent : Prop :=
  forall (py_repr : value -> string)
         (py_format : string -> dict -> result string)
         (cfg preprocess template payload : value),
    transform py_repr py_format cfg preprocess template
      (transform py_repr py_format cfg preprocess template payload)
    = transform py_repr py_format cfg preprocess template payload.

(** A mapping that moves [b] to [a] and [c] to [b]. *)
Definition shift_preprocess : value :=
  VDict [("field_mapping", VDict [("a", VStr "b"); ("b", VStr "c")])].

Definition shift_payload : value := VDict [("b", VInt 1); ("c", VInt 2)].

(** The template named [name] resolves in the catalogue of [cfg]: the
    guard [not template_name or template_name not in ...] of
    [_apply_template] is evaluated and does not hold. *)
Definition template_resolves (cfg name : value) : bool :=
  truthy name &&
  match (templates <- py_get cfg "templates" (VDict []) ;;
         py_contains name templates) with
  | Ok known => known
  | Raise _ => false
  end.

(** *** Explicit routing *)

Definition target_a : value :=
  VDict [("id", VStr "a"); ("name", VStr "A"); ("url", VStr "http://a/");
         ("enabled", VBool true)].

Definition target_b : value :=
  VDict [("id", VStr "b"); ("name", VStr "B"); ("url", VStr "http://b/");
         ("enabled", VBool true)].

Definition two_targets : value :=
  VDict [("targets", VList [target_a; target_b]); ("routes", VDict []);
         ("templates", VDict [])].

Definition status_message : value :=
  VDict [("event_type", VStr "status"); ("description", VStr "hi")].

(** The targets of the catalogue whose [id] is in the list and whose
    [enabled] flag holds: the selection that the comment above the first
    loop of [process_message] announces. *)
Definition listed_and_enabled (targets : list value) (target_ids : list value)
  : list value :=
  filter
    (fun t =>
       match t with
       | VDict d =>
           existsb (py_eq (match dict_get "id" d with
                           | Some i => i | None => VNone end)) target_ids
           && truthy (match dict_get "enabled" d with
                      | Some e => e | None => VBool true end)
       | _ => false
       end)
    targets.

(** *** The [_route] block *)

(** The route that the default configuration declares for [/webhook]. *)
Definition default_route : value :=
  VDict [("target_ids", VList []); ("description", VStr "默认webhook路由");
         ("methods", VList [VStr "POST"]); ("headers", VDict []);
         ("query_params", VDict []); ("template", VNone);
         ("preprocess", VNone)].

Definition empty_config : value :=
  VDict [("targets", VList []); ("routes", VDict [("/webhook", default_route)]);
         ("templates", VDict [])].

(** A request whose JSON body brings a [_route] of its own. *)
Definition spoofed_request : request :=
  {| req_method := "POST";
     req_headers := [("content-type", "application/json")];
     req_query := [];
     req_body := Ok (VDict [("event_type", VStr "status");
                            ("_route", VStr "spoofed")]) |}.

(** Whatever object the request decodes to, the message handed on carries
    the router's own [_route]. *)
Definition route_always_overwritten : Prop :=
  forall (py_repr : value -> string)
         (py_format : string -> dict -> result string)
         (self : forwarder) (route_path : string) (route_config : value)
         (r : request) (now_ms : Z) (d : dict) (message target_ids : value),
    req_body r = Ok (VDict d) ->
    handler_message py_repr py_format self route_path route_config r now_ms
    = Ok (message, target_ids) ->
    py_get message "_route" VNone = Ok (route_info route_path r now_ms).

(** [route_config.get(key, default)] on the items of a route. *)
Definition route_get (key : string) (default : value) (rc : dict) : value :=
  match dict_get key rc with Some v => v | None => default end.

(** *** Closed instances *)

(** An instance of the abstract built-ins and of the HTTP client, to state
    instances of the theorems without parameters.  No instance below
    depends on the choice. *)
Definition plain_repr : value -> string := fun _ => EmptyString.
Definition plain_format : string -> dict -> result string :=
  fun _ _ => Raise KeyError.
Definition post_accepted : outbound -> bool := fun _ => true.
Definition plain_exn_str : exn -> string := fun _ => EmptyString.

(** An instance of the framework: every path is accepted, and a request
    path matches the route path it is equal to, as it is for paths without
    parameters. *)
Definition every_path : string -> option exn := fun _ => None.
Definition same_path : string -> string -> bool := String.eqb.

(** *** Target eligibility, in the words of the specification *)

(** [x in l] for a list *)
Definition member (x : value) (l : list value) : bool :=
  existsb (fun y => py_eq y x) l.

(** For a message with event type [e] and symbol [s] ([None] when the
    message has none): reject if the target has [event_types] and [e] is
    not among them; reject if [e] is [trade] or [position_update], the
    target has [symbols], [s] is set and is not among them; else accept.
    "Set" is read as Python reads [if symbol]: neither [None] nor empty. *)
Definition eligible (e s : value) (event_types symbols : option (list value))
  : bool :=
  let type_rejects :=
    match event_types with
    | Some types => negb (member e types)
    | None => false
    end in
  let symbol_rejects :=
    member e [VStr "trade"; VStr "position_update"] &&
    match symbols with
    | Some syms => truthy s && negb (member s syms)
    | None => false
    end in
  negb type_rejects && negb symbol_rejects.

(** [message.get("data", {})] is an object. *)
Definition data_is_object (m : dict) : bool :=
  match dict_get "data" m with
  | None | Some (VDict _) => true
  | Some _ => false
  end.

(** [data.symbol] of a message, [None] when there is none. *)
Definition symbol_of (m : dict) : value :=
  match dict_get "data" m with
  | Some (VDict data) => route_get "symbol" VNone data
  | _ => VNone
  end.

(** *** The feishu schema *)

(** The URL of a target as text: the empty string when the target has no
    [url], nothing when [url] is not a string. *)
Definition url_text (t : dict) : option string :=
  match dict_get "url" t with
  | None => Some EmptyString
  | Some (VStr u) => Some u
  | Some _ => None
  end.

Definition feishu_target : value :=
  VDict [("id", VStr "fs"); ("name", VStr "FS"); ("url", VStr "http://fs/");
         ("enabled", VBool true); ("type", VStr "feishu")].

Definition ping_message : value := VDict [("description", VStr "ping")].

Definition filtered_target : dict :=
  [("id", VStr "t"); ("name", VStr "T"); ("url", VStr "http://t/");
   ("event_types", VList [VStr "trade"]);
   ("symbols", VList [VStr "BTC/USDT"])].

Definition eth_trade : dict :=
  [("event_type", VStr "trade"); ("data", VDict [("symbol", VStr "ETH/USDT")])].

(** *** Request admission, in the words of the specification *)

(** The entry [(name, expected)] of [route.headers] is violated by the
    request: the header is absent, or the configured value is a non-empty
    string and the header's value is another string. *)
Definition header_violation (r : request) (entry : string * value) : bool :=
  match header_get (fst entry) (req_headers r), snd entry with
  | None, _ => true
  | Some got, VStr s => negb (String.eqb s EmptyString) && negb (String.eqb got s)
  | Some _, _ => false
  end.

(** The route [/in] of the scenario, gated on [X-Key: secret]. *)
Definition gated_route : dict :=
  [("target_ids", VList []); ("description", VStr "gated");
   ("methods", VList [VStr "POST"]);
   ("headers", VDict [("X-Key", VStr "secret")]);
   ("query_params", VDict [])].

Definition keyed_request (hs : list (string * string)) : request :=
  {| req_method := "POST"; req_headers := hs; req_query := [];
     req_body := Ok status_message |}.

(** The scenario of a route that is declared a second time.  The
    configuration has the default route [/webhook], which requires no
    header, and the target A; the application starts, and [POST /routes]
    declares [/webhook] again, now with the header [X-Key: secret]. *)
Definition one_target_config : value :=
  VDict [("targets", VList [target_a]);
         ("routes", VDict [("/webhook", default_route)]);
         ("templates", VDict [])].

Definition gate_body : value :=
  VDict [("path", VStr "webhook");
         ("headers", VDict [("X-Key", VStr "secret")])].

(** The application after [__init__]: one handler, bound with the route of
    the catalogue. *)
Definition started : forwarder :=
  set_handlers (init one_target_config)
    [{| h_method := "POST"; h_path := "/webhook";
        h_route := InCatalogue "/webhook" |}].

(** The route that [POST /routes] stores for [gate_body]. *)
Definition gated_webhook : value :=
  VDict [("target_ids", VList []); ("description", VStr "路由 /webhook");
         ("methods", VList [VStr "POST"]);
         ("headers", VDict [("X-Key", VStr "secret")]);
         ("query_params", VDict [])].

(** The application after the [POST /routes]: the catalogue holds the
    gated route, the first handler still holds the route it was bound
    with, and a second handler holds the gated one. *)
Definition regated : forwarder :=
  {| config :=
       VDict [("targets", VList [target_a]);
              ("routes", VDict [("/webhook", gated_webhook)]);
              ("templates", VDict [])];
     message_history := [];
     max_history_size := 100;
     handlers :=
       [{| h_method := "POST"; h_path := "/webhook";
           h_route := Detached default_route |};
        {| h_method := "POST"; h_path := "/webhook";
           h_route := InCatalogue "/webhook" |}] |}.

(** *** Route operations of the control API *)

Inductive route_request : Type :=
| POST_routes (route : value)
| PUT_routes (path : string) (route_update : value)
| DELETE_routes (path : string).

Definition control (path_error : string -> option exn) (self : forwarder)
  (rq : route_request) : result value * forwarder :=
  match rq with
  | POST_routes route => add_route path_error self route
  | PUT_routes path route_update =>
      update_route path_error self path route_update
  | DELETE_routes path => delete_route self path
  end.

(** The path that the caller supplies: the [path] field of the body of a
    POST, the path parameter of a PUT or DELETE. *)
Definition supplied_path (rq : route_request) : option string :=
  match rq with
  | POST_routes (VDict body) =>
      match dict_get "path" body with
      | Some (VStr p) => Some p
      | _ => None
      end
  | POST_routes _ => None
  | PUT_routes p _ => Some p
  | DELETE_routes p => Some p
  end.

(** The paths of the routes catalogue. *)
Definition route_paths (self : forwarder) : list string :=
  match config self with
  | VDict c =>
      match dict_get "routes" c with
      | Some (VDict routes) => keys routes
      | _ => []
      end
  | _ => []
  end.

(** The route stored under [path] in the catalogue. *)
Definition route_at (self : forwarder) (path : string) : option value :=
  match config self with
  | VDict c =>
      match dict_get "routes" c with
      | Some (VDict routes) => dict_get path routes
      | _ => None
      end
  | _ => None
  end.

(** [s] begins with exactly one '/'. *)
Definition one_leading_slash (s : string) : bool :=
  PyStr.startswith "/" s && negb (PyStr.startswith "//" s).

(** A body for [POST /routes] that also names a template and a preprocess
    spec. *)
Definition full_route_body : value :=
  VDict [("path", VStr "in"); ("target_ids", VList [VStr "a"]);
         ("template", VStr "trade");
         ("preprocess", VDict [("add_fields", VDict [("k", VInt 1)])])].

(** The response of an operation that succeeded. *)
Definition response_of (r : result value) : value :=
  match r with Ok v => v | Raise _ => VNone end.


(** ** Further statements *)

(** *** Dotted paths *)

(** The stage loop can write at the path [parts] under [current]: every
    value that the path meets before its last key is an object. *)
Fixpoint writable (parts : list string) (current : value) : bool :=
  match parts with
  | [] => true
  | part :: rest =>
      match current with
      | VDict d =>
          match rest with
          | [] => true
          | _ :: _ =>
              match dict_get part d with
              | Some child => writable rest child
              | None => true
              end
          end
      | _ => false
      end
  end.

(** The first key of a dotted path. *)
Definition head_key (field : string) : string :=
  match PyStr.split "." field with
  | k :: _ => k
  | [] => field
  end.

(** *** Type transforms *)

(** The four conversions of [transformations]. *)
Definition conversion_kinds : list string :=
  ["to_string"; "to_int"; "to_float"; "to_bool"].

(** The least integer whose nearest binary64 number is infinite: half a
    unit in the last place above the largest finite one. *)
Definition float_limit : Z := 2 ^ 1024 - 2 ^ 970.

(** The values on which [int] raises [OverflowError]: the infinite
    floats. *)
Definition int_overflows (v : value) : bool :=
  match v with
  | VFloat (S754_infinity _) => true
  | _ => false
  end.

(** The values on which [float] raises [OverflowError]: the integers that
    round beyond the binary64 range. *)
Definition float_overflows (v : value) : bool :=
  match v with
  | VInt n => float_limit <=? Z.abs n
  | _ => false
  end.

(** *** Templates *)

(** No string of the tree contains ["{"]. *)
Fixpoint placeholder_free (t : value) : bool :=
  match t with
  | VStr s => negb (PyStr.contains "{" s)
  | VList l =>
      (fix all (l : list value) : bool :=
         match l with
         | [] => true
         | v :: rest => placeholder_free v && all rest
         end) l
  | VDict d =>
      (fix all (d : dict) : bool :=
         match d with
         | [] => true
         | (_, v) :: rest => placeholder_free v && all rest
         end) d
  | _ => true
  end.

(** *** Formatting by kind *)

(** The fields of a target that the chat schemas depend on. *)
Definition same_kind_fields (t t0 : dict) : Prop :=
  dict_get "type" t = dict_get "type" t0
  /\ dict_get "url" t = dict_get "url" t0
  /\ dict_get "wxid" t = dict_get "wxid" t0.

(** The scalar value bound to [k], if any. *)
Definition scalar_at (k : string) (d : dict) : option value :=
  match dict_get k d with
  | Some v => if is_scalar v then Some v else None
  | None => None
  end.

(** *** Dispatch *)

(** The list bound to [k], if [k] is bound to a list. *)
Definition list_field (k : string) (t : dict) : option (list value) :=
  match dict_get k t with
  | Some (VList l) => Some l
  | _ => None
  end.

(** The target is an object whose [event_types] and [symbols], when
    present, are lists. *)
Definition filters_typed (target : value) : bool :=
  match target with
  | VDict t =>
      match dict_get "event_types" t with
      | None | Some (VList _) => true
      | Some _ => false
      end &&
      match dict_get "symbols" t with
      | None | Some (VList _) => true
      | Some _ => false
      end
  | _ => false
  end.

(** The target is enabled and its filters accept the message [m]. *)
Definition broadcast_accepts (m : dict) (target : value) : bool :=
  match target with
  | VDict t =>
      truthy (route_get "enabled" (VBool true) t) &&
      eligible (route_get "event_type" VNone m) (symbol_of m)
        (list_field "event_types" t) (list_field "symbols" t)
  | _ => false
  end.

(** The [id] of the target is in the list and the target is enabled. *)
Definition explicitly_selected (ids : list value) (target : value) : bool :=
  match target with
  | VDict t =>
      member (route_get "id" VNone t) ids &&
      truthy (route_get "enabled" (VBool true) t)
  | _ => false
  end.

(** The entry of [results] for a target and the outcome of its delivery. *)
Definition result_entry (ok : bool) (target : value) : value :=
  match target with
  | VDict t =>
      VDict [("target_id", route_get "id" VNone t);
             ("target_name", route_get "name" VNone t);
             ("success", VBool ok)]
  | _ => VNone
  end.

(** *** Request admission *)

(** The entry [(name, expected)] of [route.query_params] is violated by the
    request. *)
Definition param_violation (r : request) (entry : string * value) : bool :=
  match query_get (fst entry) (req_query r), snd entry with
  | None, _ => true
  | Some got, VStr s => negb (String.eqb s EmptyString) && negb (String.eqb got s)
  | Some _, _ => false
  end.

(** The requirements that a route declares under [key]: none when the key
    is absent or bound to a false value, the entries of the object it is
    bound to otherwise. *)
Definition requirements (key : string) (rc : dict) : option dict :=
  match dict_get key rc with
  | None => Some []
  | Some (VDict d) => Some d
  | Some v => if truthy v then None else Some []
  end.

(** Every configured value is a string. *)
Definition string_valued (d : dict) : Prop :=
  Forall (fun entry : string * value => exists s, snd entry = VStr s) d.

(** *** Registration *)

(** The methods that [_register_route] has a branch for. *)
Definition http_methods : list string :=
  ["GET"; "POST"; "PUT"; "DELETE"; "PATCH"].

(** [m.upper()] is one of them. *)
Definition handled (m : string) : bool :=
  existsb (String.eqb (PyStr.upper m)) http_methods.

(** The items of a list when all of them are strings. *)
Fixpoint texts (l : list value) : option (list string) :=
  match l with
  | [] => Some []
  | VStr s :: rest =>
      match texts rest with
      | Some names => Some (s :: names)
      | None => None
      end
  | _ => None
  end.

(** Every character of the string is an ASCII character: on such strings
    [str.upper] and [str.lower] change the letters a-z and A-Z only. *)
Definition ascii_only (s : string) : bool :=
  forallb (fun c => Nat.ltb (nat_of_ascii c) 128) (list_ascii_of_string s).

(** The handler that [_register_route] binds for the method name [m]. *)
Definition bound (route_path : string) (held_as : route_ref) (m : string)
  : handler :=
  {| h_method := PyStr.upper m; h_path := route_path; h_route := held_as |}.

(** The method names that a route configuration declares: those of a
    non-empty [methods] list, POST when the field is absent, empty or not a
    list; nothing when the list holds an item that is not a string. *)
Definition declared_methods (rc : dict) : option (list string) :=
  match dict_get "methods" rc with
  | Some (VList (m :: ms)) => texts (m :: ms)
  | _ => Some ["POST"]
  end.

(** *** Targets *)

Definition is_object (v : value) : bool :=
  match v with VDict _ => true | _ => false end.

(** The target is an object whose [id] is the string [target_id]. *)
Definition target_has_id (target_id : string) (target : value) : bool :=
  match target with
  | VDict d =>
      match dict_get "id" d with
      | Some (VStr s) => String.eqb s target_id
      | _ => false
      end
  | _ => false
  end.

(** *** Loading *)

(** A document that is not an object and passes both membership tests of
    [_load_config]: a string that contains both words, or a list that
    holds both as items. *)
Definition loads_as_is (document : value) : bool :=
  match document with
  | VStr s => PyStr.contains "routes" s && PyStr.contains "templates" s
  | VList l => member (VStr "routes") l && member (VStr "templates") l
  | _ => false
  end.

(** *** Repeating the transform *)

(** The key sequences [p] and [q] part ways: at some position that both
    have, their keys differ.  Neither path is then a prefix of the other,
    and a write at one does not go through the end of the other. *)
Fixpoint part_ways (p q : list string) : bool :=
  match p, q with
  | a :: p', b :: q' => if String.eqb a b then part_ways p' q' else true
  | _, _ => false
  end.

(** The dotted paths of a list part ways two by two. *)
Fixpoint independent (fields : list string) : bool :=
  match fields with
  | [] => true
  | f :: rest =>
      forallb (fun g => part_ways (PyStr.split "." f) (PyStr.split "." g)) rest
      && independent rest
  end.

(** A transform kind that is not a format string: one of the four
    conversions, or a kind that leaves the value as it is (or fails on
    every value, when it is not a string). *)
Definition steady (transform_type : value) : bool :=
  match transform_type with
  | VStr t => negb (PyStr.startswith "format:" t)
  | _ => true
  end.

(** The entries of the stage [key] of a preprocess spec, when it has
    any. *)
Definition entries_of (key : string) (c : dict) : dict :=
  match dict_get key c with
  | Some (VDict entries) => entries
  | _ => []
  end.

(** The preprocess spec only updates the payload in place, at
    independent paths: it is not run at all (it is false for Python), or
    it is an object without [field_mapping] and [include_fields], whose
    type transforms are not format strings, and the paths of its
    [transformations] and [add_fields] part ways two by two. *)
Definition in_place_only (preprocess : value) : bool :=
  match preprocess with
  | VDict c =>
      negb (dict_mem "field_mapping" c)
      && negb (dict_mem "include_fields" c)
      && forallb steady (map snd (entries_of "transformations" c))
      && independent (keys (entries_of "transformations" c)
                      ++ keys (entries_of "add_fields" c))
  | _ => negb (truthy preprocess)
  end.

(** The template name resolves, in the catalogue of [cfg], to the object
    [t], which has no placeholder. *)
Definition fixed_template (cfg template : value) (t : dict) : Prop :=
  exists c templates name,
    cfg = VDict c
    /\ template = VStr name
    /\ name <> EmptyString
    /\ dict_get "templates" c = Some (VDict templates)
    /\ dict_get name templates = Some (VDict t)
    /\ NoDup (keys t)
    /\ placeholder_free (VDict t) = true.

(** The route's directives under which the transform can be repeated: the
    output is a fixed template, or no template applies and the preprocess
    spec only updates the payload in place, at independent paths. *)
Definition repeatable (cfg preprocess template : value) : Prop :=
  (exists t, fixed_template cfg template t)
  \/ (template_resolves cfg template = false
      /\ in_place_only preprocess = true).

(** The value [v] sits at the end of the key sequence [parts] in
    [current], through objects all the way. *)
Fixpoint sits (parts : list string) (v current : value) : Prop :=
  match parts with
  | [] => False
  | part :: rest =>
      exists d x,
        current = VDict d
        /\ dict_get part d = Some x
        /\ match rest with
           | [] => x = v
           | _ :: _ => sits rest v x
           end
  end.

(** The type transform [entry] has nothing left to do on [current]: the
    field is missing or null, or it holds a value that the transform gives
    back. *)
Definition settled (py_repr : value -> string)
  (py_format : string -> dict -> result string)
  (current : value) (entry : string * value) : Prop :=
  let v := walk (PyStr.split "." (fst entry)) current in
  v = VNone \/ transformed py_repr py_format (snd entry) v = Ok v.

(** The payload after the preprocess step of [webhook_handler]: the
    result of [_preprocess_message] when the route has a spec, the payload
    object as the call left it when it raised. *)
Definition preprocessed (py_repr : value -> string)
  (py_format : string -> dict -> result string) (preprocess payload : value)
  : value :=
  if truthy preprocess then
    match _preprocess_message py_repr py_format payload preprocess with
    | (Ok r, _) => r
    | (Raise _, obj) => obj
    end
  else payload.


(** ** Properties *)

(** *** Dictionaries *)

Lemma dict_get_set_same (k : string) (v : value) (d : dict) :
  dict_get k (dict_set k v d) = Some v.
Proof.
  induction d as [| [k' v'] d IH]; simpl.
  - rewrite String.eqb_refl; reflexivity.
  - destruct (String.eqb k k') eqn:E; simpl.
    + rewrite String.eqb_refl; reflexivity.
    + rewrite E; exact IH.
Qed.

Lemma dict_get_set_other (k k' : string) (v : value) (d : dict) :
  k' <> k -> dict_get k' (dict_set k v d) = dict_get k' d.
Proof.
  intros Hne; induction d as [| [k0 v0] d IH]; simpl.
  - destruct (String.eqb_spec k' k); [contradiction | reflexivity].
  - destruct (String.eqb_spec k k0) as [-> | Hk]; simpl.
    + destruct (String.eqb_spec k' k0); [contradiction | reflexivity].
    + destruct (String.eqb k' k0); [reflexivity | exact IH].
Qed.

Lemma dict_mem_get (k : string) (d : dict) :
  dict_mem k d = true <-> exists v, dict_get k d = Some v.
Proof.
  unfold dict_mem; destruct (dict_get k d) as [v |]; split.
  - intros _; exists v; reflexivity.
  - reflexivity.
  - discriminate.
  - intros [v H]; discriminate.
Qed.

Lemma dict_get_In (k : string) (v : value) (d : dict) :
  dict_get k d = Some v -> In (k, v) d.
Proof.
  induction d as [| [k' v'] d IH]; simpl; [discriminate |].
  destruct (String.eqb_spec k k') as [-> | Hne].
  - intros [= ->]; left; reflexivity.
  - intros H; right; exact (IH H).
Qed.

(** [a == "s"] holds for the string [s] only. *)
Lemma py_eq_str (a : value) (s : string) :
  py_eq a (VStr s) = true <-> a = VStr s.
Proof.
  destruct a; simpl; split; try discriminate; try congruence.
  - intros H; apply String.eqb_eq in H; congruence.
  - intros [= ->]; apply String.eqb_refl.
Qed.

(** *** The history ring *)

Lemma add_to_history_capacity (now : string) (m : value) (self : forwarder) :
  max_history_size (_add_to_history now m self) = max_history_size self.
Proof. reflexivity. Qed.

Lemma add_to_history_length (now : string) (m : value) (self : forwarder) :
  List.length (message_history (_add_to_history now m self)) =
  Nat.min (S (List.length (message_history self))) (max_history_size self).
Proof.
  unfold _add_to_history; cbn [message_history List.length].
  destruct (Nat.ltb_spec (max_history_size self)
              (S (List.length (message_history self)))) as [H | H].
  - rewrite length_firstn; cbn [List.length]; lia.
  - cbn [List.length]; lia.
Qed.

Lemma add_to_history_head (now : string) (m : value) (self : forwarder) :
  hd_error (message_history (_add_to_history now m self)) =
  match max_history_size self with
  | O => None
  | S _ => Some (history_entry now m)
  end.
Proof.
  unfold _add_to_history; cbn [message_history List.length].
  destruct (Nat.ltb_spec (max_history_size self)
              (S (List.length (message_history self)))) as [H | H].
  - destruct (max_history_size self); reflexivity.
  - destruct (max_history_size self); [lia | reflexivity].
Qed.

Lemma inserts_snoc (self : forwarder) (entries : list (string * value))
  (e : string * value) :
  inserts self (entries ++ [e])%list =
  _add_to_history (fst e) (snd e) (inserts self entries).
Proof. unfold inserts; rewrite fold_left_app; reflexivity. Qed.

Lemma inserts_capacity (self : forwarder) (entries : list (string * value)) :
  max_history_size (inserts self entries) = max_history_size self.
Proof.
  induction entries as [| e entries IH] using rev_ind; [reflexivity |].
  rewrite inserts_snoc, add_to_history_capacity; exact IH.
Qed.

(** The number of entries after a run of inserts into an empty history. *)
Lemma inserts_length (cfg : value) (C : nat) (entries : list (string * value)) :
  List.length (message_history (inserts (fresh cfg C) entries))
  = Nat.min (List.length entries) C.
Proof.
  induction entries as [| e entries IH] using rev_ind; [reflexivity |].
  rewrite inserts_snoc, add_to_history_length, IH, inserts_capacity.
  rewrite length_app; cbn [List.length fresh max_history_size]; lia.
Qed.

(** C7. After N inserts into an empty history of capacity C the history has
    min(N, C) entries; its first entry is the one of the most recent insert
    (when there was an insert and C is not zero); and one insert into any
    history leaves at most C entries. *)
Theorem history_bound (cfg : value) (C : nat) (entries : list (string * value)) :
  let self := inserts (fresh cfg C) entries in
  List.length (message_history self) = Nat.min (List.length entries) C
  /\ hd_error (message_history self) =
     match rev entries, C with
     | (now, m) :: _, S _ => Some (history_entry now m)
     | _, _ => None
     end
  /\ (forall (s : forwarder) (now : string) (m : value),
        List.length (message_history (_add_to_history now m s))
        <= max_history_size s)%nat.
Proof.
  cbv zeta; split; [| split].
  - apply inserts_length.
  - destruct entries as [| e0 entries0] using rev_ind; [reflexivity |].
    rewrite inserts_snoc, add_to_history_head, inserts_capacity, rev_app_distr.
    simpl; destruct e0 as [now m]; reflexivity.
  - intros s now m; rewrite add_to_history_length; lia.
Qed.

(** The forwarder as [__init__] builds it has capacity 100. *)
Example history_default_capacity (cfg : value) (entries : list (string * value)) :
  List.length (message_history (inserts (init cfg) entries)) =
  Nat.min (List.length entries) 100.
Proof. exact (inserts_length cfg 100 entries). Qed.

(** *** The preprocess scenario *)

(** The literal "42.5" is read as the binary64 number 85/2. *)
Lemma float_42_5_exact :
  parse_float "42.5" = Some float_42_5 /\ 2 * 5981343255101440 = 85 * 2 ^ 47.
Proof. split; reflexivity. Qed.

(** C6. On the payload {"type":"trade","p":"42.5"} the preprocess spec of
    the scenario (field mapping, to_float on data.price, literal
    data.source) returns
    {"type":"trade","p":"42.5","event_type":"trade",
     "data":{"price":42.5,"source":"tv"}},
    and the payload object itself is left as it was. *)
Theorem preprocess_scenario (py_repr : value -> string)
  (py_format : string -> dict -> result string) :
  _preprocess_message py_repr py_format tv_payload tv_preprocess
  = (Ok tv_expected, tv_payload).
Proof. reflexivity. Qed.

(** The output of the scenario is a fixed point of its transform. *)
Example preprocess_scenario_again (py_repr : value -> string)
  (py_format : string -> dict -> result string) :
  transform py_repr py_format empty_config tv_preprocess VNone tv_expected
  = tv_expected.
Proof. reflexivity. Qed.

(** *** Idempotence of the transform *)

(** The shifting map applied once and applied twice. *)
Lemma transform_shift_twice (py_repr : value -> string)
  (py_format : string -> dict -> result string) :
  let t := transform py_repr py_format (VDict []) shift_preprocess VNone in
  t shift_payload = VDict [("b", VInt 2); ("c", VInt 2); ("a", VInt 1)]
  /\ t (t shift_payload) = VDict [("b", VInt 2); ("c", VInt 2); ("a", VInt 2)].
Proof. split; reflexivity. Qed.

(** C3, as stated, fails: with the field mapping {"a":"b","b":"c"} and the
    payload {"b":1,"c":2} the transform gives {"b":2,"c":2,"a":1}, and
    applied to that it gives {"b":2,"c":2,"a":2}. *)
Lemma transform_not_idempotent : ~ transform_idempotent.
Proof.
  intros H.
  specialize (H plain_repr plain_format (VDict []) shift_preprocess VNone
                shift_payload).
  destruct (transform_shift_twice plain_repr plain_format) as [H1 H2].
  cbv zeta in H1, H2; rewrite H2, H1 in H; discriminate H.
Qed.

(** Without directives the transform is the identity: when the route has
    no preprocess spec (absent or empty) and its template name is absent
    or does not resolve in the catalogue, the payload comes back
    unchanged. *)
Lemma transform_without_directives (py_repr : value -> string)
  (py_format : string -> dict -> result string)
  (cfg preprocess template payload : value) :
  truthy preprocess = false ->
  template_resolves cfg template = false ->
  let t := transform py_repr py_format cfg preprocess template in
  t payload = payload /\ t (t payload) = t payload.
Proof.
  intros Hpre Htpl; cbv zeta.
  assert (Hid : forall p,
             transform py_repr py_format cfg preprocess template p = p).
  { intros p; unfold transform; rewrite Hpre.
    unfold template_resolves in Htpl.
    destruct (truthy template) eqn:Ht; [| reflexivity].
    unfold _apply_template; rewrite Ht; simpl in Htpl |- *.
    destruct (py_get cfg "templates" (VDict [])) as [templates | e];
      simpl in Htpl |- *; [| reflexivity].
    destruct (py_contains template templates) as [known | e];
      simpl in Htpl |- *; [| reflexivity].
    subst known; reflexivity. }
  split; [apply Hid | rewrite !Hid; reflexivity].
Qed.

Lemma transform_without_directives_witness :
  truthy VNone = false
  /\ template_resolves empty_config (VStr "missing") = false
  /\ transform plain_repr plain_format empty_config VNone (VStr "missing")
       status_message = status_message.
Proof.
  split; [reflexivity | split; [reflexivity |]].
  apply (transform_without_directives plain_repr plain_format empty_config
           VNone (VStr "missing") status_message); reflexivity.
Defined.

(** *** Explicit routing *)

(** C1 on the code: with the catalogue [A, B], both enabled, and the target
    list ["a"], [process_message] calls [forward_to_target] for A, for A
    again and for B, where the listed and enabled targets are A alone. *)
Theorem explicit_list_also_broadcasts (py_repr : value -> string)
  (py_format : string -> dict -> result string) (http_post : outbound -> bool)
  (now : string) :
  snd (fst (process_message py_repr py_format http_post (init two_targets) now
              status_message (VList [VStr "a"])))
  = [target_a; target_a; target_b]
  /\ listed_and_enabled [target_a; target_b] [VStr "a"] = [target_a].
Proof. split; reflexivity. Qed.

(** *** The [_route] block *)

Lemma dict_set_fresh (k : string) (v : value) (d : dict) :
  dict_mem k d = false -> dict_set k v d = (d ++ [(k, v)])%list.
Proof.
  unfold dict_mem; induction d as [| [k' v'] d IH]; simpl; [reflexivity |].
  destruct (String.eqb k k'); [discriminate |].
  intros H; rewrite (IH H); reflexivity.
Qed.

(** [process_message] records the message whatever the dispatch does. *)
Lemma process_message_history (py_repr : value -> string)
  (py_format : string -> dict -> result string) (http_post : outbound -> bool)
  (self : forwarder) (now : string) (message target_ids : value) :
  snd (process_message py_repr py_format http_post self now message target_ids)
  = _add_to_history now message self.
Proof.
  unfold process_message.
  repeat match goal with
         | |- context [match ?x with _ => _ end] => destruct x
         end; reflexivity.
Qed.

(** The request of the counterexample goes through with its own [_route]. *)
Lemma spoofed_route_kept (py_repr : value -> string)
  (py_format : string -> dict -> result string) (now_ms : Z) :
  handler_message py_repr py_format (init empty_config) "/webhook"
    default_route spoofed_request now_ms
  = Ok (VDict [("event_type", VStr "status"); ("_route", VStr "spoofed")],
        VList []).
Proof. reflexivity. Qed.

(** C2, as stated, fails: a POST to the default route whose body is
    {"event_type":"status","_route":"spoofed"} is handed to
    [process_message] with [_route] still "spoofed". *)
Lemma route_not_always_overwritten : ~ route_always_overwritten.
Proof.
  intros H.
  specialize (H plain_repr plain_format (init empty_config) "/webhook"
                default_route spoofed_request 0 _ _ _ eq_refl
                (spoofed_route_kept plain_repr plain_format 0)).
  discriminate H.
Qed.

(** C2, amended. When the transformed payload is an object, the router
    inserts [_route] = {path, method, timestamp} only if the object has no
    [_route] key; a [_route] that is present is kept, and no other key
    changes.  The message so built is the one that the history records. *)
Theorem route_inserted_when_absent (py_repr : value -> string)
  (py_format : string -> dict -> result string) (http_post : outbound -> bool)
  (exn_str : exn -> string)
  (self : forwarder) (route_path : string) (rc : dict) (r : request)
  (now_ms : Z) (now : string) (payload : value) (d : dict) :
  req_body r = Ok payload ->
  transform py_repr py_format (config self) (route_get "preprocess" VNone rc)
    (route_get "template" VNone rc) payload = VDict d ->
  let info := route_info route_path r now_ms in
  let d' := if dict_mem "_route" d then d else (d ++ [("_route", info)])%list in
  handler_message py_repr py_format self route_path (VDict rc) r now_ms
  = Ok (VDict d', route_get "target_ids" (VList []) rc)
  /\ dict_get "_route" d'
     = Some (match dict_get "_route" d with Some v => v | None => info end)
  /\ (forall k, k <> "_route" -> dict_get k d' = dict_get k d)
  /\ snd (webhook_handler py_repr py_format http_post exn_str self route_path
            (VDict rc) r now_ms now)
     = _add_to_history now (VDict d') self.
Proof.
  intros Hbody Ht info d'.
  assert (Hmsg : handler_message py_repr py_format self route_path (VDict rc)
                   r now_ms
                 = Ok (VDict d', route_get "target_ids" (VList []) rc)).
  { unfold handler_message, route_get in *; rewrite Hbody; simpl.
    rewrite Ht; unfold enrich, setdefault; subst d'.
    destruct (dict_mem "_route" d) eqn:Hm; [reflexivity |].
    rewrite (dict_set_fresh _ _ _ Hm); reflexivity. }
  split; [exact Hmsg | split; [| split]].
  - subst d'; unfold dict_mem; destruct (dict_get "_route" d) eqn:Hg.
    + exact Hg.
    + rewrite <- (dict_set_fresh "_route" info d).
      * apply dict_get_set_same.
      * unfold dict_mem; rewrite Hg; reflexivity.
  - intros k Hk; subst d'; destruct (dict_mem "_route" d) eqn:Hm;
      [reflexivity |].
    rewrite <- (dict_set_fresh _ _ _ Hm); apply dict_get_set_other; exact Hk.
  - unfold webhook_handler; rewrite Hmsg.
    pose proof (process_message_history py_repr py_format http_post self now
                  (VDict d') (route_get "target_ids" (VList []) rc)) as Hh.
    destruct (process_message py_repr py_format http_post self now (VDict d')
                (route_get "target_ids" (VList []) rc)) as [[[res | e] sent] s'];
      simpl in Hh |- *; exact Hh.
Qed.

Lemma route_inserted_when_absent_witness :
  req_body (keyed_request []) = Ok status_message
  /\ handler_message plain_repr plain_format (init empty_config) "/webhook"
       default_route (keyed_request []) 7
     = Ok (VDict [("event_type", VStr "status"); ("description", VStr "hi");
                  ("_route", route_info "/webhook" (keyed_request []) 7)],
           VList []).
Proof.
  split; [reflexivity |].
  exact (proj1
    (route_inserted_when_absent plain_repr plain_format post_accepted
       plain_exn_str (init empty_config) "/webhook"
       [("target_ids", VList []); ("description", VStr "默认webhook路由");
        ("methods", VList [VStr "POST"]); ("headers", VDict []);
        ("query_params", VDict []); ("template", VNone);
        ("preprocess", VNone)]
       (keyed_request []) 7 "2024-01-01T00:00:00" status_message
       [("event_type", VStr "status"); ("description", VStr "hi")]
       eq_refl eq_refl)).
Defined.

(** *** Python's operations on a dictionary *)

Lemma py_get_dict (d : dict) (k : string) (default : value) :
  py_get (VDict d) k default = Ok (route_get k default d).
Proof. reflexivity. Qed.

Lemma py_contains_dict (d : dict) (k : string) :
  py_contains (VStr k) (VDict d) = Ok (dict_mem k d).
Proof. reflexivity. Qed.

Lemma py_getitem_dict (d : dict) (k : string) (v : value) :
  dict_get k d = Some v -> py_getitem (VDict d) (VStr k) = Ok v.
Proof. intros H; simpl; rewrite H; reflexivity. Qed.

Lemma py_contains_list (x : value) (l : list value) :
  py_contains x (VList l) = Ok (member x l).
Proof. reflexivity. Qed.

Lemma dict_mem_some (k : string) (d : dict) (v : value) :
  dict_get k d = Some v -> dict_mem k d = true.
Proof. unfold dict_mem; intros ->; reflexivity. Qed.

Lemma dict_mem_none (k : string) (d : dict) :
  dict_get k d = None -> dict_mem k d = false.
Proof. unfold dict_mem; intros ->; reflexivity. Qed.

(** *** Target eligibility *)

(** [message.get("data", {}).get("symbol")] on an object-typed [data]. *)
Lemma symbol_lookup (m : dict) :
  data_is_object m = true ->
  bind (py_get (VDict m) "data" (VDict []))
       (fun data => py_get data "symbol" VNone)
  = Ok (symbol_of m).
Proof.
  unfold data_is_object, symbol_of; rewrite py_get_dict; unfold route_get.
  destruct (dict_get "data" m) as [[ | | | | | | data] |];
    try discriminate; reflexivity.
Qed.

(** The symbols branch of [_should_forward]. *)
Lemma symbols_branch (m t : dict) (e : value) (symbols : option (list value)) :
  dict_get "symbols" t = option_map VList symbols ->
  data_is_object m = true ->
  bind (py_contains (VStr "symbols") (VDict t))
    (fun has_symbols =>
       if has_symbols &&
          existsb (fun x => py_eq x e) [VStr "trade"; VStr "position_update"]
       then
         bind (py_get (VDict m) "data" (VDict []))
           (fun data =>
              bind (py_get data "symbol" VNone)
                (fun symbol =>
                   if truthy symbol then
                     bind (py_getitem (VDict t) (VStr "symbols"))
                       (fun symbols =>
                          bind (py_contains symbol symbols)
                            (fun listed => Ok listed))
                   else Ok true))
       else Ok true)
  = Ok (negb (member e [VStr "trade"; VStr "position_update"] &&
              match symbols with
              | Some syms =>
                  truthy (symbol_of m) && negb (member (symbol_of m) syms)
              | None => false
              end)).
Proof.
  intros Hsy Hdata.
  rewrite py_contains_dict; cbn [bind].
  change (existsb (fun x => py_eq x e) [VStr "trade"; VStr "position_update"])
    with (member e [VStr "trade"; VStr "position_update"]).
  destruct symbols as [syms |]; cbn [option_map] in Hsy.
  - rewrite (dict_mem_some _ _ _ Hsy); cbn [andb].
    destruct (member e [VStr "trade"; VStr "position_update"]); cbn [andb negb];
      [| reflexivity].
    pose proof (symbol_lookup m Hdata) as Hs.
    destruct (py_get (VDict m) "data" (VDict [])) as [data | ex];
      cbn [bind] in Hs |- *; [| discriminate Hs].
    rewrite Hs; cbn [bind].
    destruct (truthy (symbol_of m)); cbn [andb negb]; [| reflexivity].
    rewrite (py_getitem_dict _ _ _ Hsy); cbn [bind].
    rewrite py_contains_list; cbn [bind].
    rewrite negb_involutive; reflexivity.
  - rewrite (dict_mem_none _ _ Hsy); cbn [andb].
    rewrite andb_false_r; reflexivity.
Qed.

(** C5. For a target whose [event_types] and [symbols], when present, are
    lists and a message whose [data], when present, is an object,
    [_should_forward] accepts exactly when the target is enabled and the
    rule of the specification accepts; this is also the test of the
    broadcast loop, which checks [enabled] itself.  The symbols filter has
    no effect on a message whose event type is neither [trade] nor
    [position_update], or that has no symbol. *)
Theorem should_forward_rule (py_repr : value -> string)
  (py_format : string -> dict -> result string) (http_post : outbound -> bool)
  (m t : dict) (event_types symbols : option (list value)) :
  dict_get "event_types" t = option_map VList event_types ->
  dict_get "symbols" t = option_map VList symbols ->
  data_is_object m = true ->
  let e := route_get "event_type" VNone m in
  let s := symbol_of m in
  let enabled := truthy (route_get "enabled" (VBool true) t) in
  _should_forward (VDict m) (VDict t)
  = Ok (enabled && eligible e s event_types symbols)
  /\ (forall l,
        broadcast_body py_repr py_format http_post (VDict m) (VDict t) l
        = if enabled && eligible e s event_types symbols
          then deliver py_repr py_format http_post (VDict m) (VDict t) l
          else Ok l)
  /\ (member e [VStr "trade"; VStr "position_update"] = false
      \/ truthy s = false ->
      eligible e s event_types symbols = eligible e s event_types None).
Proof.
  intros Het Hsy Hdata e s enabled.
  assert (Hsf : _should_forward (VDict m) (VDict t)
                = Ok (enabled && eligible e s event_types symbols)).
  { unfold _should_forward.
    rewrite (py_get_dict t), (py_get_dict m); cbn [bind].
    fold enabled; fold e.
    destruct enabled; cbn [negb andb]; [| reflexivity].
    rewrite (symbols_branch m t e symbols Hsy Hdata).
    rewrite py_contains_dict; cbn [bind].
    unfold eligible; fold s.
    destruct event_types as [types |]; cbn [option_map] in Het.
    - rewrite (dict_mem_some _ _ _ Het), (py_getitem_dict _ _ _ Het).
      cbn [bind]; rewrite py_contains_list; cbn [bind].
      destruct (member e types); reflexivity.
    - rewrite (dict_mem_none _ _ Het); reflexivity. }
  split; [exact Hsf | split].
  - intros l; unfold broadcast_body; rewrite Hsf, py_get_dict; cbn [bind].
    fold enabled; destruct enabled; reflexivity.
  - unfold eligible; intros [H | H]; rewrite H; cbn [andb].
    + reflexivity.
    + destruct symbols; rewrite ?andb_false_r; reflexivity.
Qed.

Lemma should_forward_rule_witness :
  dict_get "event_types" filtered_target = Some (VList [VStr "trade"])
  /\ dict_get "symbols" filtered_target = Some (VList [VStr "BTC/USDT"])
  /\ data_is_object eth_trade = true
  /\ _should_forward (VDict eth_trade) (VDict filtered_target) = Ok false.
Proof.
  split; [reflexivity | split; [reflexivity | split; [reflexivity |]]].
  exact (proj1 (should_forward_rule plain_repr plain_format post_accepted
                  eth_trade filtered_target
                  (Some [VStr "trade"]) (Some [VStr "BTC/USDT"])
                  eq_refl eq_refl eq_refl)).
Defined.

(** The broadcast filter of the specification: a target with
    [event_types = ["trade"]] takes a [trade] event and not a [status]
    event. *)
Example broadcast_filter_scenario :
  let target := VDict [("id", VStr "t"); ("event_types", VList [VStr "trade"])] in
  _should_forward (VDict [("event_type", VStr "trade")]) target = Ok true
  /\ _should_forward (VDict [("event_type", VStr "status")]) target = Ok false.
Proof. split; reflexivity. Qed.

(** *** The feishu schema *)

(** The kind test on a target whose URL is text. *)
Lemma is_kind_dict (t : dict) (u kind : string) :
  url_text t = Some u ->
  is_kind (VDict t) kind
  = Ok (py_eq (route_get "type" VNone t) (VStr kind)
        || PyStr.contains kind (PyStr.lower u)).
Proof.
  unfold url_text, is_kind; rewrite !py_get_dict; cbn [bind]; unfold route_get.
  intros Hu; destruct (py_eq _ (VStr kind)); [reflexivity |].
  destruct (dict_get "url" t) as [[ | | | | u' | | ] |]; try discriminate Hu;
    injection Hu as <-; reflexivity.
Qed.

Lemma type_is_not (t : dict) (kind : string) :
  dict_get "type" t <> Some (VStr kind) ->
  py_eq (route_get "type" VNone t) (VStr kind) = false.
Proof.
  intros H; destruct (py_eq _ _) eqn:E; [| reflexivity].
  apply py_eq_str in E; unfold route_get in E.
  destruct (dict_get "type" t); [subst; contradiction | discriminate].
Qed.

(** C9. A target without a [format] key, whose type is [feishu] or whose
    URL contains "feishu", and that the wechat rules before it do not
    match (its type is neither [wechat] nor [wechat_personal] and its URL
    is text without "wechat"), is sent
    {msg_type: "text", content: {text: d}}, where d is the [description]
    of the message when it has one and [str(message)] otherwise.  URLs are
    compared in lower case. *)
Theorem feishu_format (py_repr : value -> string)
  (py_format : string -> dict -> result string) (m t : dict) (u : string) :
  dict_mem "format" t = false ->
  url_text t = Some u ->
  dict_get "type" t = Some (VStr "feishu")
  \/ PyStr.contains "feishu" (PyStr.lower u) = true ->
  dict_get "type" t <> Some (VStr "wechat") ->
  dict_get "type" t <> Some (VStr "wechat_personal") ->
  PyStr.contains "wechat" (PyStr.lower u) = false ->
  _format_message py_repr py_format (VDict m) (VDict t)
  = Ok (VDict [("msg_type", VStr "text");
               ("content",
                VDict [("text",
                        match dict_get "description" m with
                        | Some d => d
                        | None => VStr (py_str py_repr (VDict m))
                        end)])]).
Proof.
  intros Hfmt Hurl Hkind Hw Hwp Hwu.
  unfold _format_message; rewrite py_contains_dict, Hfmt; cbn [bind].
  unfold format_by_kind.
  rewrite (is_kind_dict t u "wechat" Hurl), (type_is_not t _ Hw), Hwu.
  cbn [bind orb]; rewrite py_get_dict; cbn [bind].
  rewrite (type_is_not t _ Hwp).
  rewrite (is_kind_dict t u "feishu" Hurl).
  assert (Hf : py_eq (route_get "type" VNone t) (VStr "feishu")
               || PyStr.contains "feishu" (PyStr.lower u) = true).
  { destruct Hkind as [Hty | Hu]; [| rewrite Hu; apply orb_true_r].
    unfold route_get; rewrite Hty; reflexivity. }
  rewrite Hf; cbn [bind].
  unfold description_of; rewrite py_get_dict; reflexivity.
Qed.

Lemma feishu_format_witness :
  _format_message plain_repr plain_format ping_message feishu_target
  = Ok (VDict [("msg_type", VStr "text");
               ("content", VDict [("text", VStr "ping")])]).
Proof.
  apply (feishu_format plain_repr plain_format
           [("description", VStr "ping")]
           [("id", VStr "fs"); ("name", VStr "FS"); ("url", VStr "http://fs/");
            ("enabled", VBool true); ("type", VStr "feishu")]
           "http://fs/");
    first [reflexivity | left; reflexivity | discriminate].
Defined.

(** The formatting scenario of the specification, with the outbound
    request that [forward_to_target] builds. *)
Example feishu_scenario (py_repr : value -> string)
  (py_format : string -> dict -> result string) :
  outbound_request py_repr py_format ping_message feishu_target
  = Ok (Some {| out_url := VStr "http://fs/";
                out_json := VDict [("msg_type", VStr "text");
                                   ("content", VDict [("text", VStr "ping")])];
                out_headers := [("Content-Type", VStr "application/json")];
                out_timeout := VInt 10 |}).
Proof. reflexivity. Qed.

(** *** Request admission *)

Lemma prefix_app (a b : string) : String.prefix a (a ++ b) = true.
Proof.
  induction a as [| c a IH]; simpl.
  - destruct b; reflexivity.
  - destruct (Ascii.ascii_dec c c) as [_ | Hne]; [exact IH | contradiction].
Qed.

Lemma contains_app_r (n a s : string) :
  PyStr.contains n s = true -> PyStr.contains n (a ++ s) = true.
Proof.
  intros H; induction a as [| c a IH]; simpl; [exact H |].
  rewrite IH; apply orb_true_r.
Qed.

Lemma contains_prefix (n s : string) :
  String.prefix n s = true -> PyStr.contains n s = true.
Proof. intros H; destruct s; cbn [PyStr.contains]; rewrite H; reflexivity. Qed.

Lemma contains_infix (n a b : string) : PyStr.contains n (a ++ n ++ b) = true.
Proof. apply contains_app_r, contains_prefix, prefix_app. Qed.

Lemma app_empty_r (s : string) : s ++ EmptyString = s.
Proof. induction s as [| c s IH]; simpl; [| rewrite IH]; reflexivity. Qed.

Lemma header_missing_names (name : string) :
  PyStr.contains name (header_missing name) = true.
Proof.
  unfold header_missing; rewrite <- (app_empty_r name) at 2.
  apply contains_infix.
Qed.

Lemma header_mismatch_names (name : string) :
  PyStr.contains name (header_mismatch name) = true.
Proof. unfold header_mismatch; apply contains_infix. Qed.

(** On an entry whose configured value is a string, the check of the code
    fails exactly on a violation, with a diagnostic that names the header. *)
Lemma check_header_entry (r : request) (name s : string) :
  check_entry (fun n => header_get n (req_headers r))
    header_missing header_mismatch (name, VStr s) tt
  = if header_violation r (name, VStr s)
    then Raise (HTTPException 400
                  (match header_get name (req_headers r) with
                   | None => header_missing name
                   | Some _ => header_mismatch name
                   end))
    else Ok tt.
Proof.
  unfold check_entry, header_violation; cbn [fst snd].
  destruct (header_get name (req_headers r)) as [got |]; [| reflexivity].
  cbn [truthy py_eq as_num]; reflexivity.
Qed.

Lemma first_header_violation (r : request) (hs : dict) :
  Forall (fun entry => exists s, snd entry = VStr s) hs ->
  existsb (header_violation r) hs = true ->
  exists name expected detail,
    In (name, expected) hs
    /\ header_violation r (name, expected) = true
    /\ PyStr.contains name detail = true
    /\ fst (for_each
              (check_entry (fun n => header_get n (req_headers r))
                 header_missing header_mismatch) hs tt)
       = Raise (HTTPException 400 detail).
Proof.
  induction hs as [| [name expected] hs IH]; intros Hty Hex;
    [discriminate Hex |].
  inversion Hty as [| ? ? [s Hs] Hty']; subst; cbn [snd] in Hs; subst expected.
  cbn [for_each]; rewrite check_header_entry.
  cbn [existsb] in Hex.
  destruct (header_violation r (name, VStr s)) eqn:Hv.
  - exists name, (VStr s); eexists; split; [left; reflexivity |].
    split; [exact Hv | split; [| reflexivity]].
    destruct (header_get name (req_headers r));
      [apply header_mismatch_names | apply header_missing_names].
  - cbn [orb] in Hex; destruct (IH Hty' Hex) as (n & e & d & Hin & Hv' & Hc & Hf).
    exists n, e, d; split; [right; exact Hin |].
    split; [exact Hv' | split; [exact Hc |]].
    exact Hf.
Qed.

(** The gate of one handler.  When the headers that a route requires are a
    name-to-string map
    and the request violates one of them (the header is missing, or the
    configured value is not empty and differs from the header's value),
    [request_filter] raises an HTTP 400 whose detail contains the name of
    a violated header, and the request is answered with that error: the
    handler does not run, nothing is forwarded and the history does not
    change. *)
Theorem header_gate (py_repr : value -> string)
  (py_format : string -> dict -> result string) (http_post : outbound -> bool)
  (exn_str : exn -> string) (rc hs : dict) (r : request) :
  dict_get "headers" rc = Some (VDict hs) ->
  Forall (fun entry => exists s, snd entry = VStr s) hs ->
  existsb (header_violation r) hs = true ->
  exists name expected detail,
    In (name, expected) hs
    /\ header_violation r (name, expected) = true
    /\ PyStr.contains name detail = true
    /\ request_filter (VDict rc) r = Raise (HTTPException 400 detail)
    /\ forall self route_path now_ms now,
         serve py_repr py_format http_post exn_str self route_path (VDict rc)
           r now_ms now
         = (Raise (HTTPException 400 detail), [], self).
Proof.
  intros Hh Hty Hex.
  destruct (first_header_violation r hs Hty Hex)
    as (name & expected & detail & Hin & Hv & Hc & Hf).
  exists name, expected, detail.
  assert (Hrf : request_filter (VDict rc) r = Raise (HTTPException 400 detail)).
  { unfold request_filter, check_section.
    rewrite py_contains_dict, (dict_mem_some _ _ _ Hh); cbn [bind].
    rewrite (py_getitem_dict _ _ _ Hh); cbn [bind].
    destruct hs as [| h hs']; [discriminate Hex |].
    cbn [truthy py_items bind]; rewrite Hf; reflexivity. }
  repeat split; try assumption.
  intros self route_path now_ms now; unfold serve; rewrite Hrf; reflexivity.
Qed.

Lemma header_gate_witness :
  exists detail,
    request_filter (VDict gated_route) (keyed_request [("x-key", "wrong")])
    = Raise (HTTPException 400 detail)
    /\ PyStr.contains "X-Key" detail = true.
Proof.
  destruct (header_gate plain_repr plain_format post_accepted plain_exn_str
              gated_route [("X-Key", VStr "secret")]
              (keyed_request [("x-key", "wrong")]) eq_refl)
    as (name & expected & detail & Hin & _ & Hc & Hrf & _).
  - constructor; [exists "secret"; reflexivity | constructor].
  - reflexivity.
  - exists detail; split; [exact Hrf |].
    destruct Hin as [Heq | []]; injection Heq as <- _; exact Hc.
Defined.

(** The header-gated scenario of the specification: no header and a wrong
    value are refused with 400 and a detail naming [X-Key]; the right
    value lets the filter pass. *)
Example header_gate_scenario :
  request_filter (VDict gated_route) (keyed_request [])
  = Raise (HTTPException 400 (header_missing "X-Key"))
  /\ request_filter (VDict gated_route) (keyed_request [("X-Key", "wrong")])
     = Raise (HTTPException 400 (header_mismatch "X-Key"))
  /\ request_filter (VDict gated_route) (keyed_request [("X-Key", "secret")])
     = Ok true.
Proof. repeat split; reflexivity. Qed.

(** *** Route operations of the control API *)

Lemma keys_dict_set (k : string) (v : value) (d : dict) :
  In k (keys (dict_set k v d)).
Proof.
  induction d as [| [k' v'] d IH]; simpl; [left; reflexivity |].
  destruct (String.eqb k k'); simpl; [left; reflexivity | right; exact IH].
Qed.

Lemma dict_get_keys (k : string) (v : value) (d : dict) :
  dict_get k d = Some v -> In k (keys d).
Proof.
  intros H; apply dict_get_In in H.
  change k with (fst (k, v)); unfold keys; apply in_map; exact H.
Qed.

(** C8 on the code: a route declared a second time is not gated.  The
    application starts with the default route [/webhook], which requires
    no header, and [POST /routes] declares [/webhook] with the header
    [X-Key: secret].  The catalogue then holds the gated route, whose
    filter refuses a request without the header with status 400; but the
    handler bound at start comes first among the handlers of the path and
    holds the route it was bound with, so the request [POST /webhook]
    without the header is answered with success, the message is forwarded
    to the target A and recorded in the history. *)
Theorem replaced_route_not_gated (py_repr : value -> string)
  (py_format : string -> dict -> result string) (http_post : outbound -> bool)
  (exn_str : exn -> string) (path_error : string -> option exn)
  (path_matches : string -> string -> bool) (now_ms : Z) (now : string) :
  path_error "/webhook" = None ->
  path_matches "/webhook" "/webhook" = true ->
  let r := keyed_request [] in
  let message := enrich "/webhook" r now_ms status_message in
  _register_routes path_error (init one_target_config) = Ok started
  /\ (exists out, add_route path_error started gate_body = (Ok out, regated))
  /\ route_at regated "/webhook" = Some gated_webhook
  /\ request_filter gated_webhook r
     = Raise (HTTPException 400 (header_missing "X-Key"))
  /\ webhook_request py_repr py_format http_post exn_str path_matches
       regated "/webhook" r now_ms now
     = Some
         (Ok (VDict
                [("status", VStr "success");
                 ("message", VStr "消息已接收并通过路由 /webhook 处理");
                 ("results",
                  VList
                    [VDict
                       [("target_id", VStr "a"); ("target_name", VStr "A");
                        ("success",
                         VBool (forward_to_target py_repr py_format http_post
                                  message target_a))]])]),
          [target_a],
          _add_to_history now message regated).
Proof.
  intros Hpe Hpm; cbv zeta.
  split; [| split; [| split; [reflexivity | split; [reflexivity |]]]].
  - vm_compute; rewrite Hpe; reflexivity.
  - eexists; vm_compute; rewrite Hpe; reflexivity.
  - unfold webhook_request, webhook_for, regated.
    cbn [handlers find h_path h_method keyed_request req_method].
    rewrite Hpm; reflexivity.
Qed.

Lemma replaced_route_not_gated_witness :
  route_at regated "/webhook" = Some gated_webhook
  /\ request_filter gated_webhook (keyed_request [])
     = Raise (HTTPException 400 (header_missing "X-Key"))
  /\ exists response history,
      webhook_request plain_repr plain_format post_accepted plain_exn_str
        same_path regated "/webhook" (keyed_request []) 0 "now"
      = Some (Ok response, [target_a], history).
Proof.
  destruct (replaced_route_not_gated plain_repr plain_format post_accepted
              plain_exn_str every_path same_path 0 "now" eq_refl eq_refl)
    as (_ & _ & H1 & H2 & H3).
  split; [exact H1 | split; [exact H2 |]].
  eexists _, _; exact H3.
Defined.

(** What a successful [store_route] did. *)
Lemma store_route_inv (cfg : value) (path : string) (rc cfg' : value) :
  store_route cfg path rc = Ok cfg' ->
  exists c routes,
    cfg = VDict c
    /\ dict_get "routes" c = Some (VDict routes)
    /\ cfg' = VDict (dict_set "routes" (VDict (dict_set path rc routes)) c).
Proof.
  unfold store_route; intros H.
  destruct cfg as [ | | | | | | c]; try discriminate H.
  cbn [py_getitem] in H.
  destruct (dict_get "routes" c) as [routes |] eqn:Hr; [| discriminate H].
  cbn [bind] in H.
  destruct routes as [ | | | | | | routes]; try discriminate H.
  cbn [py_setitem bind] in H; injection H as <-.
  exists c, routes; split; [reflexivity | split; [exact Hr | reflexivity]].
Qed.

Lemma route_at_stored (self : forwarder) (c routes : dict) (path : string)
  (rc : value) :
  config self
  = VDict (dict_set "routes" (VDict (dict_set path rc routes)) c) ->
  route_at self path = Some rc.
Proof.
  unfold route_at; intros ->.
  rewrite dict_get_set_same, dict_get_set_same; reflexivity.
Qed.

Lemma route_paths_stored (self : forwarder) (c routes : dict) (path : string)
  (rc : value) :
  config self
  = VDict (dict_set "routes" (VDict (dict_set path rc routes)) c) ->
  In path (route_paths self).
Proof.
  unfold route_paths; intros ->.
  rewrite dict_get_set_same; apply keys_dict_set.
Qed.

(** Registration and detaching leave the configuration alone. *)
Lemma detach_config (key : string) (self : forwarder) :
  config (detach key self) = config self.
Proof. unfold detach; destruct (held self (InCatalogue key)); reflexivity. Qed.

Lemma register_route_config (path_error : string -> option exn)
  (self : forwarder) (route_path : string) (route_config : value)
  (held_as : route_ref) (out : result unit) (self' : forwarder) :
  _register_route path_error self route_path route_config held_as
  = (out, self') ->
  config self' = config self.
Proof.
  unfold _register_route; intros H.
  destruct (py_get route_config "methods" (VList [VStr "POST"]));
    [| injection H as _ <-; reflexivity].
  destruct (for_each _ _ _) as [[u | e] hs]; injection H as _ <-; reflexivity.
Qed.

(** What an accepted [POST /routes] did: the body is an object with a
    string [path], and the catalogue holds, under the normalised path, a
    route made of the five fields that the handler reads from the body. *)
Lemma add_route_inv (path_error : string -> option exn) (self : forwarder)
  (route out : value) (self' : forwarder) :
  add_route path_error self route = (Ok out, self') ->
  exists body p c routes,
    route = VDict body
    /\ dict_get "path" body = Some (VStr p)
    /\ config self = VDict c
    /\ dict_get "routes" c = Some (VDict routes)
    /\ let path := normalize_path p in
       let rc :=
         VDict [("target_ids", route_get "target_ids" (VList []) body);
                ("description",
                 route_get "description" (VStr ("路由 " ++ path)) body);
                ("methods", route_get "methods" (VList [VStr "POST"]) body);
                ("headers", route_get "headers" (VDict []) body);
                ("query_params", route_get "query_params" (VDict []) body)] in
       config self'
       = VDict (dict_set "routes" (VDict (dict_set path rc routes)) c).
Proof.
  unfold add_route; intros H.
  destruct (py_contains (VStr "path") route) as [[|] | e] eqn:Hc;
    cbn [bind negb] in H; try discriminate H.
  destruct (py_getitem route (VStr "path")) as [path | e] eqn:Hg;
    cbn [bind] in H; [| discriminate H].
  destruct path as [ | | | | p | | ]; try discriminate H.
  destruct route as [ | | | | | l | body]; try discriminate Hg.
  cbn [py_getitem] in Hg.
  destruct (dict_get "path" body) as [v |] eqn:Hp; [| discriminate Hg].
  injection Hg as ->.
  rewrite !py_get_dict in H; cbn [bind] in H.
  match type of H with
  | context [store_route ?cfg ?path ?rc] =>
      destruct (store_route cfg path rc) as [cfg' | e] eqn:Hs
  end; cbn [bind] in H; [| discriminate H].
  destruct (store_route_inv _ _ _ _ Hs) as (c & routes & Hcfg & Hr & ->).
  destruct (_register_route _ _ _ _ _) as [[u | e] self''] eqn:Hreg;
    [| discriminate H].
  injection H as _ <-.
  apply register_route_config in Hreg; cbn [set_config config] in Hreg.
  exists body, p, c, routes; repeat split; assumption.
Qed.

(** C10. An accepted [POST /routes] stores, under the normalised path, a
    route whose keys are exactly [target_ids], [description], [methods],
    [headers] and [query_params]: a [template] or [preprocess] given in
    the body is not stored. *)
Theorem add_route_stored_keys (path_error : string -> option exn)
  (self : forwarder) (route out : value) (self' : forwarder) :
  add_route path_error self route = (Ok out, self') ->
  exists p rc,
    py_getitem route (VStr "path") = Ok (VStr p)
    /\ route_at self' (normalize_path p) = Some (VDict rc)
    /\ keys rc = ["target_ids"; "description"; "methods"; "headers";
                  "query_params"]
    /\ dict_get "template" rc = None
    /\ dict_get "preprocess" rc = None.
Proof.
  intros H.
  destruct (add_route_inv _ _ _ _ _ H)
    as (body & p & c & routes & -> & Hp & Hcfg & Hr & Hself).
  cbv zeta in Hself.
  exists p; eexists; split; [apply py_getitem_dict; exact Hp |].
  split; [exact (route_at_stored _ _ _ _ _ Hself) |].
  repeat split.
Qed.

Lemma add_route_stored_keys_witness :
  exists rc,
    route_at (snd (add_route every_path (init empty_config) full_route_body))
      "/in"
    = Some (VDict rc)
    /\ dict_get "template" rc = None
    /\ dict_get "preprocess" rc = None.
Proof.
  destruct (add_route_stored_keys every_path (init empty_config)
              full_route_body
              (response_of
                 (fst (add_route every_path (init empty_config)
                         full_route_body)))
              (snd (add_route every_path (init empty_config) full_route_body))
              eq_refl)
    as (p & rc & Hp & Hat & _ & Ht & Hpre).
  injection Hp as <-.
  exists rc; repeat split; assumption.
Defined.

(** A body with a string [path] and no [methods] is accepted whenever the
    configuration has a routes catalogue and the framework takes the
    path. *)
Lemma add_route_accepts (path_error : string -> option exn) (self : forwarder)
  (c routes body : dict) (p : string) :
  config self = VDict c ->
  dict_get "routes" c = Some (VDict routes) ->
  dict_get "path" body = Some (VStr p) ->
  dict_get "methods" body = None ->
  path_error (normalize_path p) = None ->
  exists out self', add_route path_error self (VDict body) = (Ok out, self').
Proof.
  intros Hcfg Hr Hp Hm Hpe; unfold add_route.
  rewrite py_contains_dict, (dict_mem_some _ _ _ Hp); cbn [bind negb].
  rewrite (py_getitem_dict _ _ _ Hp); cbn [bind].
  rewrite !py_get_dict; cbn [bind].
  unfold store_route; rewrite Hcfg, (py_getitem_dict _ _ _ Hr).
  cbn [bind py_setitem].
  unfold _register_route; rewrite py_get_dict; cbn [bind].
  assert (Hrm : route_get "methods" (VList [VStr "POST"]) body
                = VList [VStr "POST"])
    by (unfold route_get; rewrite Hm; reflexivity).
  rewrite !Hrm.
  assert (Hn : normalize_path (normalize_path p) = normalize_path p).
  { unfold normalize_path at 1.
    destruct (PyStr.startswith "/" (normalize_path p)) eqn:E; [reflexivity |].
    unfold normalize_path in E.
    destruct (PyStr.startswith "/" p) eqn:E'; [congruence |].
    destruct p; discriminate E. }
  assert (Hs : forall a b x d e,
             route_get "methods" (VList [VStr "POST"])
               [("target_ids", a); ("description", b); ("methods", x);
                ("headers", d); ("query_params", e)] = x)
    by reflexivity.
  rewrite Hs, ?Hn; cbn [for_each bind_method].
  change (existsb (String.eqb (PyStr.upper "POST"))
            ["GET"; "POST"; "PUT"; "DELETE"; "PATCH"]) with true.
  cbv iota zeta; rewrite Hpe; eexists; eexists; reflexivity.
Qed.

(** A later [PUT] can add what [POST] left out. *)
Example put_adds_template :
  let self1 := snd (add_route every_path (init empty_config)
                      full_route_body) in
  let self2 := snd (update_route every_path self1 "in"
                      (VDict [("template", VStr "trade")])) in
  route_at self2 "/in"
  = Some (VDict [("target_ids", VList [VStr "a"]);
                 ("description", VStr "路由 /in");
                 ("methods", VList [VStr "POST"]); ("headers", VDict []);
                 ("query_params", VDict []); ("template", VStr "trade")]).
Proof. reflexivity. Qed.

Lemma normalize_path_slash (p : string) :
  PyStr.startswith "/" (normalize_path p) = true.
Proof.
  unfold normalize_path.
  destruct (PyStr.startswith "/" p) eqn:E; [exact E |].
  destruct p; reflexivity.
Qed.

Lemma normalize_path_one_slash (p : string) :
  one_leading_slash (normalize_path p) = negb (PyStr.startswith "//" p).
Proof.
  unfold one_leading_slash, normalize_path, PyStr.startswith.
  destruct p as [| c p']; [reflexivity |].
  cbn [String.prefix].
  destruct (ascii_dec "/" c) as [<- | Hne]; cbn [String.prefix append].
  - destruct (ascii_dec "/" "/") as [_ | Hne]; [| contradiction].
    destruct p'; reflexivity.
  - destruct (ascii_dec "/" "/") as [_ | Hne']; [| contradiction].
    destruct (ascii_dec "/" c) as [He | _]; [contradiction | reflexivity].
Qed.

(** What a successful [PUT /routes/{path}] did. *)
Lemma update_route_inv (path_error : string -> option exn) (self : forwarder)
  (path : string) (route_update out : value) (self' : forwarder) :
  update_route path_error self path route_update = (Ok out, self') ->
  exists c routes route,
    config self = VDict c
    /\ dict_get "routes" c = Some (VDict routes)
    /\ dict_get (normalize_path path) routes = Some route
    /\ exists route',
         config self'
         = VDict (dict_set "routes"
                    (VDict (dict_set (normalize_path path) route' routes)) c).
Proof.
  unfold update_route; intros H.
  destruct (py_get (config self) "routes" (VDict [])) as [r0 | e];
    cbn [bind] in H; [| discriminate H].
  destruct (py_contains (VStr (normalize_path path)) r0) as [[|] | e];
    cbn [bind] in H; try discriminate H.
  destruct (py_getitem (config self) (VStr "routes")) as [r1 | e] eqn:Hr1;
    cbn [bind] in H; [| discriminate H].
  destruct (py_getitem r1 (VStr (normalize_path path))) as [route | e] eqn:Hg;
    cbn [bind] in H; [| discriminate H].
  destruct route as [ | | | | | | d]; try discriminate H.
  destruct (py_unpack route_update) as [u | e]; cbn [bind] in H;
    [| discriminate H].
  match type of H with
  | context [store_route ?cfg ?k ?rc] =>
      destruct (store_route cfg k rc) as [cfg' | e] eqn:Hs
  end; cbn [bind] in H; [| discriminate H].
  destruct (store_route_inv _ _ _ _ Hs) as (c & routes & Hcfg & Hr & ->).
  destruct (_register_route _ _ _ _ _) as [[u0 | e] self''] eqn:Hreg;
    [| discriminate H].
  injection H as _ <-.
  apply register_route_config in Hreg; cbn [set_config config] in Hreg.
  rewrite Hcfg in Hr1; cbn [py_getitem] in Hr1; rewrite Hr in Hr1.
  injection Hr1 as <-.
  cbn [py_getitem] in Hg.
  destruct (dict_get (normalize_path path) routes) as [v |] eqn:Hk;
    [| discriminate Hg].
  exists c, routes, v; repeat split; try assumption.
  eexists; exact Hreg.
Qed.

(** What a successful [DELETE /routes/{path}] found. *)
Lemma delete_route_inv (self : forwarder) (path : string) (out : value)
  (self' : forwarder) :
  delete_route self path = (Ok out, self') ->
  exists c routes route,
    config self = VDict c
    /\ dict_get "routes" c = Some (VDict routes)
    /\ dict_get (normalize_path path) routes = Some route.
Proof.
  unfold delete_route; intros H.
  destruct (py_get (config self) "routes" (VDict [])) as [r0 | e];
    cbn [bind] in H; [| discriminate H].
  destruct (py_contains (VStr (normalize_path path)) r0) as [[|] | e];
    cbn [bind] in H; try discriminate H.
  destruct (config self) as [ | | | | | | c]; try discriminate H.
  cbn [py_getitem] in H.
  destruct (dict_get "routes" c) as [r1 |] eqn:Hr; [| discriminate H].
  cbn [bind] in H.
  destruct r1 as [ | | | | | | routes]; try discriminate H.
  cbn [py_delitem] in H; unfold dict_mem in H.
  destruct (dict_get (normalize_path path) routes) as [v |] eqn:Hk;
    [| discriminate H].
  exists c, routes, v; repeat split; assumption.
Qed.

Lemma route_paths_known (self : forwarder) (c routes : dict) (k : string)
  (v : value) :
  config self = VDict c ->
  dict_get "routes" c = Some (VDict routes) ->
  dict_get k routes = Some v ->
  In k (route_paths self).
Proof.
  intros Hcfg Hr Hk; unfold route_paths; rewrite Hcfg, Hr.
  exact (dict_get_keys _ _ _ Hk).
Qed.

(** C4, as stated, fails: [POST /routes] with the path "//a" stores the
    route under "//a", which begins with two '/'. *)
Lemma double_slash_path_stored :
  route_paths (snd (add_route every_path (init empty_config)
                      (VDict [("path", VStr "//a")])))
  = ["/webhook"; "//a"]
  /\ one_leading_slash "//a" = false.
Proof. split; reflexivity. Qed.

(** C4, amended. For a path p supplied to [POST /routes],
    [PUT /routes/{path}] or [DELETE /routes/{path}], the path that a
    successful operation stores or looks up begins with '/': it is p
    itself when p begins with '/', and '/' followed by p otherwise.
    Nothing is stripped, so it begins with exactly one '/' unless p begins
    with two. *)
Theorem route_path_normalised (path_error : string -> option exn)
  (self : forwarder) (rq : route_request) (p : string) (out : value)
  (self' : forwarder) :
  supplied_path rq = Some p ->
  control path_error self rq = (Ok out, self') ->
  let k := normalize_path p in
  PyStr.startswith "/" k = true
  /\ k = (if PyStr.startswith "/" p then p else "/" ++ p)
  /\ one_leading_slash k = negb (PyStr.startswith "//" p)
  /\ match rq with
     | POST_routes _ => In k (route_paths self')
     | PUT_routes _ _ => In k (route_paths self) /\ In k (route_paths self')
     | DELETE_routes _ => In k (route_paths self)
     end.
Proof.
  intros Hp Hrun k.
  split; [apply normalize_path_slash |].
  split; [reflexivity |].
  split; [apply normalize_path_one_slash |].
  destruct rq as [route | path route_update | path]; cbn [control] in Hrun.
  - destruct (add_route_inv _ _ _ _ _ Hrun)
      as (body & p' & c & routes & -> & Hpath & Hcfg & Hr & Hself).
    cbn [supplied_path] in Hp; rewrite Hpath in Hp; injection Hp as ->.
    cbv zeta in Hself; exact (route_paths_stored _ _ _ _ _ Hself).
  - cbn [supplied_path] in Hp; injection Hp as ->.
    destruct (update_route_inv _ _ _ _ _ _ Hrun)
      as (c & routes & route & Hcfg & Hr & Hk & route' & Hself).
    split; [exact (route_paths_known _ _ _ _ _ Hcfg Hr Hk) |].
    exact (route_paths_stored _ _ _ _ _ Hself).
  - cbn [supplied_path] in Hp; injection Hp as ->.
    destruct (delete_route_inv _ _ _ _ Hrun)
      as (c & routes & route & Hcfg & Hr & Hk).
    exact (route_paths_known _ _ _ _ _ Hcfg Hr Hk).
Qed.

Lemma route_path_normalised_witness :
  supplied_path (POST_routes full_route_body) = Some "in"
  /\ normalize_path "in" = "/in"
  /\ In "/in" (route_paths (snd (add_route every_path (init empty_config)
                                   full_route_body))).
Proof.
  split; [reflexivity | split; [reflexivity |]].
  exact (proj2 (proj2 (proj2
    (route_path_normalised every_path (init empty_config)
       (POST_routes full_route_body) "in"
       (response_of
          (fst (add_route every_path (init empty_config) full_route_body)))
       (snd (add_route every_path (init empty_config) full_route_body))
       eq_refl eq_refl)))).
Defined.


(** ** Further properties of the forwarder *)

(** *** Dotted paths *)

Lemma split_not_nil (sep : ascii) (s : string) : PyStr.split sep s <> [].
Proof.
  destruct s as [| c s]; simpl; [discriminate |].
  destruct (Ascii.eqb c sep); [discriminate |].
  destruct (PyStr.split sep s); discriminate.
Qed.

Lemma dict_set_twice (k : string) (v w : value) (d : dict) :
  dict_set k w (dict_set k v d) = dict_set k w d.
Proof.
  induction d as [| [k' x] d IH]; simpl.
  - rewrite String.eqb_refl; reflexivity.
  - destruct (String.eqb k k') eqn:E; simpl;
      [rewrite String.eqb_refl | rewrite E, IH]; reflexivity.
Qed.

Lemma set_parts_step (part q : string) (rest : list string) (v current : value) :
  set_parts (part :: q :: rest) v current
  = bind (py_contains (VStr part) current)
      (fun present =>
         bind (if present then Ok current
               else py_setitem current part (VDict []))
           (fun current1 =>
              bind (py_getitem current1 (VStr part))
                (fun child =>
                   bind (set_parts (q :: rest) v child)
                     (fun child' => py_setitem current1 part child')))).
Proof. reflexivity. Qed.

(** A successful write went into an object and touched one key of it. *)
Lemma set_parts_inv (parts : list string) (v current r : value) :
  parts <> [] ->
  set_parts parts v current = Ok r ->
  exists part rest d w,
    parts = part :: rest /\ current = VDict d /\ r = VDict (dict_set part w d).
Proof.
  destruct parts as [| part rest]; [congruence |]; intros _ H.
  destruct rest as [| q rest].
  - cbn [set_parts] in H.
    destruct current; try discriminate H.
    cbn [py_setitem] in H; injection H as <-.
    eexists _, _, _, _; repeat split.
  - rewrite set_parts_step in H.
    destruct (py_contains (VStr part) current) as [present | e];
      cbn [bind] in H; [| discriminate H].
    destruct (if present then Ok current
              else py_setitem current part (VDict [])) as [c1 | e] eqn:Hc1;
      cbn [bind] in H; [| discriminate H].
    destruct (py_getitem c1 (VStr part)) as [child | e];
      cbn [bind] in H; [| discriminate H].
    destruct (set_parts (q :: rest) v child) as [child' | e];
      cbn [bind] in H; [| discriminate H].
    destruct c1 as [ | | | | | | d1]; try discriminate H.
    cbn [py_setitem] in H; injection H as <-.
    destruct present.
    + injection Hc1 as ->; eexists _, _, _, _; repeat split.
    + destruct current; try discriminate Hc1.
      cbn [py_setitem] in Hc1; injection Hc1 as <-.
      rewrite dict_set_twice; eexists _, _, _, _; repeat split.
Qed.

Lemma set_parts_read_back (parts : list string) (v : value) :
  parts <> [] ->
  forall current r, set_parts parts v current = Ok r -> walk parts r = v.
Proof.
  induction parts as [| part rest IH]; [congruence |]; intros _ current r H.
  destruct rest as [| q rest].
  - cbn [set_parts] in H; destruct current; try discriminate H.
    cbn [py_setitem] in H; injection H as <-.
    cbn [walk]; rewrite dict_get_set_same; reflexivity.
  - assert (Hq : q :: rest <> []) by discriminate.
    rewrite set_parts_step in H.
    destruct (py_contains (VStr part) current) as [present | e];
      cbn [bind] in H; [| discriminate H].
    destruct (if present then Ok current
              else py_setitem current part (VDict [])) as [c1 | e];
      cbn [bind] in H; [| discriminate H].
    destruct (py_getitem c1 (VStr part)) as [child | e];
      cbn [bind] in H; [| discriminate H].
    destruct (set_parts (q :: rest) v child) as [child' | e] eqn:Hc;
      cbn [bind] in H; [| discriminate H].
    destruct c1; try discriminate H.
    cbn [py_setitem] in H; injection H as <-.
    cbn [walk]; rewrite dict_get_set_same.
    exact (IH Hq _ _ Hc).
Qed.

Lemma set_nested_read_back (root r v : value) (field : string) :
  set_nested root (VStr field) v = Ok r ->
  _get_nested_value r (VStr field) = Ok v.
Proof.
  unfold set_nested, _get_nested_value; intros H.
  rewrite (set_parts_read_back _ v (split_not_nil "." field) _ _ H).
  reflexivity.
Qed.

(** X1. What the stage loop writes at a dotted path, [_get_nested_value]
    reads back at that path. *)
Theorem nested_write_read (root r v : value) (field : string) :
  set_nested root (VStr field) v = Ok r ->
  _get_nested_value r (VStr field) = Ok v.
Proof. apply set_nested_read_back. Qed.

Lemma nested_write_read_witness :
  set_nested (VDict [("a", VDict [("x", VInt 1)])]) (VStr "a.b.c") (VInt 2)
  = Ok (VDict [("a", VDict [("x", VInt 1); ("b", VDict [("c", VInt 2)])])])
  /\ _get_nested_value
       (VDict [("a", VDict [("x", VInt 1); ("b", VDict [("c", VInt 2)])])])
       (VStr "a.b.c")
     = Ok (VInt 2).
Proof.
  split; [reflexivity |].
  exact (nested_write_read (VDict [("a", VDict [("x", VInt 1)])]) _ (VInt 2)
           "a.b.c" eq_refl).
Defined.

Lemma split_head (field : string) :
  exists rest, PyStr.split "." field = head_key field :: rest.
Proof.
  unfold head_key; destruct (PyStr.split "." field) as [| k rest] eqn:E.
  - exfalso; exact (split_not_nil _ _ E).
  - exists rest; reflexivity.
Qed.

Lemma set_nested_frame (root r v : value) (field other : string) :
  set_nested root (VStr field) v = Ok r ->
  head_key other <> head_key field ->
  _get_nested_value r (VStr other) = _get_nested_value root (VStr other).
Proof.
  unfold set_nested, _get_nested_value; intros H Hne.
  destruct (set_parts_inv _ _ _ _ (split_not_nil "." field) H)
    as (part & rest & d & w & Hs & -> & ->).
  destruct (split_head field) as [rest' Hf]; rewrite Hf in Hs.
  injection Hs as <- _.
  destruct (split_head other) as [rest'' Ho]; rewrite Ho.
  cbn [walk]; rewrite (dict_get_set_other _ _ _ _ Hne); reflexivity.
Qed.

Lemma set_parts_writable (parts : list string) (v : value) :
  parts <> [] ->
  forall current,
    match set_parts parts v current with
    | Ok _ => writable parts current = true
    | Raise e => writable parts current = false /\ e = TypeError
    end.
Proof.
  induction parts as [| part rest IH]; [congruence |]; intros _ current.
  destruct rest as [| q rest].
  - cbn [set_parts writable]; destruct current; cbn [py_setitem];
      try (split; reflexivity); reflexivity.
  - assert (Hq : q :: rest <> []) by discriminate.
    rewrite set_parts_step.
    destruct current as [ | | | | s | l | d];
      try (cbn; split; reflexivity).
    + cbn [py_contains bind writable].
      destruct (PyStr.contains part s); cbn; split; reflexivity.
    + cbn [py_contains bind writable].
      destruct (existsb _ l); cbn; split; reflexivity.
    + cbn [py_contains bind]; unfold dict_mem.
      change (writable (part :: q :: rest) (VDict d))
        with (match dict_get part d with
              | Some child => writable (q :: rest) child
              | None => true
              end).
      destruct (dict_get part d) as [child |] eqn:Hg;
        cbn [bind py_setitem py_getitem].
      * rewrite Hg; cbn [bind].
        specialize (IH Hq child).
        destruct (set_parts (q :: rest) v child); cbn [bind]; exact IH.
      * rewrite dict_get_set_same; cbn [bind].
        specialize (IH Hq (VDict [])).
        destruct (set_parts (q :: rest) v (VDict [])); cbn [bind];
          [reflexivity |].
        destruct IH as [IH _]; destruct rest; discriminate IH.
Qed.

(** X3. The stage loop writes at a dotted path exactly when every value it
    meets before the last key is an object (a missing key is created as an
    empty object); when it meets anything else, also a scalar, it raises
    [TypeError] and writes nothing. *)
Theorem nested_write_succeeds_iff (root v : value) (field : string) :
  (writable (PyStr.split "." field) root = true ->
   exists r, set_nested root (VStr field) v = Ok r)
  /\ (writable (PyStr.split "." field) root = false ->
      set_nested root (VStr field) v = Raise TypeError).
Proof.
  unfold set_nested.
  pose proof (set_parts_writable _ v (split_not_nil "." field) root) as H.
  destruct (set_parts (PyStr.split "." field) v root) as [r | e]; split.
  - intros _; exists r; reflexivity.
  - intros Hw; rewrite Hw in H; discriminate H.
  - intros Hw; destruct H as [H _]; rewrite Hw in H; discriminate H.
  - intros _; destruct H as [_ ->]; reflexivity.
Qed.

Lemma nested_write_succeeds_iff_witness :
  writable (PyStr.split "." "y.z") (VDict [("y", VInt 5)]) = false
  /\ set_nested (VDict [("y", VInt 5)]) (VStr "y.z") (VInt 2) = Raise TypeError.
Proof.
  split; [reflexivity |].
  exact (proj2 (nested_write_succeeds_iff (VDict [("y", VInt 5)]) (VInt 2) "y.z")
           eq_refl).
Defined.

(** *** Field injection *)

Lemma for_each_app {A S : Type} (body : A -> S -> result S) (xs ys : list A)
  (s : S) :
  for_each body (xs ++ ys) s
  = match for_each body xs s with
    | (Ok s', _) => for_each body ys s'
    | (Raise e, s') => (Raise e, s')
    end.
Proof.
  revert s; induction xs as [| x xs IH]; intros s; cbn [for_each app];
    [reflexivity |].
  destruct (body x s) as [s' | e]; [apply IH | reflexivity].
Qed.

(** Later entries with other first keys keep an injected field. *)
Lemma add_fields_keep (field : string) (v : value) (after : dict) :
  Forall (fun e => head_key (fst e) <> head_key field) after ->
  forall r0 r,
    fst (for_each add_body after r0) = Ok r ->
    _get_nested_value r0 (VStr field) = Ok v ->
    _get_nested_value r (VStr field) = Ok v.
Proof.
  induction after as [| [f w] after IH]; intros Hne r0 r Hrun Hget.
  - cbn [for_each fst] in Hrun; injection Hrun as <-; exact Hget.
  - inversion Hne as [| ? ? Hf Hafter]; subst; cbn [fst] in Hf.
    cbn [for_each] in Hrun; unfold add_body at 1 in Hrun.
    destruct (set_parts (PyStr.split "." f) w r0) as [r1 | e] eqn:Hs;
      [| discriminate Hrun].
    apply (IH Hafter r1 r Hrun).
    rewrite <- Hget; apply (set_nested_frame r0 r1 w f field).
    + exact Hs.
    + intros Heq; apply Hf; symmetry; exact Heq.
Qed.

(** X4. Field injection is the last stage, so it wins: when
    [_preprocess_message] returns under a spec without field mapping, the
    literal of every [add_fields] entry is read back at its path, provided
    no later entry of [add_fields] starts with the same key.  This holds
    whatever the inclusion filter and the type transforms did.  (A field
    mapping can put one object of the payload under two keys, and a later
    write under one of them shows under the other: such results are
    outside this statement.) *)
Theorem injected_fields_present (py_repr : value -> string)
  (py_format : string -> dict -> result string)
  (message r obj : value) (c before after : dict) (field : string) (v : value) :
  dict_mem "field_mapping" c = false ->
  dict_get "add_fields" c = Some (VDict (before ++ (field, v) :: after)%list) ->
  Forall (fun e => head_key (fst e) <> head_key field) after ->
  _preprocess_message py_repr py_format message (VDict c) = (Ok r, obj) ->
  _get_nested_value r (VStr field) = Ok v.
Proof.
  intros _ Hadd Hne Hrun.
  unfold _preprocess_message in Hrun.
  assert (Hc : truthy (VDict c) = true)
    by (destruct c; [discriminate Hadd | reflexivity]).
  rewrite Hc in Hrun; cbn [negb] in Hrun.
  match type of Hrun with
  | match ?stage12 with _ => _ end = _ =>
      destruct stage12 as [[r0 rebound] | e]; [| discriminate Hrun]
  end.
  unfold in_place_stages in Hrun.
  destruct (run_stage (VDict c) "transformations"
              (transform_body py_repr py_format) r0) as [[r1 | e] o1];
    [| destruct rebound; discriminate Hrun].
  unfold run_stage in Hrun.
  rewrite py_contains_dict, (dict_mem_some _ _ _ Hadd) in Hrun.
  rewrite (py_getitem_dict _ _ _ Hadd) in Hrun; cbn [bind py_items] in Hrun.
  rewrite for_each_app in Hrun.
  destruct (for_each add_body before r1) as [[r2 | e] o2];
    [| destruct rebound; discriminate Hrun].
  cbn [for_each] in Hrun; unfold add_body at 1 in Hrun.
  destruct (set_parts (PyStr.split "." field) v r2) as [r3 | e] eqn:Hs;
    [| destruct rebound; discriminate Hrun].
  destruct (for_each add_body after r3) as [out o3] eqn:Hafter.
  assert (Hout : out = Ok r) by (destruct rebound; congruence).
  subst out.
  apply (add_fields_keep field v after Hne r3 r).
  - rewrite Hafter; reflexivity.
  - exact (set_nested_read_back r2 r3 v field Hs).
Qed.

Lemma injected_fields_present_witness :
  _get_nested_value
    (VDict [("price", VInt 42); ("data", VDict [("source", VStr "tv")])])
    (VStr "data.source")
  = Ok (VStr "tv").
Proof.
  apply (injected_fields_present plain_repr plain_format
           (VDict [("price", VStr "42")])
           (VDict [("price", VInt 42); ("data", VDict [("source", VStr "tv")])])
           (VDict [("price", VInt 42); ("data", VDict [("source", VStr "tv")])])
           [("transformations", VDict [("price", VStr "to_int")]);
            ("add_fields", VDict [("data.source", VStr "tv")])]
           [] [] "data.source" (VStr "tv")).
  - reflexivity.
  - reflexivity.
  - constructor.
  - reflexivity.
Defined.

(** One entry of a stage that writes under another first key than that of
    [other] leaves what is read at [other]. *)
Lemma add_body_frame (other : string) (entry : string * value)
  (s s' : value) :
  add_body entry s = Ok s' ->
  head_key (fst entry) <> head_key other ->
  _get_nested_value s' (VStr other) = _get_nested_value s (VStr other).
Proof.
  destruct entry as [field v]; cbn [add_body fst]; intros H Hne.
  apply (set_nested_frame s s' v field other); [exact H |].
  intros Heq; apply Hne; symmetry; exact Heq.
Qed.

Lemma transform_body_frame (py_repr : value -> string)
  (py_format : string -> dict -> result string) (other : string)
  (entry : string * value) (s s' : value) :
  transform_body py_repr py_format entry s = Ok s' ->
  head_key (fst entry) <> head_key other ->
  _get_nested_value s' (VStr other) = _get_nested_value s (VStr other).
Proof.
  destruct entry as [field kind]; cbn [transform_body fst]; intros H Hne.
  cbn [_get_nested_value bind] in H.
  assert (Hw : forall t,
             set_parts (PyStr.split "." field) t s = Ok s' ->
             _get_nested_value s' (VStr other)
             = _get_nested_value s (VStr other)).
  { intros t Hs; apply (set_nested_frame s s' t field other); [exact Hs |].
    intros Heq; apply Hne; symmetry; exact Heq. }
  destruct (walk (PyStr.split "." field) s) as [ | b | n | f | x | l | d];
    try (injection H as <-; reflexivity);
    (destruct (transformed py_repr py_format kind _) as [t | e];
     cbn [bind] in H; [exact (Hw t H) | discriminate H]).
Qed.

(** A stage whose entries all write under other first keys than that of
    [other] leaves what is read at [other]. *)
Lemma run_stage_frame (body : string * value -> value -> result value)
  (key other : string) (c : dict) (r0 r obj : value) :
  (forall entry s s',
     body entry s = Ok s' ->
     head_key (fst entry) <> head_key other ->
     _get_nested_value s' (VStr other) = _get_nested_value s (VStr other)) ->
  (forall entries,
     dict_get key c = Some (VDict entries) ->
     Forall (fun e => head_key (fst e) <> head_key other) entries) ->
  run_stage (VDict c) key body r0 = (Ok r, obj) ->
  _get_nested_value r (VStr other) = _get_nested_value r0 (VStr other).
Proof.
  intros Hbody Hkeys; unfold run_stage.
  rewrite py_contains_dict; unfold dict_mem.
  destruct (dict_get key c) as [v |] eqn:Hk.
  2: { intros [= <- _]; reflexivity. }
  rewrite (py_getitem_dict _ _ _ Hk); cbn [bind].
  destruct v as [ | | | | | | entries]; try discriminate.
  cbn [py_items]; specialize (Hkeys entries eq_refl); clear Hk.
  revert r0; induction entries as [| entry entries IH]; intros r0 Hrun.
  - cbn [for_each] in Hrun; injection Hrun as <- _; reflexivity.
  - inversion Hkeys as [| ? ? Hne Hrest]; subst.
    cbn [for_each] in Hrun.
    destruct (body entry r0) as [r1 | e] eqn:Hb; [| discriminate Hrun].
    rewrite (IH Hrest r1 Hrun); exact (Hbody _ _ _ Hb Hne).
Qed.

(** X2. Preprocessing without field mapping and inclusion filter works on
    the payload in place and touches only the top-level keys that a
    [transformations] or [add_fields] path starts with: when it returns,
    every path that starts with another key reads as it did in the
    payload.  (With a field mapping two keys can hold one object, and the
    statement fails.) *)
Theorem other_fields_untouched (py_repr : value -> string)
  (py_format : string -> dict -> result string)
  (message r obj : value) (c : dict) (other : string) :
  dict_mem "field_mapping" c = false ->
  dict_mem "include_fields" c = false ->
  (forall key entries,
     In key ["transformations"; "add_fields"] ->
     dict_get key c = Some (VDict entries) ->
     Forall (fun e => head_key (fst e) <> head_key other) entries) ->
  _preprocess_message py_repr py_format message (VDict c) = (Ok r, obj) ->
  _get_nested_value r (VStr other) = _get_nested_value message (VStr other).
Proof.
  intros Hmap Hinc Hkeys Hrun.
  unfold _preprocess_message in Hrun.
  destruct (truthy (VDict c)); cbn [negb] in Hrun;
    [| injection Hrun as <- _; reflexivity].
  rewrite !py_contains_dict, Hmap in Hrun; cbn [bind] in Hrun.
  rewrite Hinc in Hrun; cbn [bind orb] in Hrun.
  unfold in_place_stages in Hrun.
  destruct (run_stage (VDict c) "transformations"
              (transform_body py_repr py_format) message)
    as [[r1 | e] o1] eqn:H1; [| discriminate Hrun].
  destruct (run_stage (VDict c) "add_fields" add_body r1)
    as [out o2] eqn:H2.
  injection Hrun as -> _.
  rewrite (run_stage_frame add_body "add_fields" other c r1 r o2
             (add_body_frame other)
             (fun entries => Hkeys "add_fields" entries
                               (or_intror (or_introl eq_refl)))
             H2).
  exact (run_stage_frame _ "transformations" other c message r1 o1
           (transform_body_frame py_repr py_format other)
           (fun entries => Hkeys "transformations" entries
                             (or_introl eq_refl))
           H1).
Qed.

Lemma other_fields_untouched_witness :
  _get_nested_value
    (VDict [("price", VInt 42); ("note", VDict [("a", VInt 1)]);
            ("data", VDict [("source", VStr "tv")])])
    (VStr "note.a")
  = _get_nested_value
      (VDict [("price", VStr "42"); ("note", VDict [("a", VInt 1)])])
      (VStr "note.a").
Proof.
  apply (other_fields_untouched plain_repr plain_format
           (VDict [("price", VStr "42"); ("note", VDict [("a", VInt 1)])])
           (VDict [("price", VInt 42); ("note", VDict [("a", VInt 1)]);
                   ("data", VDict [("source", VStr "tv")])])
           (VDict [("price", VInt 42); ("note", VDict [("a", VInt 1)]);
                   ("data", VDict [("source", VStr "tv")])])
           [("transformations", VDict [("price", VStr "to_int")]);
            ("add_fields", VDict [("data.source", VStr "tv")])]
           "note.a").
  - reflexivity.
  - reflexivity.
  - intros key entries [<- | [<- | []]] [= <-];
      repeat constructor; discriminate.
  - reflexivity.
Defined.

(** *** Type transforms *)

(** X5. Each of the four conversions is idempotent: converting a value that
    a conversion produced gives that value again. *)
Theorem conversion_idempotent (py_repr : value -> string)
  (py_format : string -> dict -> result string) (kind : string) (v w : value) :
  In kind conversion_kinds ->
  transformed py_repr py_format (VStr kind) v = Ok w ->
  transformed py_repr py_format (VStr kind) w = Ok w.
Proof.
  intros Hk H.
  destruct Hk as [<- | [<- | [<- | [<- | []]]]].
  - injection H as <-; reflexivity.
  - change (match py_int v with
            | Ok n => Ok (VInt n)
            | Raise ValueError | Raise TypeError => Ok (VInt 0)
            | Raise e => Raise e
            end = Ok w) in H.
    destruct (py_int v) as [n | []]; try discriminate H;
      injection H as <-; reflexivity.
  - change (match py_float v with
            | Ok f => Ok (VFloat f)
            | Raise ValueError | Raise TypeError =>
                Ok (VFloat (S754_zero false))
            | Raise e => Raise e
            end = Ok w) in H.
    destruct (py_float v) as [f | []]; try discriminate H;
      injection H as <-; reflexivity.
  - change (match v with
            | VStr s =>
                Ok (VBool (existsb (String.eqb (PyStr.lower s))
                             ["true"; "yes"; "1"; "y"]))
            | _ => Ok (VBool (truthy v))
            end = Ok w) in H.
    destruct v; injection H as <-; reflexivity.
Qed.

Lemma conversion_idempotent_witness :
  transformed plain_repr plain_format (VStr "to_int") (VStr " 12 ")
  = Ok (VInt 12)
  /\ transformed plain_repr plain_format (VStr "to_int") (VInt 12)
     = Ok (VInt 12).
Proof.
  split; [reflexivity |].
  apply (conversion_idempotent plain_repr plain_format "to_int"
           (VStr " 12 ") (VInt 12)); [right; left; reflexivity | reflexivity].
Defined.

(** **** The binary64 number nearest to an integer

    [float(n)] rounds to nearest, ties to even, and raises [OverflowError]
    when the result is beyond the binary64 range.  The lemmas below
    evaluate [binary_round] on an integer mantissa with exponent 0. *)

Lemma iter_pos_nat {A} (f : A -> A) (p : positive) (x : A) :
  iter_pos f p x = Nat.iter (Pos.to_nat p) f x.
Proof.
  revert x; induction p as [p IH | p IH |]; intros x; cbn [iter_pos].
  - rewrite !IH, Pos2Nat.inj_xI.
    replace (S (2 * Pos.to_nat p)) with (Pos.to_nat p + Pos.to_nat p + 1)%nat
      by lia.
    rewrite !Nat.iter_add; reflexivity.
  - rewrite !IH, Pos2Nat.inj_xO.
    replace (2 * Pos.to_nat p)%nat with (Pos.to_nat p + Pos.to_nat p)%nat
      by lia.
    rewrite Nat.iter_add; reflexivity.
  - reflexivity.
Qed.

Lemma shr_1_spec (m : Z) (r s : bool) :
  0 <= m ->
  shr_1 {| shr_m := m; shr_r := r; shr_s := s |}
  = {| shr_m := m / 2; shr_r := Z.odd m; shr_s := r || s |}.
Proof.
  intros Hm; destruct m as [| p | p]; [reflexivity | | lia].
  destruct p as [p | p |]; cbn [shr_1].
  - rewrite Pos2Z.inj_xI.
    replace ((2 * Z.pos p + 1) / 2) with (Z.pos p)
      by (apply Z.div_unique with 1; lia).
    reflexivity.
  - rewrite Pos2Z.inj_xO.
    replace ((2 * Z.pos p) / 2) with (Z.pos p)
      by (apply Z.div_unique with 0; lia).
    reflexivity.
  - reflexivity.
Qed.

(** [k + 1] shifts of [m]. *)
Lemma shr_iter_spec (m : Z) (k : nat) :
  0 <= m ->
  Nat.iter (S k) shr_1 {| shr_m := m; shr_r := false; shr_s := false |}
  = {| shr_m := m / 2 ^ Z.of_nat (S k);
       shr_r := Z.odd (m / 2 ^ Z.of_nat k);
       shr_s := negb (m mod 2 ^ Z.of_nat k =? 0) |}.
Proof.
  intros Hm; induction k as [| k IH].
  - unfold Nat.iter; cbn [nat_rect]; rewrite (shr_1_spec m false false Hm).
    change (2 ^ Z.of_nat 1) with 2; change (2 ^ Z.of_nat 0) with 1.
    rewrite Z.div_1_r, Z.mod_1_r; reflexivity.
  - rewrite Nat.iter_succ, IH, shr_1_spec by (apply Z.div_pos; lia).
    f_equal.
    + rewrite (Nat2Z.inj_succ (S k)), (Z.pow_succ_r 2 (Z.of_nat (S k))) by lia.
      rewrite Z.div_div by lia.
      rewrite (Z.mul_comm 2); reflexivity.
    + rewrite (Nat2Z.inj_succ k), Z.pow_succ_r by lia.
      set (P := 2 ^ Z.of_nat k) in *.
      assert (HP : 0 < P) by (apply Z.pow_pos_nonneg; lia).
      rewrite (Z.mul_comm 2 P), Z.rem_mul_r by lia.
      assert (Hb : (m / P) mod 2 = Z.b2z (Z.odd (m / P)))
        by (rewrite <- Z.bit0_odd; symmetry; apply Z.bit0_mod).
      rewrite Hb.
      pose proof (Z.mod_pos_bound m P HP) as Hr.
      destruct (Z.odd (m / P)); cbn [Z.b2z orb].
      * destruct (Z.eqb_spec (m mod P + P * 1) 0); [lia | reflexivity].
      * rewrite Z.mul_0_r, Z.add_0_r; reflexivity.
Qed.

Lemma digits2_log2 (p : positive) :
  Z.pos (digits2_pos p) = Z.succ (Z.log2 (Z.pos p)).
Proof.
  induction p as [p IH | p IH |]; cbn [digits2_pos].
  - rewrite Pos2Z.inj_succ, IH, Pos2Z.inj_xI, Z.log2_succ_double by lia.
    reflexivity.
  - rewrite Pos2Z.inj_succ, IH, Pos2Z.inj_xO, Z.log2_double by lia.
    reflexivity.
  - reflexivity.
Qed.

Lemma digits2_bounds (p : positive) :
  2 ^ (Z.pos (digits2_pos p) - 1) <= Z.pos p < 2 ^ Z.pos (digits2_pos p).
Proof.
  rewrite digits2_log2.
  replace (Z.succ (Z.log2 (Z.pos p)) - 1) with (Z.log2 (Z.pos p)) by lia.
  apply Z.log2_spec; lia.
Qed.

Lemma Zdigits2_unique (x k : Z) :
  1 <= k -> 2 ^ (k - 1) <= x < 2 ^ k -> Zdigits2 x = k.
Proof.
  intros Hk Hx.
  assert (0 < 2 ^ (k - 1)) by (apply Z.pow_pos_nonneg; lia).
  destruct x as [| p | p]; try lia.
  cbn [Zdigits2]; rewrite digits2_log2.
  rewrite (Z.log2_unique (Z.pos p) (k - 1)); [lia | lia |].
  replace (Z.succ (k - 1)) with k by lia; exact Hx.
Qed.

Lemma fexp64 (e : Z) : -1021 <= e -> fexp 53 1024 e = e - 53.
Proof. intros H; unfold fexp, emin; lia. Qed.

Lemma shr_pos (mrs : shr_record) (e k : Z) :
  0 < k -> shr mrs e k = (Nat.iter (Z.to_nat k) shr_1 mrs, e + k).
Proof.
  intros Hk; destruct k as [| p | p]; try lia.
  cbn [shr]; rewrite iter_pos_nat; reflexivity.
Qed.

Lemma shr_nonpos (mrs : shr_record) (e k : Z) :
  k <= 0 -> shr mrs e k = (mrs, e).
Proof. intros Hk; destruct k as [| p | p]; try lia; reflexivity. Qed.

Lemma shl_align_above (m : positive) (e e' : Z) :
  e <= e' -> shl_align m e e' = (m, e).
Proof.
  intros H; unfold shl_align.
  destruct (e' - e) eqn:E; try reflexivity; lia.
Qed.

Lemma round_range (q : Z) (r s : bool) :
  round_nearest_even q (loc_of_shr_record
                          {| shr_m := q; shr_r := r; shr_s := s |})
  = if r && (s || Z.odd q) then q + 1 else q.
Proof.
  destruct r, s; cbn [loc_of_shr_record round_nearest_even andb orb];
    try reflexivity.
  rewrite <- Z.negb_odd; destruct (Z.odd q); reflexivity.
Qed.

(** The binary64 number nearest to a positive integer of at least 54
    binary digits. *)
Lemma round_wide (sx : bool) (m : positive) :
  54 <= Z.pos (digits2_pos m) ->
  let k := Z.pos (digits2_pos m) - 53 in
  let q := Z.pos m / 2 ^ k in
  let r := Z.odd (Z.pos m / 2 ^ (k - 1)) in
  let s := negb (Z.pos m mod 2 ^ (k - 1) =? 0) in
  let q' := if r && (s || Z.odd q) then q + 1 else q in
  2 ^ 52 <= q < 2 ^ 53
  /\ binary_round 53 1024 sx m 0
     = if q' <? 2 ^ 53
       then (if k <=? 971 then S754_finite sx (Z.to_pos q') k
             else S754_infinity sx)
       else (if k + 1 <=? 971 then S754_finite sx (Z.to_pos (2 ^ 52)) (k + 1)
             else S754_infinity sx).
Proof.
  intros Hd; set (d := Z.pos (digits2_pos m)) in *.
  intros k q r s q'.
  assert (Hk : 1 <= k) by (unfold k; lia).
  pose proof (digits2_bounds m) as Hm; fold d in Hm.
  assert (HP : 0 < 2 ^ k) by (apply Z.pow_pos_nonneg; lia).
  assert (Hq : 2 ^ 52 <= q < 2 ^ 53).
  { assert (H1 : 2 ^ (d - 1) = 2 ^ k * 2 ^ 52)
      by (rewrite <- Z.pow_add_r by lia; f_equal; unfold k; lia).
    assert (H2 : 2 ^ d = 2 ^ k * 2 ^ 53)
      by (rewrite <- Z.pow_add_r by lia; f_equal; unfold k; lia).
    rewrite H1, H2 in Hm.
    unfold q; split.
    - apply Z.div_le_lower_bound; [exact HP | apply Hm].
    - apply Z.div_lt_upper_bound; [exact HP | apply Hm]. }
  split; [exact Hq |].
  unfold binary_round; fold d.
  rewrite (fexp64 (d + 0)) by lia.
  rewrite shl_align_above by lia.
  unfold binary_round_aux, shr_fexp.
  cbn [shr_record_of_loc Zdigits2]; fold d.
  rewrite (fexp64 (d + 0)) by lia.
  replace (d + 0 - 53 - 0) with k by (unfold k; lia).
  rewrite shr_pos by lia.
  replace (Z.to_nat k) with (S (Z.to_nat (k - 1))) by lia.
  rewrite shr_iter_spec by lia.
  replace (Z.of_nat (S (Z.to_nat (k - 1)))) with k by lia.
  replace (Z.of_nat (Z.to_nat (k - 1))) with (k - 1) by lia.
  fold q r s; cbn [shr_m].
  rewrite round_range; fold q'.
  assert (Hq' : q' = q \/ q' = q + 1)
    by (unfold q'; destruct (r && (s || Z.odd q)); [right | left]; reflexivity).
  replace (0 + k) with k by lia.
  destruct (Z.ltb_spec q' (2 ^ 53)) as [Hlt | Hge].
  - assert (Hw : 2 ^ (53 - 1) <= q' < 2 ^ 53)
      by (change (53 - 1) with 52; lia).
    rewrite (Zdigits2_unique q' 53 ltac:(lia) Hw).
    rewrite (fexp64 (53 + k)) by lia.
    rewrite shr_nonpos by lia; cbn [shr_m].
    assert (0 < 2 ^ 52) by (apply Z.pow_pos_nonneg; lia).
    destruct q' as [| p | p]; try lia.
    reflexivity.
  - assert (Hq2 : q' = 2 ^ 53) by lia.
    rewrite Hq2.
    assert (Hw : 2 ^ (54 - 1) <= 2 ^ 53 < 2 ^ 54)
      by (change (54 - 1) with 53; split;
          [lia | apply Z.pow_lt_mono_r; lia]).
    rewrite (Zdigits2_unique (2 ^ 53) 54 ltac:(lia) Hw).
    rewrite (fexp64 (54 + k)) by lia.
    replace (54 + k - 53 - k) with 1 by lia.
    rewrite shr_pos by lia.
    change (Z.to_nat 1) with 1%nat.
    unfold Nat.iter; cbn [nat_rect].
    rewrite shr_1_spec by (apply Z.pow_nonneg; lia).
    cbn [shr_m].
    change (2 ^ 53 / 2) with (2 ^ 52).
    reflexivity.
Qed.

Lemma round_aux_exact (sx : bool) (m : positive) (e : Z) :
  2 ^ 52 <= Z.pos m < 2 ^ 53 -> -1074 <= e <= 971 ->
  binary_round_aux 53 1024 sx (Z.pos m) e loc_Exact = S754_finite sx m e.
Proof.
  intros Hm He.
  assert (Hw : 2 ^ (53 - 1) <= Z.pos m < 2 ^ 53)
    by (change (53 - 1) with 52; exact Hm).
  assert (Hd : Zdigits2 (Z.pos m) = 53)
    by (apply Zdigits2_unique; [lia | exact Hw]).
  unfold binary_round_aux, shr_fexp.
  cbn [shr_record_of_loc]; rewrite Hd.
  rewrite (fexp64 (53 + e)) by lia.
  rewrite shr_nonpos by lia.
  cbn [shr_m loc_of_shr_record round_nearest_even].
  rewrite Hd, (fexp64 (53 + e)) by lia.
  rewrite shr_nonpos by lia.
  cbn [shr_m].
  destruct (Z.leb_spec e (1024 - 53)) as [_ | H]; [reflexivity | lia].
Qed.

(** An integer of at most 53 binary digits is a binary64 number. *)
Lemma round_narrow (sx : bool) (m : positive) :
  Z.pos (digits2_pos m) <= 53 ->
  exists m' e, binary_round 53 1024 sx m 0 = S754_finite sx m' e.
Proof.
  intros Hd; set (d := Z.pos (digits2_pos m)) in *.
  assert (H0 : 1 <= d) by (unfold d; lia).
  pose proof (digits2_bounds m) as Hm; fold d in Hm.
  unfold binary_round; fold d.
  rewrite (fexp64 (d + 0)) by lia.
  unfold shl_align.
  destruct (d + 0 - 53 - 0) as [| p | p] eqn:E; try lia.
  - replace (d - 1) with 52 in Hm by lia; replace d with 53 in Hm by lia.
    exists m, 0; apply round_aux_exact; [exact Hm | lia].
  - exists (shift_pos p m), (d + 0 - 53); apply round_aux_exact; [| lia].
    rewrite shift_pos_correct, Z.pow_pos_fold.
    assert (H1 : 2 ^ 52 = 2 ^ Z.pos p * 2 ^ (d - 1))
      by (rewrite <- Z.pow_add_r by lia; f_equal; lia).
    assert (H2 : 2 ^ 53 = 2 ^ Z.pos p * 2 ^ d)
      by (rewrite <- Z.pow_add_r by lia; f_equal; lia).
    assert (HP : 0 < 2 ^ Z.pos p) by (apply Z.pow_pos_nonneg; lia).
    rewrite H1, H2; split.
    + apply Z.mul_le_mono_nonneg_l; [lia | apply Hm].
    + apply Z.mul_lt_mono_pos_l; [exact HP | apply Hm].
Qed.

Ltac numerals :=
  let a := eval vm_compute in (2 ^ 970) in
  let b := eval vm_compute in (2 ^ 52) in
  let c := eval vm_compute in (2 ^ 53) in
  let d := eval vm_compute in (2 ^ 1023) in
  let e := eval vm_compute in (2 ^ 1024) in
  change (2 ^ 970) with a in *; change (2 ^ 52) with b in *;
  change (2 ^ 53) with c in *; change (2 ^ 1023) with d in *;
  change (2 ^ 1024) with e in *.

Lemma round_class (sx : bool) (m : positive) :
  (binary_round 53 1024 sx m 0 = S754_infinity sx /\ float_limit <= Z.pos m)
  \/ ((exists m' e, binary_round 53 1024 sx m 0 = S754_finite sx m' e)
      /\ Z.pos m < float_limit).
Proof.
  set (d := Z.pos (digits2_pos m)).
  pose proof (digits2_bounds m) as Hm; fold d in Hm.
  destruct (Z.le_gt_cases d 53) as [Hd | Hd].
  - right; split; [apply round_narrow; exact Hd |].
    assert (2 ^ d <= 2 ^ 53) by (apply Z.pow_le_mono_r; lia).
    unfold float_limit; numerals; lia.
  - destruct (round_wide sx m ltac:(fold d; lia)) as [Hq Hr].
    fold d in Hq, Hr; cbv zeta in Hr.
    set (k := d - 53) in *.
    set (q := Z.pos m / 2 ^ k) in *.
    set (r := Z.odd (Z.pos m / 2 ^ (k - 1))) in *.
    set (s := negb (Z.pos m mod 2 ^ (k - 1) =? 0)) in *.
    set (q' := if r && (s || Z.odd q) then q + 1 else q) in *.
    destruct (Z.leb_spec k 970) as [Hk | Hk].
    + right; split.
      * rewrite Hr.
        destruct (q' <? 2 ^ 53).
        -- destruct (Z.leb_spec k 971); [| lia]; eexists _, _; reflexivity.
        -- destruct (Z.leb_spec (k + 1) 971); [| lia];
             eexists _, _; reflexivity.
      * assert (2 ^ d <= 2 ^ 1023) by (apply Z.pow_le_mono_r; unfold k in Hk; lia).
        unfold float_limit; numerals; lia.
    + destruct (Z.leb_spec 972 k) as [Hk2 | Hk2].
      * left; split.
        -- rewrite Hr.
           destruct (q' <? 2 ^ 53).
           ++ destruct (Z.leb_spec k 971); [lia | reflexivity].
           ++ destruct (Z.leb_spec (k + 1) 971); [lia | reflexivity].
        -- assert (2 ^ 1024 <= 2 ^ (d - 1))
             by (apply Z.pow_le_mono_r; unfold k in Hk2; lia).
           unfold float_limit; numerals; lia.
      * assert (Ek : k = 971) by lia.
        assert (Ed : d = 1024) by (unfold k in Ek; lia).
        rewrite Ek in Hr.
        change (971 <=? 971) with true in Hr.
        change (971 + 1 <=? 971) with false in Hr.
        assert (Hdiv : Z.pos m / 2 ^ 971 = Z.pos m / 2 ^ 970 / 2)
          by (rewrite Z.div_div by lia; reflexivity).
        pose proof (Z.div_mod (Z.pos m) (2 ^ 970) ltac:(lia)) as Dm.
        pose proof (Z.mod_pos_bound (Z.pos m) (2 ^ 970) ltac:(lia)) as Bm.
        pose proof (Z.div_mod (Z.pos m / 2 ^ 970) 2 ltac:(lia)) as Dt.
        rewrite Zmod_odd in Dt.
        assert (Eq' : q = Z.pos m / 2 ^ 970 / 2)
          by (unfold q; rewrite Ek; exact Hdiv).
        assert (Er : r = Z.odd (Z.pos m / 2 ^ 970))
          by (unfold r; rewrite Ek; reflexivity).
        rewrite <- Eq', <- Er in Dt.
        rewrite Ed in Hm; change (1024 - 1) with 1023 in Hm.
        set (t := Z.pos m / 2 ^ 970) in *.
        set (u := Z.pos m mod 2 ^ 970) in *.
        assert (Hodd : q = 2 ^ 53 - 1 -> Z.odd q = true)
          by (intros ->; reflexivity).
        destruct (Z.ltb_spec q' (2 ^ 53)) as [Hlt | Hge].
        -- right; split; [eexists _, _; exact Hr |].
           unfold float_limit.
           destruct (Z.eq_dec q (2 ^ 53 - 1)) as [E | E].
           ++ unfold q' in Hlt; rewrite (Hodd E), Bool.orb_true_r,
                Bool.andb_true_r in Hlt.
              destruct r; [numerals; lia |].
              numerals; lia.
           ++ destruct r; numerals; lia.
        -- left; split; [exact Hr |].
           unfold float_limit.
           unfold q' in Hge.
           destruct r; cbn [andb] in Hge; [| numerals; lia].
           destruct (s || Z.odd q); numerals; lia.
Qed.

(** [float(n)] on integers: infinite exactly from [float_limit] on. *)
Lemma py_float_int (n : Z) :
  py_float (VInt n)
  = if float_limit <=? Z.abs n then Raise OverflowError
    else Ok (binary_normalize 53 1024 n 0 false).
Proof.
  cbn [py_float]; unfold binary_normalize.
  destruct n as [| m | m]; [reflexivity | |]; cbn [Z.abs].
  - destruct (round_class false m) as [[-> H] | [(m' & e & ->) H]];
      destruct (Z.leb_spec float_limit (Z.pos m)); try lia; reflexivity.
  - destruct (round_class true m) as [[-> H] | [(m' & e & ->) H]];
      destruct (Z.leb_spec float_limit (Z.pos m)); try lia; reflexivity.
Qed.

(** X6. [to_int] raises [OverflowError], which its [except] clause does
    not name, exactly on the infinite floats, and gives an integer on every
    other value (0 when the value does not parse or has no integer form).
    [to_float] raises [OverflowError] exactly on the integers [n] with
    [2^1024 - 2^970 <= |n|], those whose nearest binary64 number is
    infinite, and gives a float on every other value (0.0 likewise). *)
Theorem conversion_failures (py_repr : value -> string)
  (py_format : string -> dict -> result string) (v : value) :
  (if int_overflows v
   then transformed py_repr py_format (VStr "to_int") v = Raise OverflowError
   else exists n,
       transformed py_repr py_format (VStr "to_int") v = Ok (VInt n))
  /\ (if float_overflows v
      then transformed py_repr py_format (VStr "to_float") v
           = Raise OverflowError
      else exists f,
          transformed py_repr py_format (VStr "to_float") v = Ok (VFloat f)).
Proof.
  split.
  - change (transformed py_repr py_format (VStr "to_int") v)
      with (match py_int v with
            | Ok n => Ok (VInt n)
            | Raise ValueError | Raise TypeError => Ok (VInt 0)
            | Raise e => Raise e
            end).
    destruct v as [ | b | n | f | s | l | d]; cbn [py_int int_overflows];
      try (eexists; reflexivity).
    + destruct f as [sg | sg | | sg m e];
        first [reflexivity | eexists; reflexivity].
    + destruct (parse_int s); eexists; reflexivity.
  - change (transformed py_repr py_format (VStr "to_float") v)
      with (match py_float v with
            | Ok f => Ok (VFloat f)
            | Raise ValueError | Raise TypeError =>
                Ok (VFloat (S754_zero false))
            | Raise e => Raise e
            end).
    destruct v as [ | b | n | f | s | l | d]; cbn [float_overflows];
      try (cbn [py_float]; eexists; reflexivity).
    + rewrite py_float_int.
      destruct (float_limit <=? Z.abs n); [reflexivity |].
      eexists; reflexivity.
    + cbn [py_float]; destruct (parse_float s); eexists; reflexivity.
Qed.

Lemma conversion_failures_witness :
  transformed plain_repr plain_format (VStr "to_int")
    (VFloat (S754_infinity true)) = Raise OverflowError
  /\ transformed plain_repr plain_format (VStr "to_float")
       (VInt (2 ^ 1024 - 2 ^ 970)) = Raise OverflowError
  /\ exists f,
      transformed plain_repr plain_format (VStr "to_float")
        (VInt (2 ^ 1024 - 2 ^ 970 - 1)) = Ok (VFloat f).
Proof.
  split; [| split].
  - exact (proj1 (conversion_failures plain_repr plain_format
                    (VFloat (S754_infinity true)))).
  - exact (proj2 (conversion_failures plain_repr plain_format
                    (VInt (2 ^ 1024 - 2 ^ 970)))).
  - exact (proj2 (conversion_failures plain_repr plain_format
                    (VInt (2 ^ 1024 - 2 ^ 970 - 1)))).
Defined.

(** *** Templates *)

(** Induction on a JSON tree, with the elements of a list and the values of
    an object as induction hypotheses. *)
Lemma value_tree_ind (P : value -> Prop) :
  P VNone ->
  (forall b, P (VBool b)) ->
  (forall n, P (VInt n)) ->
  (forall f, P (VFloat f)) ->
  (forall s, P (VStr s)) ->
  (forall l, Forall P l -> P (VList l)) ->
  (forall d, Forall (fun kv => P (snd kv)) d -> P (VDict d)) ->
  forall v, P v.
Proof.
  intros HN HB HI HF HS HL HD.
  fix IH 1; intros [ | b | n | f | s | l | d].
  - exact HN.
  - apply HB.
  - apply HI.
  - apply HF.
  - apply HS.
  - apply HL; induction l as [| x l IHl]; constructor; [apply IH | exact IHl].
  - apply HD; induction d as [| [k x] d IHd]; constructor;
      [apply IH | exact IHd].
Qed.

Lemma replace_variables_free (py_format : string -> dict -> result string)
  (data : dict) (t : value) :
  placeholder_free t = true -> replace_variables py_format t data = Ok t.
Proof.
  induction t as [ | b | n | f | s | l IHl | d IHd] using value_tree_ind;
    intros Hfree; try reflexivity.
  - cbn [replace_variables placeholder_free] in *.
    apply negb_true_iff in Hfree; rewrite Hfree; reflexivity.
  - cbn [replace_variables].
    assert (Hl : (fix each (l : list value) : result (list value) :=
                    match l with
                    | [] => Ok []
                    | v :: rest =>
                        bind (replace_variables py_format v data)
                          (fun v' => bind (each rest)
                                       (fun rest' => Ok (v' :: rest')))
                    end) l = Ok l).
    { cbn [placeholder_free] in Hfree.
      induction l as [| x l IH]; [reflexivity |].
      inversion IHl as [| ? ? Hx Hl']; subst.
      apply andb_true_iff in Hfree; destruct Hfree as [Hfx Hfl].
      rewrite (Hx Hfx); cbn [bind]; rewrite (IH Hl' Hfl); reflexivity. }
    rewrite Hl; reflexivity.
  - cbn [replace_variables].
    assert (Hd : (fix each (d : dict) : result dict :=
                    match d with
                    | [] => Ok []
                    | (k, v) :: rest =>
                        bind (replace_variables py_format v data)
                          (fun v' => bind (each rest)
                                       (fun rest' => Ok ((k, v') :: rest')))
                    end) d = Ok d).
    { cbn [placeholder_free] in Hfree.
      induction d as [| [k x] d IH]; [reflexivity |].
      inversion IHd as [| ? ? Hx Hd']; subst; cbn [snd] in Hx.
      apply andb_true_iff in Hfree; destruct Hfree as [Hfx Hfd].
      rewrite (Hx Hfx); cbn [bind]; rewrite (IH Hd' Hfd); reflexivity. }
    rewrite Hd; reflexivity.
Qed.

Lemma keys_app (d e : dict) : keys (d ++ e)%list = (keys d ++ keys e)%list.
Proof. unfold keys; apply map_app. Qed.

Lemma dict_mem_keys (k : string) (d : dict) :
  dict_mem k d = false <-> ~ In k (keys d).
Proof.
  unfold dict_mem; induction d as [| [k' v] d IH]; simpl.
  - split; [intros _ [] | reflexivity].
  - destruct (String.eqb_spec k k') as [-> | Hne].
    + split; [discriminate | intros H; exfalso; apply H; left; reflexivity].
    + rewrite IH; split.
      * intros H [Heq | Hin]; [congruence | exact (H Hin)].
      * intros H Hin; apply H; right; exact Hin.
Qed.

(** The loop [for key, value in template.items(): result[key] = ...]
    rebuilds the keys of the template in order. *)
Lemma template_loop_keys (f : value -> result value) (entries acc r : dict) :
  NoDup (keys acc ++ keys entries)%list ->
  fst (for_each
         (fun (entry : string * value) (acc : dict) =>
            bind (f (snd entry)) (fun v => Ok (dict_set (fst entry) v acc)))
         entries acc) = Ok r ->
  keys r = (keys acc ++ keys entries)%list
  /\ ((forall v, In v (map snd entries) -> f v = Ok v) ->
      r = (acc ++ entries)%list).
Proof.
  revert acc; induction entries as [| [k v] entries IH]; intros acc Hnd H.
  - cbn [for_each fst] in H; injection H as <-.
    cbn [keys map]; rewrite !app_nil_r; split; reflexivity.
  - cbn [for_each fst snd] in H.
    destruct (f v) as [v' | e] eqn:Hf; cbn [bind] in H; [| discriminate H].
    assert (Hfresh : dict_mem k acc = false).
    { apply dict_mem_keys; intros Hin.
      apply NoDup_remove_2 in Hnd; apply Hnd, in_or_app; left; exact Hin. }
    rewrite (dict_set_fresh _ _ _ Hfresh) in H.
    assert (Hkeys : (keys (acc ++ [(k, v')]) ++ keys entries
                     = keys acc ++ keys ((k, v) :: entries))%list)
      by (rewrite keys_app, <- app_assoc; reflexivity).
    assert (Hnd' : NoDup (keys (acc ++ [(k, v')]) ++ keys entries)%list)
      by (rewrite Hkeys; exact Hnd).
    destruct (IH _ Hnd' H) as [Hk Hsame].
    split.
    + rewrite Hk; exact Hkeys.
    + intros Hid; rewrite Hsame.
      * rewrite <- app_assoc.
        assert (Hv : v' = v).
        { specialize (Hid v (or_introl eq_refl)); congruence. }
        rewrite Hv; reflexivity.
      * intros x Hx; apply Hid; right; exact Hx.
Qed.

Lemma placeholder_free_values (d : dict) :
  placeholder_free (VDict d) = true ->
  forall v, In v (map snd d) -> placeholder_free v = true.
Proof.
  cbn [placeholder_free]; induction d as [| [k x] d IH]; intros H v Hin;
    [destruct Hin |].
  apply andb_true_iff in H; destruct H as [Hx Hd].
  destruct Hin as [<- | Hin]; [exact Hx | exact (IH Hd v Hin)].
Qed.

(** X7. Template application replaces the payload: when the named template
    is an object of the catalogue, the result has exactly the keys of the
    template, in the template's order, whatever the payload holds; and a
    template without any "{" comes out unchanged.  (A template named by
    the empty string is never applied.) *)
Theorem template_replaces_payload (py_format : string -> dict -> result string)
  (c templates t : dict) (name : string) (message r : value) :
  name <> EmptyString ->
  dict_get "templates" c = Some (VDict templates) ->
  dict_get name templates = Some (VDict t) ->
  NoDup (keys t) ->
  _apply_template py_format (VDict c) message (VStr name) = Ok r ->
  exists t',
    r = VDict t' /\ keys t' = keys t
    /\ (placeholder_free (VDict t) = true -> t' = t).
Proof.
  intros Hname Hts Ht Hnd H.
  unfold _apply_template in H.
  assert (Htr : truthy (VStr name) = true).
  { cbn [truthy]; destruct (String.eqb_spec name EmptyString);
      [contradiction | reflexivity]. }
  rewrite Htr in H; cbn [negb] in H.
  rewrite py_get_dict in H; unfold route_get in H; rewrite Hts in H.
  cbn [bind] in H; rewrite py_contains_dict, (dict_mem_some _ _ _ Ht) in H.
  cbn [bind negb] in H.
  rewrite (py_getitem_dict _ _ _ Hts) in H; cbn [bind] in H.
  rewrite (py_getitem_dict _ _ _ Ht) in H; cbn [bind py_items] in H.
  match type of H with
  | bind (fst (for_each ?body t [])) _ = _ =>
      destruct (fst (for_each body t [])) as [t' |] eqn:Hloop;
        cbn [bind] in H; [| discriminate H]
  end.
  injection H as <-.
  destruct (template_loop_keys
              (fun v => replace_variables py_format v
                          (_flatten_dict message [] EmptyString))
              t [] t' Hnd Hloop) as [Hk Hsame].
  exists t'; split; [reflexivity | split; [exact Hk |]].
  intros Hfree; apply Hsame; intros v Hin.
  apply replace_variables_free.
  exact (placeholder_free_values t Hfree v Hin).
Qed.

Lemma template_replaces_payload_witness :
  exists t',
    _apply_template plain_format
      (VDict [("templates",
               VDict [("static", VDict [("event_type", VStr "ping")])])])
      status_message (VStr "static")
    = Ok (VDict t')
    /\ t' = [("event_type", VStr "ping")].
Proof.
  destruct (template_replaces_payload plain_format
              [("templates",
                VDict [("static", VDict [("event_type", VStr "ping")])])]
              [("static", VDict [("event_type", VStr "ping")])]
              [("event_type", VStr "ping")] "static" status_message
              (VDict [("event_type", VStr "ping")]))
    as (t' & Hr & _ & Hfree).
  - discriminate.
  - reflexivity.
  - reflexivity.
  - repeat constructor; intros [].
  - reflexivity.
  - exists t'; split; [rewrite <- Hr; reflexivity | apply Hfree; reflexivity].
Defined.

(** *** The flattened view *)

Lemma flatten_nil (acc : dict) (prefix : string) :
  _flatten_dict (VDict []) acc prefix = acc.
Proof. reflexivity. Qed.

Lemma flatten_cons (key : string) (v : value) (d acc : dict) (prefix : string) :
  _flatten_dict (VDict ((key, v) :: d)) acc prefix
  = let new_key :=
      if String.eqb prefix EmptyString then key else prefix ++ "." ++ key in
    _flatten_dict (VDict d)
      (dict_set new_key v (_flatten_dict v acc new_key)) prefix.
Proof. destruct v; reflexivity. Qed.

Lemma dotted_key_differs (k prefix key : string) :
  PyStr.contains "." k = false -> prefix ++ "." ++ key <> k.
Proof.
  intros Hk Heq; rewrite <- Heq, contains_infix in Hk; discriminate Hk.
Qed.

Lemma dotted_key_not_empty (prefix key : string) :
  prefix ++ "." ++ key <> EmptyString.
Proof. destruct prefix; discriminate. Qed.

(** Under a prefix, flattening binds dotted names only. *)
Lemma flatten_nested_keeps (k : string) (v : value) :
  PyStr.contains "." k = false ->
  forall acc prefix,
    prefix <> EmptyString ->
    dict_get k (_flatten_dict v acc prefix) = dict_get k acc.
Proof.
  intros Hk.
  induction v as [ | b | n | f | s | l IHl | d IHd] using value_tree_ind;
    intros acc prefix Hp; try reflexivity.
  revert acc; induction d as [| [key x] d IH]; intros acc; [reflexivity |].
  inversion IHd as [| ? ? Hx Hd]; subst; cbn [snd] in Hx.
  rewrite flatten_cons; cbv zeta.
  destruct (String.eqb_spec prefix EmptyString) as [He | _]; [contradiction |].
  rewrite (IH Hd).
  rewrite dict_get_set_other by (apply not_eq_sym, dotted_key_differs, Hk).
  apply Hx, dotted_key_not_empty.
Qed.

Lemma flatten_top_level (k : string) (d : dict) :
  PyStr.contains "." k = false ->
  NoDup (keys d) ->
  ~ In EmptyString (keys d) ->
  forall acc,
    dict_get k (_flatten_dict (VDict d) acc EmptyString)
    = match dict_get k d with
      | Some v => Some v
      | None => dict_get k acc
      end.
Proof.
  intros Hk; induction d as [| [key x] d IH]; intros Hnd Hne acc;
    [reflexivity |].
  inversion Hnd as [| ? ? Hfresh Hnd']; subst.
  assert (Hkey : key <> EmptyString)
    by (intros ->; apply Hne; left; reflexivity).
  assert (Hne' : ~ In EmptyString (keys d))
    by (intros Hin; apply Hne; right; exact Hin).
  rewrite flatten_cons; cbv zeta; cbn [String.eqb].
  rewrite (IH Hnd' Hne'); cbn [dict_get].
  destruct (String.eqb_spec k key) as [-> | Hdiff].
  - apply dict_mem_keys in Hfresh; unfold dict_mem in Hfresh.
    destruct (dict_get key d); [discriminate Hfresh |].
    apply dict_get_set_same.
  - destruct (dict_get k d); [reflexivity |].
    rewrite (dict_get_set_other _ _ _ _ Hdiff).
    exact (flatten_nested_keeps k x Hk acc key Hkey).
Qed.

(** X8. In the flattened view that templates are substituted from, a name
    without a dot is bound exactly when it is a top-level field of the
    payload, and to that field's value: nested fields appear under dotted
    names only.  (The payload's keys are distinct and none is empty.) *)
Theorem flattened_top_level_fields (d : dict) (k : string) :
  NoDup (keys d) ->
  ~ In EmptyString (keys d) ->
  PyStr.contains "." k = false ->
  dict_get k (_flatten_dict (VDict d) [] EmptyString) = dict_get k d.
Proof.
  intros Hnd Hne Hk; rewrite (flatten_top_level k d Hk Hnd Hne).
  destruct (dict_get k d); reflexivity.
Qed.

Lemma flattened_top_level_fields_witness :
  dict_get "symbol"
    (_flatten_dict
       (VDict [("symbol", VStr "BTC"); ("data", VDict [("symbol", VStr "ETH")])])
       [] EmptyString)
  = Some (VStr "BTC").
Proof.
  apply (flattened_top_level_fields
           [("symbol", VStr "BTC"); ("data", VDict [("symbol", VStr "ETH")])]
           "symbol").
  - repeat constructor; simpl; intuition discriminate.
  - simpl; intuition discriminate.
  - reflexivity.
Defined.

(** *** Formatting by kind *)

Lemma description_of_dict (py_repr : value -> string) (m : dict) :
  description_of py_repr (VDict m)
  = Ok (route_get "description" (VStr (py_str py_repr (VDict m))) m).
Proof. reflexivity. Qed.

(** X9. First match wins: a target without custom format whose URL
    contains "wechat" (in any letter case) is sent the wechat schema,
    whatever [type] it declares. *)
Theorem wechat_url_takes_precedence (py_repr : value -> string)
  (py_format : string -> dict -> result string) (m t : dict) (u : string) :
  dict_mem "format" t = false ->
  url_text t = Some u ->
  PyStr.contains "wechat" (PyStr.lower u) = true ->
  _format_message py_repr py_format (VDict m) (VDict t)
  = Ok (VDict [("msgtype", VStr "text");
               ("text",
                VDict [("content",
                        route_get "description"
                          (VStr (py_str py_repr (VDict m))) m)])]).
Proof.
  intros Hfmt Hurl Hu.
  unfold _format_message; rewrite py_contains_dict, Hfmt; cbn [bind].
  unfold format_by_kind.
  rewrite (is_kind_dict t u "wechat" Hurl), Hu, orb_true_r; cbn [bind].
  rewrite description_of_dict; reflexivity.
Qed.

Lemma wechat_url_takes_precedence_witness :
  _format_message plain_repr plain_format ping_message
    (VDict [("type", VStr "feishu"); ("url", VStr "https://WeChat.example/x")])
  = Ok (VDict [("msgtype", VStr "text");
               ("text", VDict [("content", VStr "ping")])]).
Proof.
  apply (wechat_url_takes_precedence plain_repr plain_format
           [("description", VStr "ping")]
           [("type", VStr "feishu"); ("url", VStr "https://WeChat.example/x")]
           "https://WeChat.example/x"); reflexivity.
Defined.

(** X10. A [wechat_personal] target without [wxid] (absent or empty) is
    formatted as the empty object, and with a URL that empty object is
    what [forward_to_target] posts. *)
Theorem wechat_personal_without_wxid (py_repr : value -> string)
  (py_format : string -> dict -> result string)
  (message : value) (t : dict) (u : string) :
  dict_mem "format" t = false ->
  dict_get "url" t = Some (VStr u) ->
  u <> EmptyString ->
  PyStr.contains "wechat" (PyStr.lower u) = false ->
  dict_get "type" t = Some (VStr "wechat_personal") ->
  truthy (route_get "wxid" (VStr EmptyString) t) = false ->
  dict_get "headers" t = None ->
  _format_message py_repr py_format message (VDict t) = Ok (VDict [])
  /\ outbound_request py_repr py_format message (VDict t)
     = Ok (Some {| out_url := VStr u;
                   out_json := VDict [];
                   out_headers := [("Content-Type", VStr "application/json")];
                   out_timeout := route_get "timeout" (VInt 10) t |}).
Proof.
  intros Hfmt Hurl Hne Hu Hty Hwx Hh.
  assert (Hut : url_text t = Some u) by (unfold url_text; rewrite Hurl; reflexivity).
  assert (Hf : _format_message py_repr py_format message (VDict t)
               = Ok (VDict [])).
  { unfold _format_message; rewrite py_contains_dict, Hfmt; cbn [bind].
    unfold format_by_kind.
    rewrite (is_kind_dict t u "wechat" Hut), Hu.
    unfold route_get at 1; rewrite Hty; cbn [py_eq as_num String.eqb orb bind].
    rewrite !py_get_dict; cbn [bind].
    unfold route_get at 1; rewrite Hty.
    change (py_eq (VStr "wechat_personal") (VStr "wechat_personal")) with true.
    cbn iota; rewrite Hwx; reflexivity. }
  split; [exact Hf |].
  assert (Hru : route_get "url" VNone t = VStr u)
    by (unfold route_get; rewrite Hurl; reflexivity).
  assert (Hrh : route_get "headers" VNone t = VNone)
    by (unfold route_get; rewrite Hh; reflexivity).
  assert (Htu : truthy (VStr u) = true).
  { cbn [truthy]; destruct (String.eqb_spec u EmptyString);
      [contradiction | reflexivity]. }
  unfold outbound_request; rewrite !py_get_dict; cbn [bind].
  rewrite !Hru, !Hrh, Htu, Hf; reflexivity.
Qed.

Lemma wechat_personal_without_wxid_witness :
  _format_message plain_repr plain_format ping_message
    (VDict [("url", VStr "http://bot/"); ("type", VStr "wechat_personal")])
  = Ok (VDict []).
Proof.
  refine (proj1 (wechat_personal_without_wxid plain_repr plain_format
                   ping_message
                   [("url", VStr "http://bot/");
                    ("type", VStr "wechat_personal")]
                   "http://bot/" _ _ _ _ _ _ _));
    first [reflexivity | discriminate].
Defined.

(** X11. A target without custom format that matches none of the chat
    kinds (its type is none of the four and its URL, in lower case,
    contains none of "wechat", "feishu", "dingtalk") is sent the message
    as it is, also when the message is not an object.  The URL is ASCII:
    there the lower case of the model is [str.lower], which maps some
    letters outside ASCII to ASCII ones (the Kelvin sign to "k"). *)
Theorem unknown_kind_passes_message (py_repr : value -> string)
  (py_format : string -> dict -> result string)
  (message : value) (t : dict) (u : string) :
  dict_mem "format" t = false ->
  url_text t = Some u ->
  ascii_only u = true ->
  (forall kind,
     In kind ["wechat"; "wechat_personal"; "feishu"; "dingtalk"] ->
     dict_get "type" t <> Some (VStr kind)) ->
  (forall kind,
     In kind ["wechat"; "feishu"; "dingtalk"] ->
     PyStr.contains kind (PyStr.lower u) = false) ->
  _format_message py_repr py_format message (VDict t) = Ok message.
Proof.
  intros Hfmt Hurl _ Hty Hu.
  unfold _format_message; rewrite py_contains_dict, Hfmt; cbn [bind].
  unfold format_by_kind.
  rewrite !(is_kind_dict t u _ Hurl), py_get_dict.
  rewrite !type_is_not by (apply Hty; simpl; tauto).
  rewrite !Hu by (simpl; tauto).
  cbn [bind orb].
  rewrite (type_is_not t "wechat_personal") by (apply Hty; simpl; tauto).
  reflexivity.
Qed.

Lemma unknown_kind_passes_message_witness :
  _format_message plain_repr plain_format (VList [VInt 1])
    (VDict [("url", VStr "http://t/")])
  = Ok (VList [VInt 1]).
Proof.
  apply (unknown_kind_passes_message plain_repr plain_format (VList [VInt 1])
           [("url", VStr "http://t/")] "http://t/").
  - reflexivity.
  - reflexivity.
  - reflexivity.
  - intros kind _; discriminate.
  - intros kind [<- | [<- | [<- | []]]]; reflexivity.
Defined.

Lemma is_kind_same_fields (t t0 : dict) (kind : string) :
  same_kind_fields t t0 -> is_kind (VDict t) kind = is_kind (VDict t0) kind.
Proof.
  intros (Hty & Hurl & _); unfold is_kind; rewrite !py_get_dict.
  unfold route_get; rewrite Hty, Hurl; reflexivity.
Qed.

(** X12. A custom [format] counts only under [format_type] "template" or
    "text": with any other [format_type], and with none (the default is
    "default"), the target is formatted exactly like a target with the
    same [type], [url] and [wxid] and no [format] at all. *)
Theorem format_needs_format_type (py_repr : value -> string)
  (py_format : string -> dict -> result string)
  (message : value) (t t0 : dict) :
  dict_get "format_type" t <> Some (VStr "template") ->
  dict_get "format_type" t <> Some (VStr "text") ->
  dict_mem "format" t0 = false ->
  same_kind_fields t t0 ->
  _format_message py_repr py_format message (VDict t)
  = _format_message py_repr py_format message (VDict t0).
Proof.
  intros Htpl Htxt Hfmt0 Hsame.
  assert (Hk : format_by_kind py_repr message (VDict t)
               = format_by_kind py_repr message (VDict t0)).
  { unfold format_by_kind.
    rewrite !(is_kind_same_fields t t0 _ Hsame), !py_get_dict.
    destruct Hsame as (Hty & _ & Hwx).
    unfold route_get; rewrite Hty, Hwx; reflexivity. }
  unfold _format_message at 2; rewrite py_contains_dict, Hfmt0; cbn [bind].
  unfold _format_message; rewrite py_contains_dict.
  destruct (dict_mem "format" t); cbn [bind]; [| exact Hk].
  rewrite py_get_dict; cbn [bind].
  assert (Hnot : forall kind,
             dict_get "format_type" t <> Some (VStr kind) ->
             kind <> "default" ->
             py_eq (route_get "format_type" (VStr "default") t) (VStr kind)
             = false).
  { intros kind Hne Hd; destruct (py_eq _ _) eqn:E; [| reflexivity].
    apply py_eq_str in E; unfold route_get in E.
    destruct (dict_get "format_type" t); [subst; contradiction |].
    injection E as E; congruence. }
  rewrite (Hnot "template" Htpl) by discriminate.
  rewrite (Hnot "text" Htxt) by discriminate.
  exact Hk.
Qed.

Lemma format_needs_format_type_witness :
  _format_message plain_repr plain_format ping_message
    (VDict [("url", VStr "http://t/"); ("type", VStr "feishu");
            ("format", VDict [("text", VStr "$description")])])
  = _format_message plain_repr plain_format ping_message
      (VDict [("url", VStr "http://t/"); ("type", VStr "feishu")]).
Proof.
  apply (format_needs_format_type plain_repr plain_format ping_message
           [("url", VStr "http://t/"); ("type", VStr "feishu");
            ("format", VDict [("text", VStr "$description")])]
           [("url", VStr "http://t/"); ("type", VStr "feishu")]);
    first [discriminate | reflexivity | repeat split].
Defined.

Lemma add_scalars_cons (key : string) (v : value) (items acc : dict) :
  add_scalars ((key, v) :: items) acc
  = add_scalars items (if is_scalar v then dict_set key v acc else acc).
Proof. reflexivity. Qed.

Lemma add_scalars_get (k : string) (items : dict) :
  NoDup (keys items) ->
  forall acc,
    dict_get k (add_scalars items acc)
    = match scalar_at k items with
      | Some v => Some v
      | None => dict_get k acc
      end.
Proof.
  induction items as [| [key v] items IH]; intros Hnd acc; [reflexivity |].
  inversion Hnd as [| ? ? Hfresh Hnd']; subst.
  rewrite add_scalars_cons, (IH Hnd').
  unfold scalar_at; cbn [dict_get].
  destruct (String.eqb_spec k key) as [-> | Hne].
  - apply dict_mem_keys in Hfresh; unfold dict_mem in Hfresh.
    destruct (dict_get key items); [discriminate Hfresh |].
    destruct (is_scalar v); [apply dict_get_set_same | reflexivity].
  - destruct (dict_get k items) as [w |].
    + destruct (is_scalar w); [reflexivity |].
      destruct (is_scalar v); [apply dict_get_set_other; exact Hne | reflexivity].
    + destruct (is_scalar v); [apply dict_get_set_other; exact Hne | reflexivity].
Qed.

(** X13. The fields that the "template" and "text" formats substitute from
    are the scalar fields of the message and of its [data] object, and a
    scalar field of [data] shadows the top-level field of the same name;
    objects and lists are not visible.  (Keys are distinct.) *)
Theorem data_fields_shadow (m : dict) :
  NoDup (keys m) ->
  (forall data, dict_get "data" m = Some (VDict data) -> NoDup (keys data)) ->
  exists fields,
    scalar_fields (VDict m) = Ok fields
    /\ forall k,
         dict_get k fields
         = match match dict_get "data" m with
                 | Some (VDict data) => scalar_at k data
                 | _ => None
                 end with
           | Some v => Some v
           | None => scalar_at k m
           end.
Proof.
  intros Hnd Hdata; unfold scalar_fields.
  cbn [py_items bind]; rewrite py_contains_dict; cbn [bind]; unfold dict_mem.
  destruct (dict_get "data" m) as [inner |] eqn:Hd.
  - rewrite (py_getitem_dict _ _ _ Hd); cbn [bind].
    destruct inner as [ | | | | | | data];
      try (eexists; split; [reflexivity |]; intros k;
           rewrite (add_scalars_get k m Hnd); cbn [dict_get];
           destruct (scalar_at k m); reflexivity).
    eexists; split; [reflexivity |]; intros k.
    rewrite (add_scalars_get k data (Hdata data eq_refl)).
    rewrite (add_scalars_get k m Hnd); cbn [dict_get].
    destruct (scalar_at k data); [reflexivity |].
    destruct (scalar_at k m); reflexivity.
  - eexists; split; [reflexivity |]; intros k.
    rewrite (add_scalars_get k m Hnd); cbn [dict_get].
    destruct (scalar_at k m); reflexivity.
Qed.

Lemma data_fields_shadow_witness :
  exists fields,
    scalar_fields
      (VDict [("symbol", VStr "BTC"); ("data", VDict [("symbol", VStr "ETH")])])
    = Ok fields
    /\ dict_get "symbol" fields = Some (VStr "ETH").
Proof.
  destruct (data_fields_shadow
              [("symbol", VStr "BTC"); ("data", VDict [("symbol", VStr "ETH")])])
    as (fields & Hf & Hget).
  - repeat constructor; simpl; intuition discriminate.
  - intros data [= <-]; repeat constructor; simpl; intuition.
  - exists fields; split; [exact Hf | exact (Hget "symbol")].
Defined.

(** *** Outbound delivery *)

Lemma dict_mem_set (k k' : string) (v : value) (d : dict) :
  dict_mem k d = true -> dict_mem k (dict_set k' v d) = true.
Proof.
  unfold dict_mem; intros H.
  destruct (String.eqb_spec k k') as [-> | Hne].
  - rewrite dict_get_set_same; reflexivity.
  - rewrite (dict_get_set_other _ _ _ _ Hne); exact H.
Qed.

Lemma dict_mem_update (k : string) (e d : dict) :
  dict_mem k d = true -> dict_mem k (dict_update d e) = true.
Proof.
  unfold dict_update; revert d; induction e as [| [k' v] e IH]; intros d H;
    [exact H |].
  cbn [fold_left fst snd]; apply IH, dict_mem_set, H.
Qed.

(** X14. [forward_to_target] reports success only for a POST that was
    made: the target is an object with a non-empty [url], the body is the
    message as [_format_message] shaped it, the request carries a
    [Content-Type] header and the target's [timeout] (10 when it has
    none), and the HTTP client reported a 2xx answer. *)
Theorem forward_success_means_post (py_repr : value -> string)
  (py_format : string -> dict -> result string) (http_post : outbound -> bool)
  (message target : value) :
  forward_to_target py_repr py_format http_post message target = true ->
  exists t r,
    target = VDict t
    /\ outbound_request py_repr py_format message target = Ok (Some r)
    /\ http_post r = true
    /\ out_url r = route_get "url" VNone t
    /\ truthy (out_url r) = true
    /\ _format_message py_repr py_format message target = Ok (out_json r)
    /\ dict_mem "Content-Type" (out_headers r) = true
    /\ out_timeout r = route_get "timeout" (VInt 10) t.
Proof.
  unfold forward_to_target; intros H.
  destruct (outbound_request py_repr py_format message target)
    as [[r |] | e] eqn:Hr; try discriminate H.
  unfold outbound_request in Hr.
  destruct target as [ | | | | | | t]; try discriminate Hr.
  rewrite !py_get_dict in Hr; cbn [bind] in Hr.
  destruct (truthy (route_get "url" VNone t)) eqn:Hu; cbn [negb] in Hr;
    [| discriminate Hr].
  destruct (_format_message py_repr py_format message (VDict t))
    as [payload | e] eqn:Hf; cbn [bind] in Hr; [| discriminate Hr].
  destruct (py_unpack _) as [extra | e]; cbn [bind] in Hr; [| discriminate Hr].
  injection Hr as <-.
  exists t; eexists; repeat split; try reflexivity; try assumption.
  cbn [out_headers]; apply dict_mem_update; reflexivity.
Qed.

Lemma forward_success_means_post_witness :
  exists r,
    outbound_request plain_repr plain_format ping_message feishu_target
    = Ok (Some r)
    /\ out_json r = VDict [("msg_type", VStr "text");
                           ("content", VDict [("text", VStr "ping")])].
Proof.
  destruct (forward_success_means_post plain_repr plain_format post_accepted
              ping_message feishu_target eq_refl)
    as (t & r & _ & Hr & _ & _ & _ & Hf & _).
  exists r; split; [exact Hr |].
  injection Hf as <-; reflexivity.
Defined.

(** *** Dispatch *)

Lemma typed_filters (t : dict) :
  filters_typed (VDict t) = true ->
  dict_get "event_types" t = option_map VList (list_field "event_types" t)
  /\ dict_get "symbols" t = option_map VList (list_field "symbols" t).
Proof.
  unfold filters_typed, list_field; intros H.
  apply andb_true_iff in H; destruct H as [He Hs].
  split.
  - destruct (dict_get "event_types" t) as [[ | | | | | | ] |];
      try discriminate He; reflexivity.
  - destruct (dict_get "symbols" t) as [[ | | | | | | ] |];
      try discriminate Hs; reflexivity.
Qed.

(** [_should_forward] on a typed target and an object message. *)
Lemma should_forward_typed (m t : dict) :
  filters_typed (VDict t) = true ->
  data_is_object m = true ->
  _should_forward (VDict m) (VDict t)
  = Ok (truthy (route_get "enabled" (VBool true) t) &&
        eligible (route_get "event_type" VNone m) (symbol_of m)
          (list_field "event_types" t) (list_field "symbols" t)).
Proof.
  intros Hty Hdata; destruct (typed_filters t Hty) as [Het Hsy].
  unfold _should_forward.
  rewrite (py_get_dict t), (py_get_dict m); cbn [bind].
  destruct (truthy (route_get "enabled" (VBool true) t)); cbn [negb andb];
    [| reflexivity].
  rewrite (symbols_branch m t _ _ Hsy Hdata).
  rewrite py_contains_dict; cbn [bind]; unfold eligible.
  destruct (list_field "event_types" t) as [types |]; cbn [option_map] in Het.
  - rewrite (dict_mem_some _ _ _ Het), (py_getitem_dict _ _ _ Het).
    cbn [bind]; rewrite py_contains_list; cbn [bind].
    destruct (member (route_get "event_type" VNone m) types); reflexivity.
  - rewrite (dict_mem_none _ _ Het); reflexivity.
Qed.

Lemma deliver_dict (py_repr : value -> string)
  (py_format : string -> dict -> result string) (http_post : outbound -> bool)
  (message : value) (t : dict) (l : log) :
  deliver py_repr py_format http_post message (VDict t) l
  = Ok ((results_of l ++
         [result_entry
            (forward_to_target py_repr py_format http_post message (VDict t))
            (VDict t)])%list,
        (forwarded l ++ [VDict t])%list).
Proof. reflexivity. Qed.

(** A loop over the catalogue that delivers to the targets a test selects. *)
Lemma selecting_loop (py_repr : value -> string)
  (py_format : string -> dict -> result string) (http_post : outbound -> bool)
  (message : value) (body : value -> log -> result log)
  (select : value -> bool) (targets : list value) :
  (forall t l, In t targets ->
     body t l = if select t
                then deliver py_repr py_format http_post message t l
                else Ok l) ->
  (forall t, In t targets -> select t = true -> exists d, t = VDict d) ->
  forall l,
    let chosen := filter select targets in
    let l' :=
      ((results_of l ++
        map (fun t =>
               result_entry
                 (forward_to_target py_repr py_format http_post message t) t)
          chosen)%list,
       (forwarded l ++ chosen)%list) in
    for_each body targets l = (Ok l', l').
Proof.
  induction targets as [| t targets IH]; intros Hbody Hdict l; cbv zeta.
  - cbn [for_each filter map]; rewrite !app_nil_r; destruct l; reflexivity.
  - cbn [for_each filter].
    rewrite (Hbody t l (or_introl eq_refl)).
    assert (Hbody' : forall t0 l0, In t0 targets ->
               body t0 l0 = if select t0
                            then deliver py_repr py_format http_post message
                                   t0 l0
                            else Ok l0)
      by (intros t0 l0 Hin; apply Hbody; right; exact Hin).
    assert (Hdict' : forall t0, In t0 targets -> select t0 = true ->
                                exists d, t0 = VDict d)
      by (intros t0 Hin; apply Hdict; right; exact Hin).
    destruct (select t) eqn:Hsel.
    + destruct (Hdict t (or_introl eq_refl) Hsel) as [d ->].
      rewrite deliver_dict, (IH Hbody' Hdict'); cbv zeta.
      unfold results_of, forwarded; cbn [fst snd map].
      rewrite <- !app_assoc; reflexivity.
    + exact (IH Hbody' Hdict' l).
Qed.

Lemma broadcast_body_typed (py_repr : value -> string)
  (py_format : string -> dict -> result string) (http_post : outbound -> bool)
  (m : dict) (target : value) (l : log) :
  filters_typed target = true ->
  data_is_object m = true ->
  broadcast_body py_repr py_format http_post (VDict m) target l
  = if broadcast_accepts m target
    then deliver py_repr py_format http_post (VDict m) target l
    else Ok l.
Proof.
  intros Hty Hdata.
  destruct target as [ | | | | | | t]; try discriminate Hty.
  unfold broadcast_body, broadcast_accepts.
  rewrite py_get_dict, (should_forward_typed m t Hty Hdata); cbn [bind].
  destruct (truthy (route_get "enabled" (VBool true) t)); reflexivity.
Qed.

Lemma explicit_body_dict (py_repr : value -> string)
  (py_format : string -> dict -> result string) (http_post : outbound -> bool)
  (message : value) (ids : list value) (target : value) (l : log) :
  filters_typed target = true ->
  explicit_body py_repr py_format http_post message (VList ids) target l
  = if explicitly_selected ids target
    then deliver py_repr py_format http_post message target l
    else Ok l.
Proof.
  intros Hty.
  destruct target as [ | | | | | | t]; try discriminate Hty.
  unfold explicit_body, explicitly_selected.
  rewrite !py_get_dict; cbn [bind]; rewrite py_contains_list; cbn [bind].
  destruct (member (route_get "id" VNone t) ids); cbn [andb]; reflexivity.
Qed.

Lemma over_targets_list (py_repr : value -> string)
  (py_format : string -> dict -> result string) (http_post : outbound -> bool)
  (c : dict) (targets : list value) (body : value -> log -> result log)
  (l : log) :
  route_get "targets" (VList []) c = VList targets ->
  over_targets (VDict c) body l = for_each body targets l.
Proof.
  intros Ht; unfold over_targets; rewrite py_get_dict, Ht; reflexivity.
Qed.

Lemma selected_is_dict (select : value -> bool) (targets : list value) :
  (forall t, select t = true -> filters_typed t = true) \/
  forallb filters_typed targets = true ->
  forall t, In t targets -> select t = true -> exists d, t = VDict d.
Proof.
  intros H t Hin Hsel.
  assert (Hty : filters_typed t = true).
  { destruct H as [H | H]; [exact (H t Hsel) |].
    rewrite forallb_forall in H; exact (H t Hin). }
  destruct t; try discriminate Hty; eexists; reflexivity.
Qed.

(** X15. Broadcast.  With no target list (absent or empty), an object
    message is forwarded to exactly the targets of the catalogue that are
    enabled and whose filters accept it, once each and in catalogue order;
    [results] has one entry per forwarded target, in the same order, with
    the target's id, name and delivery outcome; and the message is in the
    history.  (Every target is an object with list-valued filters.) *)
Theorem broadcast_dispatch (py_repr : value -> string)
  (py_format : string -> dict -> result string) (http_post : outbound -> bool)
  (self : forwarder) (c m : dict) (targets : list value) (now : string)
  (target_ids : value) :
  config self = VDict c ->
  route_get "targets" (VList []) c = VList targets ->
  forallb filters_typed targets = true ->
  data_is_object m = true ->
  truthy target_ids = false ->
  let chosen := filter (broadcast_accepts m) targets in
  process_message py_repr py_format http_post self now (VDict m) target_ids
  = (Ok (map (fun t =>
                result_entry
                  (forward_to_target py_repr py_format http_post (VDict m) t) t)
           chosen),
     chosen,
     _add_to_history now (VDict m) self).
Proof.
  intros Hcfg Hts Hty Hdata Hids chosen.
  unfold process_message; rewrite Hids, Hcfg.
  rewrite (over_targets_list py_repr py_format http_post c targets _ _ Hts).
  rewrite (selecting_loop py_repr py_format http_post (VDict m)
             (broadcast_body py_repr py_format http_post (VDict m))
             (broadcast_accepts m) targets).
  - reflexivity.
  - intros t l Hin; apply broadcast_body_typed; [| exact Hdata].
    rewrite forallb_forall in Hty; exact (Hty t Hin).
  - apply selected_is_dict; right; exact Hty.
Qed.

Lemma broadcast_dispatch_witness :
  snd (fst (process_message plain_repr plain_format post_accepted
              (init two_targets) "2024-01-01T00:00:00" status_message VNone))
  = [target_a; target_b].
Proof.
  exact (f_equal (fun x => snd (fst x))
           (broadcast_dispatch plain_repr plain_format post_accepted
              (init two_targets)
              [("targets", VList [target_a; target_b]); ("routes", VDict []);
               ("templates", VDict [])]
              [("event_type", VStr "status"); ("description", VStr "hi")]
              [target_a; target_b] "2024-01-01T00:00:00" VNone
              eq_refl eq_refl eq_refl eq_refl eq_refl)).
Defined.

(** X16. Explicit list.  With a non-empty list of ids, an object message
    is first forwarded to the targets whose id is in the list and that are
    enabled, in catalogue order and without regard to their filters; the
    loop over all enabled targets that pass their filters runs after it,
    so a target that is both listed and eligible is forwarded to twice,
    and [results] has an entry for each of these calls. *)
Theorem explicit_dispatch (py_repr : value -> string)
  (py_format : string -> dict -> result string) (http_post : outbound -> bool)
  (self : forwarder) (c m : dict) (targets : list value) (now : string)
  (id : value) (ids : list value) :
  config self = VDict c ->
  route_get "targets" (VList []) c = VList targets ->
  forallb filters_typed targets = true ->
  data_is_object m = true ->
  let chosen :=
    (filter (explicitly_selected (id :: ids)) targets
     ++ filter (broadcast_accepts m) targets)%list in
  process_message py_repr py_format http_post self now (VDict m)
    (VList (id :: ids))
  = (Ok (map (fun t =>
                result_entry
                  (forward_to_target py_repr py_format http_post (VDict m) t) t)
           chosen),
     chosen,
     _add_to_history now (VDict m) self).
Proof.
  intros Hcfg Hts Hty Hdata chosen.
  unfold process_message; rewrite Hcfg.
  cbn [truthy py_len bind List.length].
  assert (Hlen : (0 <? Z.of_nat (S (List.length ids))) = true)
    by (apply Z.ltb_lt; lia).
  rewrite Hlen.
  rewrite (over_targets_list py_repr py_format http_post c targets _ _ Hts).
  rewrite (selecting_loop py_repr py_format http_post (VDict m)
             (explicit_body py_repr py_format http_post (VDict m)
                (VList (id :: ids)))
             (explicitly_selected (id :: ids)) targets).
  - cbv zeta; cbv iota.
    rewrite (over_targets_list py_repr py_format http_post c targets _ _ Hts).
    rewrite (selecting_loop py_repr py_format http_post (VDict m)
               (broadcast_body py_repr py_format http_post (VDict m))
               (broadcast_accepts m) targets).
    + cbv zeta; unfold results_of, forwarded, chosen; cbn [fst snd app].
      rewrite map_app; reflexivity.
    + intros t l Hin; apply broadcast_body_typed; [| exact Hdata].
      rewrite forallb_forall in Hty; exact (Hty t Hin).
    + apply selected_is_dict; right; exact Hty.
  - intros t l Hin; apply explicit_body_dict.
    rewrite forallb_forall in Hty; exact (Hty t Hin).
  - apply selected_is_dict; right; exact Hty.
Qed.

Lemma explicit_dispatch_witness :
  snd (fst (process_message plain_repr plain_format post_accepted
              (init two_targets) "2024-01-01T00:00:00" status_message
              (VList [VStr "b"])))
  = [target_b; target_a; target_b].
Proof.
  exact (f_equal (fun x => snd (fst x))
           (explicit_dispatch plain_repr plain_format post_accepted
              (init two_targets)
              [("targets", VList [target_a; target_b]); ("routes", VDict []);
               ("templates", VDict [])]
              [("event_type", VStr "status"); ("description", VStr "hi")]
              [target_a; target_b] "2024-01-01T00:00:00" (VStr "b") []
              eq_refl eq_refl eq_refl eq_refl)).
Defined.

(** *** Request admission *)

Lemma param_missing_names (name : string) :
  PyStr.contains name (param_missing name) = true.
Proof.
  unfold param_missing; rewrite <- (app_empty_r name) at 2.
  apply contains_infix.
Qed.

Lemma param_mismatch_names (name : string) :
  PyStr.contains name (param_mismatch name) = true.
Proof. unfold param_mismatch; apply contains_infix. Qed.

Lemma check_param_entry (r : request) (name s : string) :
  check_entry (fun n => query_get n (req_query r))
    param_missing param_mismatch (name, VStr s) tt
  = if param_violation r (name, VStr s)
    then Raise (HTTPException 400
                  (match query_get name (req_query r) with
                   | None => param_missing name
                   | Some _ => param_mismatch name
                   end))
    else Ok tt.
Proof.
  unfold check_entry, param_violation; cbn [fst snd].
  destruct (query_get name (req_query r)) as [got |]; [| reflexivity].
  cbn [truthy py_eq as_num]; reflexivity.
Qed.

Lemma first_param_violation (r : request) (qs : dict) :
  string_valued qs ->
  existsb (param_violation r) qs = true ->
  exists name expected detail,
    In (name, expected) qs
    /\ param_violation r (name, expected) = true
    /\ PyStr.contains name detail = true
    /\ fst (for_each
              (check_entry (fun n => query_get n (req_query r))
                 param_missing param_mismatch) qs tt)
       = Raise (HTTPException 400 detail).
Proof.
  induction qs as [| [name expected] qs IH]; intros Hty Hex;
    [discriminate Hex |].
  inversion Hty as [| ? ? [s Hs] Hty']; subst; cbn [snd] in Hs; subst expected.
  cbn [for_each]; rewrite check_param_entry.
  cbn [existsb] in Hex.
  destruct (param_violation r (name, VStr s)) eqn:Hv.
  - exists name, (VStr s); eexists; split; [left; reflexivity |].
    split; [exact Hv | split; [| reflexivity]].
    destruct (query_get name (req_query r));
      [apply param_mismatch_names | apply param_missing_names].
  - cbn [orb] in Hex; destruct (IH Hty' Hex) as (n & e & d & Hin & Hv' & Hc & Hf).
    exists n, e, d; split; [right; exact Hin |].
    split; [exact Hv' | split; [exact Hc | exact Hf]].
Qed.

(** A section of string-valued requirements passes exactly when no entry is
    violated. *)
Lemma no_violation_passes (get : string -> option string)
  (missing mismatch : string -> string) (violated : string * value -> bool)
  (entries : dict) :
  (forall name s,
     check_entry get missing mismatch (name, VStr s) tt = Ok tt
     <-> violated (name, VStr s) = false) ->
  string_valued entries ->
  existsb violated entries = false ->
  fst (for_each (check_entry get missing mismatch) entries tt) = Ok tt.
Proof.
  intros Hcheck; induction entries as [| [name expected] entries IH];
    intros Hty Hex; [reflexivity |].
  inversion Hty as [| ? ? [s Hs] Hty']; subst; cbn [snd] in Hs; subst expected.
  cbn [existsb] in Hex; apply orb_false_iff in Hex; destruct Hex as [Hv Hrest].
  cbn [for_each]; rewrite (proj2 (Hcheck name s) Hv).
  exact (IH Hty' Hrest).
Qed.

Lemma check_section_requirements (rc : dict) (key : string)
  (get : string -> option string) (missing mismatch : string -> string)
  (entries : dict) :
  requirements key rc = Some entries ->
  check_section (VDict rc) key get missing mismatch
  = fst (for_each (check_entry get missing mismatch) entries tt).
Proof.
  unfold requirements, check_section; rewrite py_contains_dict.
  unfold dict_mem; destruct (dict_get key rc) as [v |] eqn:Hg; cbn [bind].
  - rewrite (py_getitem_dict _ _ _ Hg); cbn [bind].
    destruct v as [ | | | | | | d]; cbn [truthy];
      try (match goal with
           | |- context [if ?b then _ else _] => destruct b
           end; intros H; try discriminate H; injection H as <-; reflexivity).
    + intros [= <-]; reflexivity.
    + intros [= <-]; destruct d; reflexivity.
  - intros [= <-]; reflexivity.
Qed.

(** X17. Admission is decided by the declared requirements alone: when the
    headers and query parameters that a route requires are name-to-string
    maps (or absent, or empty), [request_filter] lets a request pass
    exactly when it violates none of them, and refuses it with HTTP 400
    otherwise. *)
Theorem request_admitted_iff (rc hs qs : dict) (r : request) :
  requirements "headers" rc = Some hs ->
  requirements "query_params" rc = Some qs ->
  string_valued hs ->
  string_valued qs ->
  (existsb (header_violation r) hs || existsb (param_violation r) qs = false ->
   request_filter (VDict rc) r = Ok true)
  /\ (existsb (header_violation r) hs || existsb (param_violation r) qs = true ->
      exists detail,
        request_filter (VDict rc) r = Raise (HTTPException 400 detail)).
Proof.
  intros Hh Hq Hths Htqs; unfold request_filter.
  rewrite (check_section_requirements rc "headers" _ _ _ hs Hh).
  rewrite (check_section_requirements rc "query_params" _ _ _ qs Hq).
  assert (Hhc : forall name s,
             check_entry (fun n => header_get n (req_headers r))
               header_missing header_mismatch (name, VStr s) tt = Ok tt
             <-> header_violation r (name, VStr s) = false).
  { intros name s; rewrite check_header_entry.
    destruct (header_violation r (name, VStr s)); split;
      congruence || discriminate. }
  assert (Hqc : forall name s,
             check_entry (fun n => query_get n (req_query r))
               param_missing param_mismatch (name, VStr s) tt = Ok tt
             <-> param_violation r (name, VStr s) = false).
  { intros name s; rewrite check_param_entry.
    destruct (param_violation r (name, VStr s)); split;
      congruence || discriminate. }
  split; intros H.
  - apply orb_false_iff in H; destruct H as [H1 H2].
    rewrite (no_violation_passes _ _ _ _ hs Hhc Hths H1); cbn [bind].
    rewrite (no_violation_passes _ _ _ _ qs Hqc Htqs H2); reflexivity.
  - destruct (existsb (header_violation r) hs) eqn:H1.
    + destruct (first_header_violation r hs Hths H1)
        as (n & e & d & _ & _ & _ & Hf).
      exists d; rewrite Hf; reflexivity.
    + cbn [orb] in H.
      rewrite (no_violation_passes _ _ _ _ hs Hhc Hths H1); cbn [bind].
      destruct (first_param_violation r qs Htqs H)
        as (n & e & d & _ & _ & _ & Hf).
      exists d; rewrite Hf; reflexivity.
Qed.

Lemma request_admitted_iff_witness :
  request_filter (VDict gated_route) (keyed_request [("X-KEY", "secret")])
  = Ok true.
Proof.
  refine (proj1 (request_admitted_iff gated_route [("X-Key", VStr "secret")] []
                   (keyed_request [("X-KEY", "secret")]) eq_refl eq_refl _ _) _).
  - constructor; [exists "secret"; reflexivity | constructor].
  - constructor.
  - reflexivity.
Defined.

(** X18. A required query parameter is checked like a required header,
    after the headers: when no header requirement is violated and a query
    parameter is missing, or differs from its non-empty configured value,
    the request is refused with HTTP 400 and a detail that contains the
    name of a violated parameter. *)
Theorem query_gate (rc hs qs : dict) (r : request) :
  requirements "headers" rc = Some hs ->
  requirements "query_params" rc = Some qs ->
  string_valued hs ->
  string_valued qs ->
  existsb (header_violation r) hs = false ->
  existsb (param_violation r) qs = true ->
  exists name expected detail,
    In (name, expected) qs
    /\ param_violation r (name, expected) = true
    /\ PyStr.contains name detail = true
    /\ request_filter (VDict rc) r = Raise (HTTPException 400 detail).
Proof.
  intros Hh Hq Hths Htqs H1 H2; unfold request_filter.
  rewrite (check_section_requirements rc "headers" _ _ _ hs Hh).
  rewrite (check_section_requirements rc "query_params" _ _ _ qs Hq).
  assert (Hhc : forall name s,
             check_entry (fun n => header_get n (req_headers r))
               header_missing header_mismatch (name, VStr s) tt = Ok tt
             <-> header_violation r (name, VStr s) = false).
  { intros name s; rewrite check_header_entry.
    destruct (header_violation r (name, VStr s)); split;
      congruence || discriminate. }
  rewrite (no_violation_passes _ _ _ _ hs Hhc Hths H1); cbn [bind].
  destruct (first_param_violation r qs Htqs H2)
    as (n & e & d & Hin & Hv & Hc & Hf).
  exists n, e, d; repeat split; try assumption.
  rewrite Hf; reflexivity.
Qed.

Lemma query_gate_witness :
  exists detail,
    request_filter
      (VDict [("query_params", VDict [("token", VStr "abc")])])
      (keyed_request [])
    = Raise (HTTPException 400 detail)
    /\ PyStr.contains "token" detail = true.
Proof.
  destruct (query_gate [("query_params", VDict [("token", VStr "abc")])]
              [] [("token", VStr "abc")] (keyed_request []) eq_refl eq_refl)
    as (name & expected & detail & Hin & _ & Hc & Hrf).
  - constructor.
  - constructor; [exists "abc"; reflexivity | constructor].
  - reflexivity.
  - reflexivity.
  - exists detail; split; [exact Hrf |].
    destruct Hin as [Heq | []]; injection Heq as <- _; exact Hc.
Defined.

(** *** Route operations, further *)

Lemma dict_get_del_other (k k' : string) (d : dict) :
  k' <> k -> dict_get k' (dict_del k d) = dict_get k' d.
Proof.
  intros Hne; induction d as [| [k0 v0] d IH]; [reflexivity |].
  cbn [dict_del dict_get].
  destruct (String.eqb_spec k k0) as [-> | Hk].
  - destruct (String.eqb_spec k' k0); [contradiction | reflexivity].
  - cbn [dict_get]; destruct (String.eqb k' k0); [reflexivity | exact IH].
Qed.

Lemma dict_get_del_same (k : string) (d : dict) :
  NoDup (keys d) -> dict_get k (dict_del k d) = None.
Proof.
  induction d as [| [k0 v0] d IH]; intros Hnd; [reflexivity |].
  inversion Hnd as [| ? ? Hfresh Hnd']; subst.
  cbn [dict_del].
  destruct (String.eqb_spec k k0) as [-> | Hk].
  - apply dict_mem_keys in Hfresh; unfold dict_mem in Hfresh.
    destruct (dict_get k0 d); [discriminate Hfresh | reflexivity].
  - cbn [dict_get]; destruct (String.eqb_spec k k0); [contradiction |].
    exact (IH Hnd').
Qed.

Lemma dict_update_get (x : string) (u : dict) :
  NoDup (keys u) ->
  forall d,
    dict_get x (dict_update d u)
    = match dict_get x u with
      | Some v => Some v
      | None => dict_get x d
      end.
Proof.
  unfold dict_update; induction u as [| [k v] u IH]; intros Hnd d;
    [reflexivity |].
  inversion Hnd as [| ? ? Hfresh Hnd']; subst.
  cbn [fold_left fst snd]; rewrite (IH Hnd'); cbn [dict_get].
  destruct (String.eqb_spec x k) as [-> | Hne].
  - apply dict_mem_keys in Hfresh; unfold dict_mem in Hfresh.
    destruct (dict_get k u); [discriminate Hfresh |].
    apply dict_get_set_same.
  - destruct (dict_get x u); [reflexivity |].
    apply dict_get_set_other; exact Hne.
Qed.

Lemma route_at_config (self : forwarder) (c routes : dict) (k : string) :
  config self = VDict c ->
  dict_get "routes" c = Some (VDict routes) ->
  route_at self k = dict_get k routes.
Proof. intros Hc Hr; unfold route_at; rewrite Hc, Hr; reflexivity. Qed.

Lemma route_at_replaced (self : forwarder) (c routes' : dict) (k : string) :
  config self = VDict (dict_set "routes" (VDict routes') c) ->
  route_at self k = dict_get k routes'.
Proof.
  unfold route_at; intros ->.
  rewrite dict_get_set_same; reflexivity.
Qed.

(** The registration loop fails on a method that is not a string, or with
    the exception of the framework for the path. *)
Lemma register_loop_error (path_error : string -> option exn)
  (route_path : string) (held_as : route_ref) (ms : list value)
  (hs hs' : list handler) (e : exn) :
  for_each (bind_method path_error route_path held_as) ms hs
  = (Raise e, hs') ->
  e = AttributeError \/ path_error route_path = Some e.
Proof.
  revert hs; induction ms as [| m ms IH]; intros hs H; [discriminate H |].
  cbn [for_each] in H.
  destruct m as [ | | | | s | | ];
    try (cbn [bind_method] in H; injection H as <- _; left; reflexivity).
  cbn [bind_method] in H; cbv zeta in H.
  destruct (existsb _ _); [| exact (IH _ H)].
  destruct (path_error route_path) as [e' |] eqn:He; [| exact (IH _ H)].
  injection H as <- _; right; reflexivity.
Qed.

Lemma register_route_error (path_error : string -> option exn)
  (self : forwarder) (path : string) (rc : dict) (held_as : route_ref)
  (e : exn) (self' : forwarder) :
  _register_route path_error self path (VDict rc) held_as = (Raise e, self') ->
  e = AttributeError \/ path_error (normalize_path path) = Some e.
Proof.
  unfold _register_route; rewrite py_get_dict; intros H.
  destruct (for_each _ _ _) as [[u | e'] hs] eqn:Hloop; [discriminate H |].
  injection H as <- _; exact (register_loop_error _ _ _ _ _ _ _ Hloop).
Qed.

Ltac unchanged_with Hd :=
  left; split; [reflexivity |]; eexists; split; [reflexivity |];
  intros ?status ?detail Hd.

(** The configuration that [POST /routes] leaves, whatever it answers. *)
Lemma add_route_state (path_error : string -> option exn) (self : forwarder)
  (route : value) (out : result value) (self' : forwarder) :
  add_route path_error self route = (out, self') ->
  (self' = self
   /\ exists e,
        out = Raise e
        /\ forall status detail,
             e = HTTPException status detail -> status = 400)
  \/ exists body p c routes rc,
       route = VDict body
       /\ dict_get "path" body = Some (VStr p)
       /\ config self = VDict c
       /\ dict_get "routes" c = Some (VDict routes)
       /\ config self'
          = VDict (dict_set "routes"
                     (VDict (dict_set (normalize_path p) rc routes)) c)
       /\ ((exists v, out = Ok v)
           \/ exists e,
                out = Raise e
                /\ (e = AttributeError
                    \/ path_error (normalize_path (normalize_path p))
                       = Some e)).
Proof.
  unfold add_route; intros H.
  destruct (py_contains (VStr "path") route) as [[|] | e] eqn:Hc;
    cbn [bind negb] in H.
  2: { injection H as <- <-; unchanged_with Hd.
       injection Hd as <- _; reflexivity. }
  2: { injection H as <- <-; unchanged_with Hd; subst e.
       destruct route; cbn [py_contains] in Hc; try discriminate Hc;
         repeat match type of Hc with
                | context [match ?x with _ => _ end] => destruct x
                end; discriminate Hc. }
  destruct (py_getitem route (VStr "path")) as [path | e] eqn:Hg;
    cbn [bind] in H.
  2: { injection H as <- <-; unchanged_with Hd; subst e.
       destruct route; cbn [py_getitem as_num] in Hg; try discriminate Hg.
       destruct (dict_get "path" d); discriminate Hg. }
  destruct path as [ | | | | p | | ];
    try (injection H as <- <-; unchanged_with Hd; discriminate Hd).
  destruct route as [ | | | | | l | body]; try discriminate Hg.
  cbn [py_getitem] in Hg.
  destruct (dict_get "path" body) as [v |] eqn:Hp; [| discriminate Hg].
  injection Hg as ->.
  rewrite !py_get_dict in H; cbn [bind] in H.
  match type of H with
  | context [store_route ?cfg ?path ?rc] =>
      destruct (store_route cfg path rc) as [cfg' | e] eqn:Hs
  end; cbn [bind] in H.
  - destruct (store_route_inv _ _ _ _ Hs) as (c & routes & Hcfg & Hr & ->).
    right; exists body, p, c, routes; eexists.
    split; [reflexivity |]; split; [exact Hp |]; split; [exact Hcfg |].
    split; [exact Hr |].
    destruct (_register_route _ _ _ _ _) as [[u | e] self''] eqn:Hreg;
      injection H as <- <-;
      (split;
       [rewrite (register_route_config _ _ _ _ _ _ _ Hreg); reflexivity |]).
    + left; eexists; reflexivity.
    + right; eexists; split; [reflexivity |].
      exact (register_route_error _ _ _ _ _ _ _ Hreg).
  - injection H as <- <-; unchanged_with Hd; subst e.
    unfold store_route in Hs.
    destruct (config self) as [ | | | | | | c]; try discriminate Hs.
    cbn [py_getitem] in Hs.
    destruct (dict_get "routes" c) as [[ | | | | | | routes] |];
      discriminate Hs.
Qed.

(** The configuration that [PUT /routes/{path}] leaves, whatever it
    answers. *)
Lemma update_route_state (path_error : string -> option exn)
  (self : forwarder) (path : string) (route_update : value)
  (out : result value) (self' : forwarder) :
  update_route path_error self path route_update = (out, self') ->
  (self' = self
   /\ exists e,
        out = Raise e
        /\ forall status detail,
             e = HTTPException status detail -> status = 404)
  \/ exists c routes d u,
       config self = VDict c
       /\ dict_get "routes" c = Some (VDict routes)
       /\ dict_get (normalize_path path) routes = Some (VDict d)
       /\ route_update = VDict u
       /\ config self'
          = VDict (dict_set "routes"
                     (VDict (dict_set (normalize_path path)
                               (VDict (dict_update d u)) routes))
                     c)
       /\ ((exists v, out = Ok v)
           \/ exists e,
                out = Raise e
                /\ (e = AttributeError
                    \/ path_error (normalize_path (normalize_path path))
                       = Some e)).
Proof.
  unfold update_route; intros H.
  destruct (config self) as [ | | | | | | c] eqn:Hcfg;
    try (injection H as <- <-; unchanged_with Hd; discriminate Hd).
  rewrite py_get_dict in H; cbn [bind] in H.
  destruct (py_contains (VStr (normalize_path path))
              (route_get "routes" (VDict []) c)) as [[|] | e] eqn:Hk;
    cbn [bind] in H.
  2: { injection H as <- <-; unchanged_with Hd.
       injection Hd as <- _; reflexivity. }
  2: { injection H as <- <-; unchanged_with Hd; subst e.
       destruct (route_get "routes" (VDict []) c); cbn [py_contains] in Hk;
         discriminate Hk. }
  cbn [py_getitem] in H.
  destruct (dict_get "routes" c) as [r1 |] eqn:Hr; cbn [bind] in H.
  2: { injection H as <- <-; unchanged_with Hd; discriminate Hd. }
  destruct (py_getitem r1 (VStr (normalize_path path))) as [route | e] eqn:Hg;
    cbn [bind] in H.
  2: { injection H as <- <-; unchanged_with Hd; subst e.
       destruct r1; cbn [py_getitem as_num] in Hg; try discriminate Hg.
       destruct (dict_get (normalize_path path) d); discriminate Hg. }
  destruct r1 as [ | | | | | | routes]; try discriminate Hg.
  cbn [py_getitem] in Hg.
  destruct (dict_get (normalize_path path) routes) as [v |] eqn:Hrt;
    [| discriminate Hg].
  injection Hg as ->.
  destruct route as [ | | | | | | d];
    try (cbn [bind] in H; injection H as <- <-; unchanged_with Hd;
         discriminate Hd).
  destruct route_update as [ | | | | | | u];
    try (cbn [py_unpack bind] in H; injection H as <- <-; unchanged_with Hd;
         discriminate Hd).
  cbn [py_unpack bind] in H.
  unfold store_route in H; cbn [py_getitem] in H; rewrite Hr in H.
  cbn [bind py_setitem] in H.
  right; exists c, routes, d, u.
  split; [reflexivity |]; split; [exact Hr |]; split; [exact Hrt |].
  split; [reflexivity |].
  destruct (_register_route _ _ _ _ _) as [[u0 | e] self''] eqn:Hreg;
    injection H as <- <-;
    (split;
     [rewrite (register_route_config _ _ _ _ _ _ _ Hreg); reflexivity |]).
  - left; eexists; reflexivity.
  - right; eexists; split; [reflexivity |].
    exact (register_route_error _ _ _ _ _ _ _ Hreg).
Qed.

(** The configuration that [DELETE /routes/{path}] leaves, whatever it
    answers. *)
Lemma delete_route_state (self : forwarder) (path : string)
  (out : result value) (self' : forwarder) :
  delete_route self path = (out, self') ->
  (self' = self
   /\ exists e,
        out = Raise e
        /\ forall status detail,
             e = HTTPException status detail -> status = 404)
  \/ exists c routes v,
       config self = VDict c
       /\ dict_get "routes" c = Some (VDict routes)
       /\ dict_get (normalize_path path) routes = Some v
       /\ config self'
          = VDict (dict_set "routes"
                     (VDict (dict_del (normalize_path path) routes)) c)
       /\ exists w, out = Ok w.
Proof.
  unfold delete_route; intros H.
  destruct (config self) as [ | | | | | | c] eqn:Hcfg;
    try (injection H as <- <-; unchanged_with Hd; discriminate Hd).
  rewrite py_get_dict in H; cbn [bind] in H.
  destruct (py_contains (VStr (normalize_path path))
              (route_get "routes" (VDict []) c)) as [[|] | e] eqn:Hk;
    cbn [bind] in H.
  2: { injection H as <- <-; unchanged_with Hd.
       injection Hd as <- _; reflexivity. }
  2: { injection H as <- <-; unchanged_with Hd; subst e.
       destruct (route_get "routes" (VDict []) c); cbn [py_contains] in Hk;
         discriminate Hk. }
  cbn [py_getitem] in H.
  destruct (dict_get "routes" c) as [r1 |] eqn:Hr; cbn [bind] in H.
  2: { injection H as <- <-; unchanged_with Hd; discriminate Hd. }
  destruct r1 as [ | | | | | | routes];
    try (cbn [py_delitem bind] in H; injection H as <- <-; unchanged_with Hd;
         discriminate Hd).
  cbn [py_delitem] in H; unfold dict_mem in H.
  destruct (dict_get (normalize_path path) routes) as [v |] eqn:Hrt;
    cbn [bind py_setitem] in H.
  - injection H as <- <-; right; exists c, routes, v.
    split; [reflexivity |]; split; [exact Hr |]; split; [exact Hrt |].
    split; [reflexivity | eexists; reflexivity].
  - injection H as <- <-; unchanged_with Hd; discriminate Hd.
Qed.

(** X19. A route operation touches one path only: whatever it answers,
    [POST /routes], [PUT /routes/{path}] and [DELETE /routes/{path}] leave
    the route stored under every other path as it was. *)
Theorem other_routes_untouched (path_error : string -> option exn)
  (self : forwarder) (rq : route_request) (out : result value)
  (self' : forwarder) (k : string) :
  control path_error self rq = (out, self') ->
  (forall p, supplied_path rq = Some p -> k <> normalize_path p) ->
  route_at self' k = route_at self k.
Proof.
  intros Hrun Hk.
  destruct rq as [route | path route_update | path]; cbn [control] in Hrun.
  - destruct (add_route_state _ _ _ _ _ Hrun)
      as [[-> _] | (body & p & c & routes & rc & -> & Hp & Hc & Hr & Hs & _)];
      [reflexivity |].
    assert (Hne : k <> normalize_path p)
      by (apply Hk; cbn [supplied_path]; rewrite Hp; reflexivity).
    rewrite (route_at_replaced _ _ _ _ Hs),
      (route_at_config self c routes k Hc Hr).
    apply dict_get_set_other; exact Hne.
  - destruct (update_route_state _ _ _ _ _ _ Hrun)
      as [[-> _] | (c & routes & d & u & Hc & Hr & _ & _ & Hs & _)];
      [reflexivity |].
    rewrite (route_at_replaced _ _ _ _ Hs),
      (route_at_config self c routes k Hc Hr).
    apply dict_get_set_other, Hk; reflexivity.
  - destruct (delete_route_state _ _ _ _ Hrun)
      as [[-> _] | (c & routes & v & Hc & Hr & _ & Hs & _)];
      [reflexivity |].
    rewrite (route_at_replaced _ _ _ _ Hs),
      (route_at_config self c routes k Hc Hr).
    apply dict_get_del_other, Hk; reflexivity.
Qed.

Lemma other_routes_untouched_witness :
  route_at (snd (add_route every_path (init empty_config) full_route_body))
    "/webhook"
  = Some default_route.
Proof.
  rewrite (other_routes_untouched every_path (init empty_config)
             (POST_routes full_route_body)
             (fst (add_route every_path (init empty_config) full_route_body))
             (snd (add_route every_path (init empty_config) full_route_body))
             "/webhook" eq_refl).
  - reflexivity.
  - intros p [= <-]; discriminate.
Defined.

(** X20. When a route operation raises an [HTTPException] itself, nothing
    has changed: it does so with status 400 only ([POST /routes], body
    without [path]) and with status 404 only ([PUT] and [DELETE], path not
    in the catalogue), and the forwarder is as it was.  Every other
    exception of these operations, which the framework answers with
    status 500, is outside this statement: it can come after the route
    was stored.  (The framework's own exceptions for a path are not
    [HTTPException]s.) *)
Theorem route_http_error_changes_nothing (path_error : string -> option exn)
  (self : forwarder) (rq : route_request) (status : Z) (detail : string)
  (self' : forwarder) :
  (forall p st d, path_error p <> Some (HTTPException st d)) ->
  control path_error self rq = (Raise (HTTPException status detail), self') ->
  self' = self
  /\ match rq with
     | POST_routes _ => status = 400
     | _ => status = 404
     end.
Proof.
  intros Hfw Hrun.
  destruct rq as [route | path route_update | path]; cbn [control] in Hrun.
  - destruct (add_route_state _ _ _ _ _ Hrun)
      as [[-> (e & He & Hs)]
         | (body & p & c & routes & rc & _ & _ & _ & _ & _ & Ho)].
    + injection He as <-; split; [reflexivity | exact (Hs _ _ eq_refl)].
    + destruct Ho as [[v Ho] | (e & He & [-> | Hpe])]; try discriminate.
      injection He as <-; destruct (Hfw _ _ _ Hpe).
  - destruct (update_route_state _ _ _ _ _ _ Hrun)
      as [[-> (e & He & Hs)] | (c & routes & d & u & _ & _ & _ & _ & _ & Ho)].
    + injection He as <-; split; [reflexivity | exact (Hs _ _ eq_refl)].
    + destruct Ho as [[v Ho] | (e & He & [-> | Hpe])]; try discriminate.
      injection He as <-; destruct (Hfw _ _ _ Hpe).
  - destruct (delete_route_state _ _ _ _ Hrun)
      as [[-> (e & He & Hs)] | (c & routes & v & _ & _ & _ & _ & [w Ho])].
    + injection He as <-; split; [reflexivity | exact (Hs _ _ eq_refl)].
    + discriminate Ho.
Qed.

Lemma route_http_error_changes_nothing_witness :
  snd (delete_route (init empty_config) "nowhere") = init empty_config.
Proof.
  refine (proj1 (route_http_error_changes_nothing every_path
                   (init empty_config) (DELETE_routes "nowhere") 404
                   "未找到路由: /nowhere"
                   (snd (delete_route (init empty_config) "nowhere"))
                   _ eq_refl)).
  intros p st d; discriminate.
Defined.

(** A route that is in the catalogue can be deleted. *)
Lemma route_at_inv (self : forwarder) (k : string) (v : value) :
  route_at self k = Some v ->
  exists c routes,
    config self = VDict c
    /\ dict_get "routes" c = Some (VDict routes)
    /\ dict_get k routes = Some v.
Proof.
  unfold route_at; intros H.
  destruct (config self) as [ | | | | | | c]; try discriminate H.
  destruct (dict_get "routes" c) as [[ | | | | | | routes] |] eqn:Hr;
    try discriminate H.
  exists c, routes; repeat split; [exact Hr | exact H].
Qed.

(** X21. [DELETE /routes/{path}] on a route of the catalogue succeeds and
    removes it: the path is no longer in the catalogue afterwards, and a
    second DELETE of the same path answers 404. *)
Theorem delete_route_removes (self : forwarder) (path : string) (v : value) :
  route_at self (normalize_path path) = Some v ->
  NoDup (route_paths self) ->
  exists w self',
    delete_route self path = (Ok w, self')
    /\ route_at self' (normalize_path path) = None
    /\ delete_route self' path
       = (Raise (not_found (normalize_path path)), self').
Proof.
  intros Hv Hnd.
  destruct (route_at_inv _ _ _ Hv) as (c & routes & Hc & Hr & Hk).
  assert (Hgone : dict_get (normalize_path path)
                    (dict_del (normalize_path path) routes) = None).
  { apply dict_get_del_same.
    unfold route_paths in Hnd; rewrite Hc, Hr in Hnd; exact Hnd. }
  unfold delete_route at 1; rewrite Hc, py_get_dict; cbn [bind].
  unfold route_get; rewrite Hr, py_contains_dict, (dict_mem_some _ _ _ Hk).
  cbn [bind]; rewrite (py_getitem_dict _ _ _ Hr); cbn [bind py_delitem].
  rewrite (dict_mem_some _ _ _ Hk); cbn [bind py_setitem].
  eexists; eexists; split; [reflexivity |]; split.
  - rewrite (route_at_replaced _ c (dict_del (normalize_path path) routes))
      by reflexivity.
    exact Hgone.
  - unfold delete_route; cbn [set_config config]; rewrite py_get_dict.
    cbn [bind]; unfold route_get; rewrite dict_get_set_same.
    rewrite py_contains_dict, (dict_mem_none _ _ Hgone); reflexivity.
Qed.

Lemma delete_route_removes_witness :
  exists w self',
    delete_route (init empty_config) "webhook" = (Ok w, self')
    /\ route_at self' "/webhook" = None
    /\ delete_route self' "webhook" = (Raise (not_found "/webhook"), self').
Proof.
  refine (delete_route_removes (init empty_config) "webhook" default_route
            eq_refl _).
  repeat constructor; intros [].
Defined.

(** X22. [PUT /routes/{path}] merges the body into the stored route: after
    the call the route has, for every field of the body, the body's value,
    and for every other field the value it had.  This holds whether or not
    the registration that follows succeeds. *)
Theorem update_route_merges (path_error : string -> option exn)
  (self : forwarder) (path : string) (d u : dict) :
  route_at self (normalize_path path) = Some (VDict d) ->
  NoDup (keys u) ->
  exists d',
    route_at (snd (update_route path_error self path (VDict u)))
      (normalize_path path)
    = Some (VDict d')
    /\ forall k,
         dict_get k d'
         = match dict_get k u with
           | Some v => Some v
           | None => dict_get k d
           end.
Proof.
  intros Hv Hnd.
  destruct (route_at_inv _ _ _ Hv) as (c & routes & Hc & Hr & Hk).
  exists (dict_update d u); split.
  - unfold update_route; rewrite Hc, py_get_dict; cbn [bind].
    unfold route_get at 1; rewrite Hr, py_contains_dict.
    rewrite (dict_mem_some _ _ _ Hk); cbn [bind].
    rewrite (py_getitem_dict _ _ _ Hr); cbn [bind].
    rewrite (py_getitem_dict _ _ _ Hk); cbn [bind py_unpack].
    unfold store_route; rewrite (py_getitem_dict _ _ _ Hr).
    cbn [bind py_setitem].
    destruct (_register_route _ _ _ _ _) as [[u0 | e] self''] eqn:Hreg;
      cbn [snd];
      (rewrite (route_at_replaced self'' c
                  (dict_set (normalize_path path) (VDict (dict_update d u))
                     routes));
       [apply dict_get_set_same |
        exact (register_route_config _ _ _ _ _ _ _ Hreg)]).
  - intros k; apply dict_update_get, Hnd.
Qed.

Lemma update_route_merges_witness :
  exists d',
    route_at (snd (update_route every_path (init empty_config) "webhook"
                     (VDict [("template", VStr "trade")]))) "/webhook"
    = Some (VDict d')
    /\ forall k,
         dict_get k d'
         = match dict_get k [("template", VStr "trade")] with
           | Some v => Some v
           | None =>
               dict_get k
                 [("target_ids", VList []);
                  ("description", VStr "默认webhook路由");
                  ("methods", VList [VStr "POST"]);
                  ("headers", VDict []);
                  ("query_params", VDict []);
                  ("template", VNone);
                  ("preprocess", VNone)]
           end.
Proof.
  refine (update_route_merges every_path (init empty_config) "webhook" _ _
            eq_refl _).
  repeat constructor; intros [].
Defined.

Lemma normalize_path_idem (p : string) :
  normalize_path (normalize_path p) = normalize_path p.
Proof.
  unfold normalize_path at 1; rewrite normalize_path_slash; reflexivity.
Qed.

(** The registration loop on a list of strings, for a path that the
    framework takes: one handler per handled method, appended in order. *)
Lemma register_loop_spec (path_error : string -> option exn)
  (route_path : string) (held_as : route_ref) (ms : list value)
  (names : list string) (hs : list handler) :
  path_error route_path = None ->
  texts ms = Some names ->
  for_each (bind_method path_error route_path held_as) ms hs
  = (Ok (hs ++ map (bound route_path held_as) (filter handled names))%list,
     (hs ++ map (bound route_path held_as) (filter handled names))%list).
Proof.
  intros Hpe; revert names hs; induction ms as [| m ms IH]; intros names hs Ht.
  - injection Ht as <-; cbn [for_each filter map]; rewrite app_nil_r.
    reflexivity.
  - cbn [texts] in Ht.
    destruct m as [ | | | | s | | ]; try discriminate Ht.
    destruct (texts ms) as [names' |]; [| discriminate Ht].
    injection Ht as <-.
    cbn [for_each bind_method filter]; cbv zeta.
    fold http_methods; fold (handled s).
    destruct (handled s).
    + rewrite Hpe, (IH names' _ eq_refl); cbn [map].
      rewrite <- !app_assoc; reflexivity.
    + exact (IH names' hs eq_refl).
Qed.

(** The registration loop on a list that holds an item that is not a
    string: it raises, at that item or before on the framework's word. *)
Lemma register_loop_raises (path_error : string -> option exn)
  (route_path : string) (held_as : route_ref) (ms : list value)
  (hs : list handler) :
  texts ms = None ->
  exists e hs',
    for_each (bind_method path_error route_path held_as) ms hs
    = (Raise e, hs')
    /\ (e = AttributeError \/ path_error route_path = Some e).
Proof.
  revert hs; induction ms as [| m ms IH]; intros hs Ht; [discriminate Ht |].
  cbn [texts] in Ht.
  destruct m as [ | | | | s | | ];
    try (exists AttributeError, hs; split; [reflexivity | left; reflexivity]).
  destruct (texts ms) as [names' |]; [discriminate Ht |].
  cbn [for_each bind_method]; cbv zeta.
  destruct (existsb _ _); [| exact (IH hs eq_refl)].
  destruct (path_error route_path) as [e |] eqn:He.
  - exists e, hs; split; [reflexivity | right; reflexivity].
  - exact (IH _ eq_refl).
Qed.

(** X23. The handlers that [_register_route] binds, for a path that the
    framework takes.  When the route's [methods] declare the names
    [names] (POST when the field is absent, empty or not a list),
    registration succeeds and appends, after the handlers the application
    already has, one handler per declared name whose upper case is one of
    GET, POST, PUT, DELETE, PATCH, in the order of the list, each for the
    normalised path and the route object given; other names are skipped
    without an error.  No handler is removed or replaced.  (The names are
    ASCII, where [str.upper] is the upper case of the model.) *)
Theorem registered_handlers (path_error : string -> option exn)
  (self : forwarder) (path : string) (rc : dict) (held_as : route_ref)
  (names : list string) :
  declared_methods rc = Some names ->
  forallb ascii_only names = true ->
  path_error (normalize_path path) = None ->
  _register_route path_error self path (VDict rc) held_as
  = (Ok tt,
     set_handlers self
       (handlers self
        ++ map (bound (normalize_path path) held_as)
             (filter handled names))%list).
Proof.
  intros Hd _ Hpe; unfold _register_route; rewrite py_get_dict.
  unfold declared_methods in Hd; unfold route_get.
  assert (Hloop : forall ms,
             texts ms = Some names ->
             for_each (bind_method path_error (normalize_path path) held_as)
               ms (handlers self)
             = (Ok (handlers self
                    ++ map (bound (normalize_path path) held_as)
                         (filter handled names))%list,
                (handlers self
                 ++ map (bound (normalize_path path) held_as)
                      (filter handled names))%list))
    by (intros ms Ht; exact (register_loop_spec _ _ _ _ _ _ Hpe Ht)).
  destruct (dict_get "methods" rc) as [[ | | | | | [| m ms] | ] |];
    try (rewrite (Hloop [VStr "POST"] Hd); reflexivity).
  rewrite (Hloop (m :: ms) Hd); reflexivity.
Qed.

Lemma registered_handlers_witness :
  _register_route every_path (init empty_config) "hook"
    (VDict [("methods", VList [VStr "post"; VStr "TRACE"; VStr "Put"])])
    (InCatalogue "hook")
  = (Ok tt,
     set_handlers (init empty_config)
       [{| h_method := "POST"; h_path := "/hook";
           h_route := InCatalogue "hook" |};
        {| h_method := "PUT"; h_path := "/hook";
           h_route := InCatalogue "hook" |}]).
Proof.
  exact (registered_handlers every_path (init empty_config) "hook"
           [("methods", VList [VStr "post"; VStr "TRACE"; VStr "Put"])]
           (InCatalogue "hook") ["post"; "TRACE"; "Put"]
           eq_refl eq_refl eq_refl).
Defined.

(** X24. A [POST /routes] whose [methods] list holds an item that is not a
    string does not succeed, and the route is in the catalogue all the
    same: the configuration is written before the handlers are bound.
    The exception is the AttributeError of [method.upper()], or the one
    that the framework raised for the path at an earlier method; it is
    not an [HTTPException] of the operation. *)
Theorem route_stored_despite_error (path_error : string -> option exn)
  (self : forwarder) (body c routes : dict) (p : string) (ms : list value) :
  config self = VDict c ->
  dict_get "routes" c = Some (VDict routes) ->
  dict_get "path" body = Some (VStr p) ->
  dict_get "methods" body = Some (VList ms) ->
  texts ms = None ->
  exists e rc self',
    add_route path_error self (VDict body) = (Raise e, self')
    /\ (e = AttributeError \/ path_error (normalize_path p) = Some e)
    /\ route_at self' (normalize_path p) = Some (VDict rc)
    /\ dict_get "methods" rc = Some (VList ms).
Proof.
  intros Hc Hr Hp Hm Ht.
  unfold add_route; rewrite py_contains_dict, (dict_mem_some _ _ _ Hp).
  cbn [bind negb]; rewrite (py_getitem_dict _ _ _ Hp); cbn [bind].
  rewrite !py_get_dict; cbn [bind]; unfold store_route.
  rewrite Hc, (py_getitem_dict _ _ _ Hr); cbn [bind py_setitem].
  unfold _register_route; rewrite py_get_dict.
  assert (Hs : forall a b x d e,
             route_get "methods" (VList [VStr "POST"])
               [("target_ids", a); ("description", b); ("methods", x);
                ("headers", d); ("query_params", e)] = x)
    by reflexivity.
  assert (Hb : route_get "methods" (VList [VStr "POST"]) body = VList ms)
    by (unfold route_get; rewrite Hm; reflexivity).
  rewrite Hs, !Hb, normalize_path_idem.
  destruct ms as [| m ms]; [discriminate Ht |].
  match goal with
  | |- context [for_each ?b ?l ?h] =>
      destruct (register_loop_raises path_error (normalize_path p)
                  (InCatalogue (normalize_path p)) l h Ht)
        as (e & hs' & Hloop & He)
  end.
  rewrite Hloop.
  exists e; eexists; eexists; split; [reflexivity |]; split; [exact He |].
  split.
  - unfold route_at; cbn [set_handlers set_config config].
    rewrite !dict_get_set_same; reflexivity.
  - reflexivity.
Qed.

Lemma route_stored_despite_error_witness :
  exists e rc self',
    add_route every_path (init empty_config)
      (VDict [("path", VStr "in"); ("methods", VList [VInt 1])])
    = (Raise e, self')
    /\ (e = AttributeError \/ every_path (normalize_path "in") = Some e)
    /\ route_at self' (normalize_path "in") = Some (VDict rc)
    /\ dict_get "methods" rc = Some (VList [VInt 1]).
Proof.
  exact (route_stored_despite_error every_path (init empty_config)
           [("path", VStr "in"); ("methods", VList [VInt 1])]
           _ _ "in" [VInt 1] eq_refl eq_refl eq_refl eq_refl eq_refl).
Defined.

(** *** The control API for targets *)

Lemma id_test (target_id : string) (d : dict) :
  py_eq (route_get "id" VNone d) (VStr target_id)
  = target_has_id target_id (VDict d).
Proof.
  unfold route_get, target_has_id.
  destruct (dict_get "id" d) as [[ | | | | | | ] |]; reflexivity.
Qed.

(** X25. [POST /targets] accepts exactly the bodies that have [name] and
    [url]; the others get HTTP 400 and change nothing.  An accepted body
    is appended after the targets already configured, with its own [id]
    and [enabled] when it has them, with the id [target_<seconds>] and
    [enabled = true] otherwise, and with every other field as sent.  No
    check is made against the ids already in use. *)
Theorem add_target_appends (py_repr : value -> string) (self : forwarder)
  (t c : dict) (l : list value) (now_s : Z) :
  config self = VDict c ->
  dict_get "targets" c = Some (VList l) ->
  if dict_mem "name" t && dict_mem "url" t then
    exists t' msg,
      add_target py_repr self (VDict t) now_s
      = (Ok (VDict [("status", VStr "success"); ("message", VStr msg);
                    ("target", VDict t')]),
         set_config self
           (VDict (dict_set "targets" (VList (l ++ [VDict t'])) c)))
      /\ dict_get "id" t'
         = Some (route_get "id" (VStr ("target_" ++ int_str now_s)) t)
      /\ dict_get "enabled" t' = Some (route_get "enabled" (VBool true) t)
      /\ forall k, k <> "id" -> k <> "enabled" -> dict_get k t' = dict_get k t
  else add_target py_repr self (VDict t) now_s = (Raise bad_target, self).
Proof.
  intros Hc Ht; unfold add_target; rewrite py_contains_dict; cbn [bind].
  destruct (dict_mem "name" t) eqn:Hname; cbn [andb];
    [| reflexivity].
  rewrite py_contains_dict; cbn [bind andb].
  destruct (dict_mem "url" t) eqn:Hurl; cbn [negb]; [| reflexivity].
  rewrite py_contains_dict; cbn [bind].
  set (t1 := if dict_mem "id" t
             then t
             else dict_set "id" (VStr ("target_" ++ int_str now_s)) t).
  assert (E1 : (if dict_mem "id" t then Ok (VDict t)
                else py_setitem (VDict t) "id"
                       (VStr ("target_" ++ int_str now_s)))
               = Ok (VDict t1)).
  { unfold t1; destruct (dict_mem "id" t); reflexivity. }
  rewrite E1; cbn [bind]; rewrite py_contains_dict; cbn [bind].
  set (t2 := if dict_mem "enabled" t1
             then t1
             else dict_set "enabled" (VBool true) t1).
  assert (E2 : (if dict_mem "enabled" t1 then Ok (VDict t1)
                else py_setitem (VDict t1) "enabled" (VBool true))
               = Ok (VDict t2)).
  { unfold t2; destruct (dict_mem "enabled" t1); reflexivity. }
  rewrite E2; cbn [bind]; rewrite Hc, (py_getitem_dict _ _ _ Ht).
  cbn [bind py_append py_setitem].
  assert (G1 : forall k, k <> "id" -> dict_get k t1 = dict_get k t).
  { intros k Hk; unfold t1; destruct (dict_mem "id" t); [reflexivity |].
    apply dict_get_set_other, Hk. }
  assert (G2 : forall k, k <> "enabled" -> dict_get k t2 = dict_get k t1).
  { intros k Hk; unfold t2; destruct (dict_mem "enabled" t1); [reflexivity |].
    apply dict_get_set_other, Hk. }
  assert (Hn : exists name, dict_get "name" t2 = Some name).
  { rewrite G2, G1 by discriminate; apply dict_mem_get, Hname. }
  destruct Hn as [name Hn]; rewrite (py_getitem_dict _ _ _ Hn); cbn [bind].
  exists t2; eexists; split; [reflexivity |]; split; [| split].
  - rewrite G2 by discriminate; unfold t1, route_get, dict_mem.
    destruct (dict_get "id" t) as [i |] eqn:Hi; [exact Hi |].
    apply dict_get_set_same.
  - unfold t2, route_get, dict_mem; rewrite (G1 "enabled") by discriminate.
    destruct (dict_get "enabled" t) as [e |] eqn:He.
    + rewrite G1 by discriminate; exact He.
    + apply dict_get_set_same.
  - intros k Hid Hen; rewrite G2, G1 by assumption; reflexivity.
Qed.

Lemma add_target_appends_witness :
  exists t' msg,
    add_target plain_repr (init empty_config)
      (VDict [("name", VStr "A"); ("url", VStr "http://a/")]) 1700000000
    = (Ok (VDict [("status", VStr "success"); ("message", VStr msg);
                  ("target", VDict t')]),
       set_config (init empty_config)
         (VDict [("targets", VList [VDict t']);
                 ("routes", VDict [("/webhook", default_route)]);
                 ("templates", VDict [])]))
    /\ dict_get "id" t' = Some (VStr "target_1700000000")
    /\ dict_get "enabled" t' = Some (VBool true)
    /\ forall k,
         k <> "id" -> k <> "enabled" ->
         dict_get k t'
         = dict_get k [("name", VStr "A"); ("url", VStr "http://a/")].
Proof.
  exact (add_target_appends plain_repr (init empty_config)
           [("name", VStr "A"); ("url", VStr "http://a/")]
           _ [] 1700000000 eq_refl eq_refl).
Defined.

Lemma without_id_filter (target_id : string) (l : list value) :
  forallb is_object l = true ->
  without_id target_id l
  = Ok (filter (fun t => negb (target_has_id target_id t)) l).
Proof.
  induction l as [| t l IH]; intros Hobj; [reflexivity |].
  cbn [forallb] in Hobj; apply andb_true_iff in Hobj.
  destruct Hobj as [Ht Hl].
  destruct t as [ | | | | | | d]; try discriminate Ht.
  cbn [without_id filter]; rewrite py_get_dict; cbn [bind].
  rewrite (IH Hl); cbn [bind]; rewrite id_test.
  destruct (target_has_id target_id (VDict d)); reflexivity.
Qed.

Lemma filter_length_le {A} (f : A -> bool) (l : list A) :
  (List.length (filter f l) <= List.length l)%nat.
Proof.
  induction l as [| x l IH]; [apply Nat.le_refl |].
  cbn [filter]; destruct (f x); cbn [List.length]; lia.
Qed.

Lemma filter_shorter {A} (f : A -> bool) (l : list A) :
  (Z.of_nat (List.length (filter (fun x => negb (f x)) l))
   <? Z.of_nat (List.length l))
  = existsb f l.
Proof.
  induction l as [| x l IH]; [reflexivity |].
  cbn [filter existsb]; destruct (f x); cbn [negb orb].
  - pose proof (filter_length_le (fun x => negb (f x)) l) as Hle.
    apply Z.ltb_lt; cbn [List.length]; lia.
  - rewrite <- IH; cbn [List.length].
    destruct (Z.ltb_spec
                (Z.of_nat (List.length (filter (fun x => negb (f x)) l)))
                (Z.of_nat (List.length l)));
      [apply Z.ltb_lt | apply Z.ltb_ge]; lia.
Qed.

(** X26. [DELETE /targets/{id}] on a list of target objects removes every
    target whose [id] is the given string, not only the first, and keeps
    the others in their order.  It answers success when at least one
    target had the id and HTTP 404 otherwise. *)
Theorem delete_target_removes_all (self : forwarder) (c : dict)
  (l : list value) (target_id : string) :
  config self = VDict c ->
  dict_get "targets" c = Some (VList l) ->
  forallb is_object l = true ->
  exists out,
    delete_target self target_id
    = (out,
       set_config self
         (VDict (dict_set "targets"
                   (VList (filter (fun t => negb (target_has_id target_id t))
                             l))
                   c)))
    /\ out
       = if existsb (target_has_id target_id) l
         then Ok (VDict [("status", VStr "success");
                         ("message",
                          VStr ("已删除转发目标 ID: " ++ target_id))])
         else Raise (target_not_found target_id).
Proof.
  intros Hc Ht Hobj; unfold delete_target.
  rewrite Hc, py_get_dict; unfold route_get; rewrite Ht.
  cbn [bind py_len py_iter]; rewrite (without_id_filter _ _ Hobj).
  cbn [bind py_setitem]; rewrite filter_shorter.
  destruct (existsb (target_has_id target_id) l);
    eexists; split; reflexivity.
Qed.

Lemma delete_target_removes_all_witness :
  exists out,
    delete_target (init two_targets) "a"
    = (out,
       set_config (init two_targets)
         (VDict [("targets", VList [target_b]); ("routes", VDict []);
                 ("templates", VDict [])]))
    /\ out
       = Ok (VDict [("status", VStr "success");
                    ("message", VStr "已删除转发目标 ID: a")]).
Proof.
  exact (delete_target_removes_all (init two_targets) _ _ "a"
           eq_refl eq_refl eq_refl).
Defined.

Lemma find_target_first (target_id : string) (pre post : list value)
  (d : dict) :
  forallb is_object pre = true ->
  existsb (target_has_id target_id) pre = false ->
  target_has_id target_id (VDict d) = true ->
  forall i,
    find_target target_id (pre ++ VDict d :: post)%list i
    = Ok (Some ((i + List.length pre)%nat, VDict d)).
Proof.
  intros Hobj Hpre Hd; induction pre as [| t pre IH]; intros i.
  - cbn [app find_target List.length]; rewrite py_get_dict; cbn [bind].
    rewrite id_test, Hd, Nat.add_0_r; reflexivity.
  - cbn [forallb] in Hobj; apply andb_true_iff in Hobj.
    destruct Hobj as [Ht Hobj].
    cbn [existsb] in Hpre; apply orb_false_iff in Hpre.
    destruct Hpre as [Hid Hpre].
    destruct t as [ | | | | | | dt]; try discriminate Ht.
    cbn [app find_target List.length]; rewrite py_get_dict; cbn [bind].
    rewrite id_test, Hid, (IH Hobj Hpre), Nat.add_succ_r; reflexivity.
Qed.

Lemma first_with_id_first (target_id : string) (pre post : list value)
  (d : dict) :
  forallb is_object pre = true ->
  existsb (target_has_id target_id) pre = false ->
  target_has_id target_id (VDict d) = true ->
  first_with_id target_id (pre ++ VDict d :: post)%list = Ok (Some (VDict d)).
Proof.
  intros Hobj Hpre Hd; induction pre as [| t pre IH].
  - cbn [app first_with_id]; rewrite py_get_dict; cbn [bind].
    rewrite id_test, Hd; reflexivity.
  - cbn [forallb] in Hobj; apply andb_true_iff in Hobj.
    destruct Hobj as [Ht Hobj].
    cbn [existsb] in Hpre; apply orb_false_iff in Hpre.
    destruct Hpre as [Hid Hpre].
    destruct t as [ | | | | | | dt]; try discriminate Ht.
    cbn [app first_with_id]; rewrite py_get_dict; cbn [bind].
    rewrite id_test, Hid; exact (IH Hobj Hpre).
Qed.

Lemma py_getitem_middle (pre post : list value) (x : value) :
  py_getitem (VList (pre ++ x :: post)%list)
    (VInt (Z.of_nat (List.length pre)))
  = Ok x.
Proof.
  cbn [py_getitem as_num]; unfold index.
  rewrite length_app; cbn [List.length].
  destruct (Z.ltb_spec (Z.of_nat (List.length pre)) 0) as [Hneg | _]; [lia |].
  destruct (Z.leb_spec 0 (Z.of_nat (List.length pre))) as [_ | Hneg]; [| lia].
  destruct (Z.ltb_spec (Z.of_nat (List.length pre))
              (Z.of_nat (List.length pre + S (List.length post))))
    as [_ | Hge]; [| lia].
  cbn [andb]; rewrite Nat2Z.id, nth_error_app2 by apply Nat.le_refl.
  rewrite Nat.sub_diag; reflexivity.
Qed.

Lemma list_set_middle (pre post : list value) (x v : value) :
  list_set (pre ++ x :: post)%list (List.length pre) v
  = (pre ++ v :: post)%list.
Proof.
  induction pre as [| y pre IH]; [reflexivity |].
  cbn [app list_set List.length]; rewrite IH; reflexivity.
Qed.

(** X27. [PUT /targets/{id}] updates the first target that has the id and
    no other: the body is merged into that target in place, the targets
    before and after it keep their position and content, also those after
    it that have the same id, and the merged target is returned. *)
Theorem update_target_first_match (py_repr : value -> string)
  (self : forwarder) (c : dict) (pre post : list value) (d u : dict)
  (target_id : string) :
  config self = VDict c ->
  dict_get "targets" c = Some (VList (pre ++ VDict d :: post)%list) ->
  forallb is_object pre = true ->
  existsb (target_has_id target_id) pre = false ->
  target_has_id target_id (VDict d) = true ->
  exists msg,
    update_target py_repr self target_id (VDict u)
    = (Ok (VDict [("status", VStr "success"); ("message", VStr msg);
                  ("target", VDict (dict_update d u))]),
       set_config self
         (VDict (dict_set "targets"
                   (VList (pre ++ VDict (dict_update d u) :: post)%list)
                   c))).
Proof.
  intros Hc Ht Hobj Hpre Hd; unfold update_target.
  rewrite Hc, py_get_dict; unfold route_get at 1; rewrite Ht.
  cbn [bind py_iter]; rewrite (find_target_first _ _ _ _ Hobj Hpre Hd).
  cbn [bind Nat.add]; rewrite (py_getitem_dict _ _ _ Ht); cbn [bind].
  rewrite py_getitem_middle; cbn [bind py_unpack].
  rewrite list_set_middle; cbn [bind py_setitem]; rewrite py_get_dict.
  cbn [bind]; eexists; reflexivity.
Qed.

Lemma update_target_first_match_witness :
  exists msg,
    update_target plain_repr (init two_targets) "b"
      (VDict [("enabled", VBool false)])
    = (Ok (VDict [("status", VStr "success"); ("message", VStr msg);
                  ("target",
                   VDict [("id", VStr "b"); ("name", VStr "B");
                          ("url", VStr "http://b/");
                          ("enabled", VBool false)])]),
       set_config (init two_targets)
         (VDict [("targets",
                  VList [target_a;
                         VDict [("id", VStr "b"); ("name", VStr "B");
                                ("url", VStr "http://b/");
                                ("enabled", VBool false)]]);
                 ("routes", VDict []); ("templates", VDict [])])).
Proof.
  exact (update_target_first_match plain_repr (init two_targets) _
           [target_a] []
           [("id", VStr "b"); ("name", VStr "B"); ("url", VStr "http://b/");
            ("enabled", VBool true)]
           [("enabled", VBool false)] "b"
           eq_refl eq_refl eq_refl eq_refl eq_refl).
Defined.

(** X28. [POST /test?target_id=ID] sends the test message to the first
    target that has the id, whatever its [enabled] flag and its filters
    say and whatever [route_path] is given: [forward_to_target] is called
    once, with that target, its outcome is reported in [result], and the
    message is not recorded in the history. *)
Theorem direct_test_bypasses_filters (py_repr : value -> string)
  (py_format : string -> dict -> result string) (http_post : outbound -> bool)
  (self : forwarder) (c : dict) (pre post : list value) (d : dict)
  (target_id : string) (route_path : option string) (now_ms : Z)
  (now : string) :
  target_id <> EmptyString ->
  config self = VDict c ->
  dict_get "targets" c = Some (VList (pre ++ VDict d :: post)%list) ->
  forallb is_object pre = true ->
  existsb (target_has_id target_id) pre = false ->
  target_has_id target_id (VDict d) = true ->
  exists msg,
    send_test_message py_repr py_format http_post self (Some target_id)
      route_path now_ms now
    = (let ok := forward_to_target py_repr py_format http_post
                   (test_message now_ms) (VDict d) in
       (Ok (VDict [("status", VStr (if ok then "success" else "error"));
                   ("message", VStr msg); ("result", VBool ok)]),
        [VDict d], self)).
Proof.
  intros Hid Hc Ht Hobj Hpre Hd; unfold send_test_message.
  apply String.eqb_neq in Hid; rewrite Hid.
  rewrite Hc, py_get_dict; unfold route_get at 1; rewrite Ht.
  cbn [bind py_iter]; rewrite (first_with_id_first _ _ _ _ Hobj Hpre Hd).
  assert (Hne : truthy (VDict d) = true).
  { destruct d; [discriminate Hd | reflexivity]. }
  rewrite Hne, py_get_dict; eexists; reflexivity.
Qed.

Lemma direct_test_bypasses_filters_witness :
  exists msg,
    send_test_message plain_repr plain_format post_accepted
      (init (VDict [("targets",
                     VList [VDict [("id", VStr "off"); ("name", VStr "Off");
                                   ("url", VStr "http://off/");
                                   ("enabled", VBool false)]])]))
      (Some "off") None 0 "now"
    = (Ok (VDict [("status", VStr "success"); ("message", VStr msg);
                  ("result", VBool true)]),
       [VDict [("id", VStr "off"); ("name", VStr "Off");
               ("url", VStr "http://off/"); ("enabled", VBool false)]],
       init (VDict [("targets",
                     VList [VDict [("id", VStr "off"); ("name", VStr "Off");
                                   ("url", VStr "http://off/");
                                   ("enabled", VBool false)]])])).
Proof.
  refine (direct_test_bypasses_filters plain_repr plain_format post_accepted
            (init (VDict [("targets",
                     VList [VDict [("id", VStr "off"); ("name", VStr "Off");
                                   ("url", VStr "http://off/");
                                   ("enabled", VBool false)]])]))
            _ [] [] _ "off" None 0 "now" _ eq_refl eq_refl eq_refl eq_refl
            eq_refl).
  discriminate.
Defined.

(** *** Loading the configuration *)

Lemma backfill_object (key : string) (doc : dict) :
  backfill key (VDict doc)
  = Ok (VDict (if dict_mem key doc then doc
               else dict_set key (default_of key) doc)).
Proof.
  unfold backfill; rewrite py_contains_dict; cbn [bind].
  destruct (dict_mem key doc); reflexivity.
Qed.

Lemma backfill_get (key : string) (doc : dict) (k : string) :
  dict_get k (if dict_mem key doc then doc
              else dict_set key (default_of key) doc)
  = match dict_get k doc with
    | Some v => Some v
    | None => if String.eqb k key then Some (default_of key) else None
    end.
Proof.
  destruct (String.eqb_spec k key) as [-> | Hne].
  - unfold dict_mem; destruct (dict_get key doc) as [v |] eqn:Hk.
    + rewrite Hk; reflexivity.
    + apply dict_get_set_same.
  - destruct (dict_mem key doc).
    + destruct (dict_get k doc); reflexivity.
    + rewrite (dict_get_set_other _ _ _ _ Hne).
      destruct (dict_get k doc); reflexivity.
Qed.

Lemma load_object (doc : dict) :
  exists cfg,
    _load_config (Parsed (VDict doc)) = VDict cfg
    /\ forall k,
         dict_get k cfg
         = match dict_get k doc with
           | Some v => Some v
           | None =>
               if String.eqb k "routes" || String.eqb k "templates"
               then Some (default_of k)
               else None
           end.
Proof.
  unfold _load_config; rewrite backfill_object; cbn [bind].
  rewrite backfill_object; eexists; split; [reflexivity |].
  intros k; rewrite !backfill_get.
  destruct (dict_get k doc); [reflexivity |].
  destruct (String.eqb_spec k "routes") as [-> | _]; [reflexivity |].
  destruct (String.eqb_spec k "templates") as [-> | _]; reflexivity.
Qed.

(** X29. What [_load_config] returns.  Without a readable JSON document
    it is the default configuration.  For a document that is an object it
    is the document with [routes] and [templates] filled in from the
    defaults when they are absent: every key of the document keeps its
    value, and no other key is added, [targets] and [message_format]
    included.  A document that is not an object gives the default
    configuration, except a string or a list that passes both membership
    tests, which is returned as it is. *)
Theorem loaded_config_shape (file : config_file) :
  match file with
  | Parsed (VDict doc) =>
      exists cfg,
        _load_config file = VDict cfg
        /\ forall k,
             dict_get k cfg
             = match dict_get k doc with
               | Some v => Some v
               | None =>
                   if String.eqb k "routes" || String.eqb k "templates"
                   then Some (default_of k)
                   else None
               end
  | Parsed document =>
      _load_config file
      = if loads_as_is document then document else default_config
  | _ => _load_config file = default_config
  end.
Proof.
  destruct file as [ | | | document]; try reflexivity.
  destruct document as [ | b | n | f | s | l | doc]; try reflexivity.
  - unfold _load_config, backfill, loads_as_is; cbn [py_contains bind].
    destruct (PyStr.contains "routes" s);
      cbn [py_contains bind andb py_setitem]; [| reflexivity].
    destruct (PyStr.contains "templates" s); reflexivity.
  - unfold _load_config, backfill, loads_as_is; rewrite py_contains_list.
    cbn [bind]; destruct (member (VStr "routes") l);
      cbn [bind andb py_setitem]; [| reflexivity].
    rewrite py_contains_list; cbn [bind].
    destruct (member (VStr "templates") l); reflexivity.
  - apply load_object.
Qed.

(** X30. [targets] is not among the fields that loading fills in.  With
    a configuration file that is an object without [targets], the list of
    targets reads as empty, and every [POST /targets] with a well-formed
    body fails with a KeyError, not an HTTP error, and adds nothing. *)
Theorem targets_not_backfilled (py_repr : value -> string) (doc t : dict)
  (now_s : Z) :
  dict_get "targets" doc = None ->
  dict_mem "name" t = true ->
  dict_mem "url" t = true ->
  let self := init (_load_config (Parsed (VDict doc))) in
  get_targets self = Ok (VDict [("targets", VList [])])
  /\ add_target py_repr self (VDict t) now_s = (Raise KeyError, self).
Proof.
  intros Hdoc Hname Hurl.
  destruct (load_object doc) as (cfg & -> & Hget).
  assert (Hnone : dict_get "targets" cfg = None).
  { rewrite Hget, Hdoc; reflexivity. }
  cbv zeta; split.
  - unfold get_targets; cbn [init config]; rewrite py_get_dict.
    unfold route_get; rewrite Hnone; reflexivity.
  - unfold add_target; rewrite !py_contains_dict, Hname; cbn [bind].
    rewrite Hurl; cbn [bind andb negb].
    assert (E1 : exists t1,
               (if dict_mem "id" t then Ok (VDict t)
                else py_setitem (VDict t) "id"
                       (VStr ("target_" ++ int_str now_s)))
               = Ok (VDict t1)).
    { destruct (dict_mem "id" t); eexists; reflexivity. }
    destruct E1 as [t1 ->]; cbn [bind]; rewrite py_contains_dict.
    cbn [bind].
    assert (E2 : exists t2,
               (if dict_mem "enabled" t1 then Ok (VDict t1)
                else py_setitem (VDict t1) "enabled" (VBool true))
               = Ok (VDict t2)).
    { destruct (dict_mem "enabled" t1); eexists; reflexivity. }
    destruct E2 as [t2 ->]; cbn [bind init config py_getitem].
    rewrite Hnone; reflexivity.
Qed.

Lemma targets_not_backfilled_witness :
  let self :=
    init (_load_config (Parsed (VDict [("routes", VDict [])]))) in
  get_targets self = Ok (VDict [("targets", VList [])])
  /\ add_target plain_repr self
       (VDict [("name", VStr "A"); ("url", VStr "http://a/")]) 0
     = (Raise KeyError, self).
Proof.
  exact (targets_not_backfilled plain_repr [("routes", VDict [])]
           [("name", VStr "A"); ("url", VStr "http://a/")] 0
           eq_refl eq_refl eq_refl).
Defined.


(** *** The transform applied twice *)

Lemma dict_set_same (k : string) (v : value) (d : dict) :
  dict_get k d = Some v -> dict_set k v d = d.
Proof.
  induction d as [| [k' x] d IH]; cbn [dict_get dict_set]; [discriminate |].
  destruct (String.eqb_spec k k') as [-> | Hne].
  - intros [= ->]; reflexivity.
  - intros H; rewrite (IH H); reflexivity.
Qed.

(** What a write has written sits at its path. *)
Lemma sits_written (parts : list string) (v : value) :
  parts <> [] ->
  forall current r, set_parts parts v current = Ok r -> sits parts v r.
Proof.
  induction parts as [| part rest IH]; [congruence |]; intros _ current r H.
  destruct rest as [| q rest].
  - cbn [set_parts] in H; destruct current; try discriminate H.
    cbn [py_setitem] in H; injection H as <-.
    exists (dict_set part v d), v.
    split; [reflexivity | split; [apply dict_get_set_same | reflexivity]].
  - assert (Hq : q :: rest <> []) by discriminate.
    rewrite set_parts_step in H.
    destruct (py_contains (VStr part) current) as [present | e];
      cbn [bind] in H; [| discriminate H].
    destruct (if present then Ok current
              else py_setitem current part (VDict [])) as [c1 | e];
      cbn [bind] in H; [| discriminate H].
    destruct (py_getitem c1 (VStr part)) as [child | e];
      cbn [bind] in H; [| discriminate H].
    destruct (set_parts (q :: rest) v child) as [child' | e] eqn:Hc;
      cbn [bind] in H; [| discriminate H].
    destruct c1 as [ | | | | | | d1]; try discriminate H.
    cbn [py_setitem] in H; injection H as <-.
    exists (dict_set part child' d1), child'.
    split; [reflexivity | split; [apply dict_get_set_same |]].
    exact (IH Hq _ _ Hc).
Qed.

(** Writing a value where it sits changes nothing. *)
Lemma sits_unchanged (parts : list string) (v : value) :
  forall r, sits parts v r -> set_parts parts v r = Ok r.
Proof.
  induction parts as [| part rest IH]; intros r H; [destruct H |].
  destruct H as (d & x & -> & Hx & Hrest).
  destruct rest as [| q rest].
  - subst x; cbn [set_parts py_setitem].
    rewrite (dict_set_same _ _ _ Hx); reflexivity.
  - rewrite set_parts_step, py_contains_dict, (dict_mem_some _ _ _ Hx).
    cbn [bind]; rewrite (py_getitem_dict _ _ _ Hx); cbn [bind].
    rewrite (IH _ Hrest); cbn [bind py_setitem].
    rewrite (dict_set_same _ _ _ Hx); reflexivity.
Qed.

(** A write at a path that parts ways with [p] leaves what sits at [p]. *)
Lemma sits_frame (p : list string) :
  forall (q : list string) (v w r r' : value),
    part_ways p q = true ->
    sits p v r ->
    set_parts q w r = Ok r' ->
    sits p v r'.
Proof.
  induction p as [| a p IH]; intros q v w r r' Hw Hs Hq; [discriminate Hw |].
  destruct q as [| b q]; [discriminate Hw |].
  cbn [part_ways] in Hw.
  destruct Hs as (d & x & -> & Hx & Hrest).
  destruct (String.eqb_spec a b) as [<- | Hne].
  - destruct q as [| b' q]; [destruct p; discriminate Hw |].
    rewrite set_parts_step, py_contains_dict, (dict_mem_some _ _ _ Hx) in Hq.
    cbn [bind] in Hq; rewrite (py_getitem_dict _ _ _ Hx) in Hq.
    cbn [bind] in Hq.
    destruct (set_parts (b' :: q) w x) as [x' | e] eqn:Hx';
      cbn [bind py_setitem] in Hq; [| discriminate Hq].
    injection Hq as <-.
    exists (dict_set a x' d), x'.
    split; [reflexivity | split; [apply dict_get_set_same |]].
    destruct p as [| a' p]; [discriminate Hw |].
    exact (IH _ _ _ _ _ Hw Hrest Hx').
  - assert (Hnil : b :: q <> []) by discriminate.
    destruct (set_parts_inv _ _ _ _ Hnil Hq)
      as (part & rest & d0 & w' & Hp & Hd & ->).
    injection Hp as <- <-; injection Hd as <-.
    exists (dict_set b w' d), x.
    split; [reflexivity | split; [| exact Hrest]].
    rewrite (dict_get_set_other _ _ _ _ Hne); exact Hx.
Qed.

(** The state that a loop leaves is its result when it has one. *)
Lemma for_each_state {A S} (body : A -> S -> result S) (xs : list A)
  (s r obj : S) :
  for_each body xs s = (Ok r, obj) -> r = obj.
Proof.
  revert s; induction xs as [| x xs IH]; intros s H; cbn [for_each] in H.
  - injection H as <- <-; reflexivity.
  - destruct (body x s) as [s' | e]; [exact (IH _ H) | discriminate H].
Qed.

(** The injection loop leaves what sits at a path that parts ways with
    all of its own. *)
Lemma add_stage_keeps (p : list string) (v : value) (entries : dict) :
  forall (m : value) (out : result value) (obj : value),
    forallb (fun g => part_ways p (PyStr.split "." g)) (keys entries) = true ->
    sits p v m ->
    for_each add_body entries m = (out, obj) ->
    sits p v obj.
Proof.
  induction entries as [| [f x] entries IH]; intros m out obj Hw Hs Hrun.
  - cbn [for_each] in Hrun; injection Hrun as _ <-; exact Hs.
  - cbn [keys map fst forallb] in Hw; apply andb_true_iff in Hw.
    destruct Hw as [Hf Hw].
    cbn [for_each add_body] in Hrun.
    destruct (set_parts (PyStr.split "." f) x m) as [m1 | e] eqn:E.
    + exact (IH _ _ _ Hw (sits_frame _ _ _ _ _ _ Hf Hs E) Hrun).
    + injection Hrun as _ <-; exact Hs.
Qed.

(** The injection loop, run on the object it left, leaves it as it is and
    ends the same way. *)
Lemma add_stage_again (entries : dict) :
  independent (keys entries) = true ->
  forall (m : value) (out : result value) (obj : value),
    for_each add_body entries m = (out, obj) ->
    for_each add_body entries obj = (out, obj).
Proof.
  induction entries as [| [f x] entries IH]; intros Hind m out obj Hrun.
  - cbn [for_each] in Hrun |- *; injection Hrun as <- <-; reflexivity.
  - cbn [keys map fst independent] in Hind; apply andb_true_iff in Hind.
    destruct Hind as [Hf Hind].
    cbn [for_each add_body] in Hrun |- *.
    destruct (set_parts (PyStr.split "." f) x m) as [m1 | e] eqn:E.
    + assert (Hs : sits (PyStr.split "." f) x obj).
      { apply (add_stage_keeps _ _ entries m1 out obj Hf);
          [| exact Hrun].
        exact (sits_written _ _ (split_not_nil "." f) _ _ E). }
      rewrite (sits_unchanged _ _ _ Hs); exact (IH Hind _ _ _ Hrun).
    + injection Hrun as <- <-; rewrite E; reflexivity.
Qed.

(** What a write has written is what a read finds. *)
Lemma sits_walk (parts : list string) (v : value) :
  forall r, sits parts v r -> walk parts r = v.
Proof.
  induction parts as [| part rest IH]; intros r H; [destruct H |].
  destruct H as (d & x & -> & Hx & Hrest).
  cbn [walk]; rewrite Hx.
  destruct rest as [| q rest]; [subst x; reflexivity | exact (IH _ Hrest)].
Qed.

(** A read that finds a value goes through objects all the way. *)
Lemma walk_sits (parts : list string) :
  parts <> [] ->
  forall r, walk parts r <> VNone -> sits parts (walk parts r) r.
Proof.
  induction parts as [| part rest IH]; [congruence |]; intros _ r H.
  cbn [walk] in H |- *.
  destruct r as [ | | | | | | d]; try (exfalso; apply H; reflexivity).
  destruct (dict_get part d) as [x |] eqn:Hx;
    [| exfalso; apply H; reflexivity].
  exists d, x; split; [reflexivity | split; [exact Hx |]].
  destruct rest as [| q rest]; [reflexivity |].
  apply IH; [discriminate | exact H].
Qed.

(** A write at a path that parts ways with [p] leaves what a read at [p]
    finds, also when it finds nothing. *)
Lemma walk_frame (p : list string) :
  forall (q : list string) (w r r' : value),
    part_ways p q = true ->
    set_parts q w r = Ok r' ->
    walk p r' = walk p r.
Proof.
  induction p as [| a p IH]; intros q w r r' Hw Hq; [discriminate Hw |].
  destruct q as [| b q]; [discriminate Hw |].
  cbn [part_ways] in Hw.
  destruct (String.eqb_spec a b) as [<- | Hne].
  - destruct q as [| b' q]; [destruct p; discriminate Hw |].
    destruct p as [| a' p]; [discriminate Hw |].
    rewrite set_parts_step in Hq.
    destruct r as [ | | | | s | l | d]; try discriminate Hq.
    + cbn [py_contains bind] in Hq.
      destruct (PyStr.contains a s); discriminate Hq.
    + cbn [py_contains bind] in Hq.
      destruct (existsb _ l); discriminate Hq.
    + rewrite py_contains_dict in Hq; cbn [bind] in Hq.
      unfold dict_mem in Hq.
      destruct (dict_get a d) as [x |] eqn:Hx.
      * cbn [bind] in Hq; rewrite (py_getitem_dict _ _ _ Hx) in Hq.
        cbn [bind] in Hq.
        destruct (set_parts (b' :: q) w x) as [x' | e] eqn:Hx';
          cbn [bind py_setitem] in Hq; [| discriminate Hq].
        injection Hq as <-.
        change (walk (a :: a' :: p) (VDict (dict_set a x' d)))
          with (match dict_get a (dict_set a x' d) with
                | Some v => walk (a' :: p) v
                | None => VNone
                end).
        change (walk (a :: a' :: p) (VDict d))
          with (match dict_get a d with
                | Some v => walk (a' :: p) v
                | None => VNone
                end).
        rewrite dict_get_set_same, Hx.
        exact (IH _ _ _ _ Hw Hx').
      * cbn [py_setitem bind] in Hq.
        rewrite (py_getitem_dict _ _ _ (dict_get_set_same a (VDict []) d))
          in Hq.
        cbn [bind] in Hq.
        destruct (set_parts (b' :: q) w (VDict [])) as [x' | e] eqn:Hx';
          cbn [bind py_setitem] in Hq; [| discriminate Hq].
        injection Hq as <-.
        change (walk (a :: a' :: p) (VDict (dict_set a x' (dict_set a (VDict []) d))))
          with (match dict_get a (dict_set a x' (dict_set a (VDict []) d)) with
                | Some v => walk (a' :: p) v
                | None => VNone
                end).
        change (walk (a :: a' :: p) (VDict d))
          with (match dict_get a d with
                | Some v => walk (a' :: p) v
                | None => VNone
                end).
        rewrite dict_get_set_same, Hx.
        rewrite (IH _ _ _ _ Hw Hx'); reflexivity.
  - assert (Hnil : b :: q <> []) by discriminate.
    destruct (set_parts_inv _ _ _ _ Hnil Hq)
      as (part & rest & d0 & w' & Hp & -> & ->).
    injection Hp as <- <-.
    cbn [walk]; rewrite (dict_get_set_other _ _ _ _ Hne); reflexivity.
Qed.

(** A loop of writes, each at the path of its entry when it writes at
    all, leaves what a read finds at a path that parts ways with all of
    them. *)
Lemma loop_walk (body : string * value -> value -> result value)
  (p : list string) :
  (forall e s s', part_ways p (PyStr.split "." (fst e)) = true ->
                  body e s = Ok s' -> walk p s' = walk p s) ->
  forall (entries : dict) (m : value) (out : result value) (obj : value),
    forallb (fun g => part_ways p (PyStr.split "." g)) (keys entries) = true ->
    for_each body entries m = (out, obj) ->
    walk p obj = walk p m.
Proof.
  intros Hbody entries.
  induction entries as [| e entries IH]; intros m out obj Hw Hrun.
  - cbn [for_each] in Hrun; injection Hrun as _ <-; reflexivity.
  - cbn [keys map forallb] in Hw; apply andb_true_iff in Hw.
    destruct Hw as [Hf Hw].
    cbn [for_each] in Hrun.
    destruct (body e m) as [m1 | x] eqn:E.
    + rewrite (IH _ _ _ Hw Hrun); exact (Hbody _ _ _ Hf E).
    + injection Hrun as _ <-; reflexivity.
Qed.

Lemma add_body_walk (p : list string) (e : string * value) (s s' : value) :
  part_ways p (PyStr.split "." (fst e)) = true ->
  add_body e s = Ok s' -> walk p s' = walk p s.
Proof.
  destruct e as [f v]; cbn [fst add_body]; intros Hw H.
  exact (walk_frame _ _ _ _ _ Hw H).
Qed.

Lemma transform_body_walk (py_repr : value -> string)
  (py_format : string -> dict -> result string)
  (p : list string) (e : string * value) (s s' : value) :
  part_ways p (PyStr.split "." (fst e)) = true ->
  transform_body py_repr py_format e s = Ok s' -> walk p s' = walk p s.
Proof.
  destruct e as [f k]; cbn [fst]; intros Hw H.
  unfold transform_body in H; cbn [_get_nested_value bind] in H.
  destruct (walk (PyStr.split "." f) s);
    try (injection H as <-; reflexivity);
    (destruct (transformed py_repr py_format k _) as [t | x];
     cbn [bind] in H; [exact (walk_frame _ _ _ _ _ Hw H) | discriminate H]).
Qed.

(** A conversion, or a kind that does nothing, gives back what it has
    produced, and never produces [None] from another value. *)
Lemma transformed_settled (py_repr : value -> string)
  (py_format : string -> dict -> result string) (k v t : value) :
  steady k = true -> v <> VNone ->
  transformed py_repr py_format k v = Ok t ->
  t <> VNone /\ transformed py_repr py_format k t = Ok t.
Proof.
  intros Hk Hv H; unfold transformed in H |- *.
  destruct (py_eq k (VStr "to_string")) eqn:E1.
  { injection H as <-; split; [discriminate | reflexivity]. }
  destruct (py_eq k (VStr "to_int")) eqn:E2.
  { destruct (py_int v) as [n | []]; try discriminate H;
      injection H as <-; split; try discriminate; reflexivity. }
  destruct (py_eq k (VStr "to_float")) eqn:E3.
  { destruct (py_float v) as [f | []]; try discriminate H;
      injection H as <-; split; try discriminate; reflexivity. }
  destruct (py_eq k (VStr "to_bool")) eqn:E4.
  { destruct v; injection H as <-; split; try discriminate; reflexivity. }
  destruct k as [ | | | | s | | ]; try discriminate H.
  cbn [steady] in Hk; apply negb_true_iff in Hk; rewrite Hk in H |- *.
  injection H as <-; split; [exact Hv | reflexivity].
Qed.

(** A settled entry does nothing. *)
Lemma transform_body_settled (py_repr : value -> string)
  (py_format : string -> dict -> result string)
  (e : string * value) (s : value) :
  settled py_repr py_format s e ->
  transform_body py_repr py_format e s = Ok s.
Proof.
  destruct e as [f k]; unfold settled; cbn [fst snd]; intros H.
  unfold transform_body; cbn [_get_nested_value bind].
  destruct H as [H | H]; [rewrite H; reflexivity |].
  destruct (walk (PyStr.split "." f) s) eqn:Hv; try reflexivity;
    rewrite H; cbn [bind]; rewrite <- Hv;
    apply sits_unchanged, walk_sits;
    try apply split_not_nil; rewrite Hv; discriminate.
Qed.

(** An entry that has run is settled. *)
Lemma transform_body_settles (py_repr : value -> string)
  (py_format : string -> dict -> result string)
  (e : string * value) (s s' : value) :
  steady (snd e) = true ->
  transform_body py_repr py_format e s = Ok s' ->
  settled py_repr py_format s' e.
Proof.
  destruct e as [f k]; unfold settled; cbn [fst snd]; intros Hk H.
  unfold transform_body in H; cbn [_get_nested_value bind] in H.
  destruct (walk (PyStr.split "." f) s) eqn:Hv;
    try (injection H as <-; left; exact Hv);
    (destruct (transformed py_repr py_format k _) as [t | x] eqn:Ht;
     cbn [bind] in H; [| discriminate H];
     apply transformed_settled in Ht; [| exact Hk | discriminate];
     destruct Ht as [_ Ht];
     rewrite (set_parts_read_back _ _ (split_not_nil "." f) _ _ H);
     right; exact Ht).
Qed.

(** The transform loop, run on the object it left, leaves it as it is and
    ends the same way; when it ended well, every entry is settled. *)
Lemma transform_stage_again (py_repr : value -> string)
  (py_format : string -> dict -> result string) (entries : dict) :
  independent (keys entries) = true ->
  forallb steady (map snd entries) = true ->
  forall (m : value) (out : result value) (obj : value),
    for_each (transform_body py_repr py_format) entries m = (out, obj) ->
    match out with
    | Ok r => r = obj /\ Forall (settled py_repr py_format obj) entries
    | Raise e =>
        for_each (transform_body py_repr py_format) entries obj
        = (Raise e, obj)
    end.
Proof.
  induction entries as [| [f k] entries IH]; intros Hind Hk m out obj Hrun.
  - cbn [for_each] in Hrun; injection Hrun as <- <-.
    split; [reflexivity | constructor].
  - cbn [keys map fst independent] in Hind; apply andb_true_iff in Hind.
    destruct Hind as [Hf Hind].
    cbn [map snd forallb] in Hk; apply andb_true_iff in Hk.
    destruct Hk as [Hkf Hk].
    cbn [for_each] in Hrun.
    destruct (transform_body py_repr py_format (f, k) m) as [m1 | x] eqn:E.
    + assert (Hs : settled py_repr py_format obj (f, k)).
      { pose proof (transform_body_settles py_repr py_format (f, k) m m1
                      Hkf E) as Hs.
        unfold settled in Hs |- *; cbn [fst snd] in Hs |- *.
        rewrite (loop_walk (transform_body py_repr py_format)
                   (PyStr.split "." f)
                   (transform_body_walk py_repr py_format _)
                   entries m1 out obj Hf Hrun).
        exact Hs. }
      specialize (IH Hind Hk m1 out obj Hrun).
      destruct out as [r | x].
      * destruct IH as [-> IH]; split; [reflexivity |].
        constructor; [exact Hs | exact IH].
      * cbn [for_each].
        rewrite (transform_body_settled py_repr py_format _ _ Hs).
        exact IH.
    + injection Hrun as <- <-; cbn [for_each]; rewrite E; reflexivity.
Qed.

(** The transform loop over settled entries does nothing. *)
Lemma transform_stage_settled (py_repr : value -> string)
  (py_format : string -> dict -> result string) (entries : dict) (s : value) :
  Forall (settled py_repr py_format s) entries ->
  for_each (transform_body py_repr py_format) entries s = (Ok s, s).
Proof.
  induction 1 as [| e entries He _ IH]; cbn [for_each]; [reflexivity |].
  rewrite (transform_body_settled py_repr py_format _ _ He); exact IH.
Qed.

Lemma independent_app (l1 l2 : list string) :
  independent (l1 ++ l2) = true ->
  independent l1 = true /\ independent l2 = true
  /\ Forall (fun f =>
               forallb (fun g => part_ways (PyStr.split "." f)
                                   (PyStr.split "." g)) l2 = true) l1.
Proof.
  induction l1 as [| f l1 IH]; cbn [app independent]; intros H.
  - split; [reflexivity | split; [exact H | constructor]].
  - apply andb_true_iff in H; destruct H as [Hf H].
    rewrite forallb_app in Hf; apply andb_true_iff in Hf.
    destruct Hf as [Hf1 Hf2].
    destruct (IH H) as (H1 & H2 & H3).
    split; [rewrite Hf1, H1; reflexivity | split; [exact H2 |]].
    constructor; [exact Hf2 | exact H3].
Qed.

(** A stage of an object spec: nothing without the key, the loop over the
    entries of an object, [AttributeError] on anything else. *)
Lemma run_stage_dict (c : dict) (key : string)
  (body : string * value -> value -> result value) (m : value) :
  run_stage (VDict c) key body m
  = match dict_get key c with
    | None => (Ok m, m)
    | Some (VDict entries) => for_each body entries m
    | Some _ => (Raise AttributeError, m)
    end.
Proof.
  unfold run_stage; rewrite py_contains_dict; unfold dict_mem.
  destruct (dict_get key c) as [v |] eqn:Hk; [| reflexivity].
  rewrite (py_getitem_dict _ _ _ Hk); cbn [bind].
  destruct v; reflexivity.
Qed.

(** Stages 3 and 4, run on the object they left, leave it as it is and
    end the same way. *)
Lemma in_place_again (py_repr : value -> string)
  (py_format : string -> dict -> result string) (c : dict) :
  forallb steady (map snd (entries_of "transformations" c)) = true ->
  independent (keys (entries_of "transformations" c)
               ++ keys (entries_of "add_fields" c)) = true ->
  forall (m : value) (out : result value) (obj : value),
    in_place_stages py_repr py_format (VDict c) m = (out, obj) ->
    in_place_stages py_repr py_format (VDict c) obj = (out, obj)
    /\ match out with Ok r => r = obj | Raise _ => True end.
Proof.
  intros Hk Hind m out obj Hrun.
  destruct (independent_app _ _ Hind) as (Htr & Had & Hcross).
  unfold in_place_stages in Hrun |- *.
  rewrite (run_stage_dict c "transformations") in Hrun |- *.
  unfold entries_of in Hk, Htr, Had, Hcross.
  destruct (dict_get "transformations" c) as [[ | | | | | | tr] |].
  1-6: injection Hrun as <- <-; split; [reflexivity | exact I].
  - destruct (for_each (transform_body py_repr py_format) tr m)
      as [out1 obj1] eqn:H3.
    pose proof (transform_stage_again py_repr py_format tr Htr Hk _ _ _ H3)
      as Hagain.
    destruct out1 as [r1 | e].
    + destruct Hagain as [-> Hset].
      rewrite run_stage_dict in Hrun.
      destruct (dict_get "add_fields" c) as [[ | | | | | | ad] |] eqn:Hadd.
      1-6: injection Hrun as <- <-;
        rewrite (transform_stage_settled py_repr py_format tr _ Hset);
        rewrite run_stage_dict, Hadd;
        split; [reflexivity | exact I].
      * assert (Hset' : Forall (settled py_repr py_format obj) tr).
        { rewrite Forall_forall in Hset, Hcross |- *; intros [f k] Hin.
          specialize (Hset _ Hin).
          assert (Hf : In f (keys tr)) by (apply (in_map fst _ _ Hin)).
          specialize (Hcross _ Hf).
          unfold settled in Hset |- *; cbn [fst snd] in Hset |- *.
          rewrite (loop_walk add_body (PyStr.split "." f)
                     (add_body_walk _) ad obj1 out obj Hcross Hrun).
          exact Hset. }
        rewrite (transform_stage_settled py_repr py_format tr _ Hset').
        rewrite run_stage_dict, Hadd.
        split; [exact (add_stage_again ad Had _ _ _ Hrun) |].
        destruct out as [r | e]; [| exact I].
        exact (for_each_state _ _ _ _ _ Hrun).
      * injection Hrun as <- <-.
        rewrite (transform_stage_settled py_repr py_format tr _ Hset).
        rewrite run_stage_dict, Hadd.
        split; reflexivity.
    + injection Hrun as <- <-; rewrite Hagain; split; [reflexivity | exact I].
  - rewrite run_stage_dict in Hrun |- *.
    destruct (dict_get "add_fields" c) as [[ | | | | | | ad] |].
    1-6: injection Hrun as <- <-; split; [reflexivity | exact I].
    + split; [exact (add_stage_again ad Had _ _ _ Hrun) |].
      destruct out as [r | e]; [| exact I].
      exact (for_each_state _ _ _ _ _ Hrun).
    + injection Hrun as <- <-; split; reflexivity.
Qed.

(** [_preprocess_message] under a spec without field mapping and inclusion
    filter: stages 3 and 4 on the payload object itself. *)
Lemma in_place_run (py_repr : value -> string)
  (py_format : string -> dict -> result string) (c : dict) (m : value) :
  c <> [] ->
  dict_mem "field_mapping" c = false ->
  dict_mem "include_fields" c = false ->
  _preprocess_message py_repr py_format m (VDict c)
  = in_place_stages py_repr py_format (VDict c) m.
Proof.
  intros Hne Hmap Hinc.
  unfold _preprocess_message.
  assert (Ht : truthy (VDict c) = true)
    by (destruct c; [exfalso; apply Hne; reflexivity | reflexivity]).
  rewrite Ht; cbn [negb].
  rewrite !py_contains_dict, Hmap; cbn [bind].
  rewrite Hinc; cbn [bind orb].
  destruct (in_place_stages py_repr py_format (VDict c) m); reflexivity.
Qed.

Lemma preprocessed_again (py_repr : value -> string)
  (py_format : string -> dict -> result string) (preprocess m : value) :
  in_place_only preprocess = true ->
  preprocessed py_repr py_format preprocess
    (preprocessed py_repr py_format preprocess m)
  = preprocessed py_repr py_format preprocess m.
Proof.
  intros Hinj; unfold preprocessed.
  destruct (truthy preprocess) eqn:Ht; [| reflexivity].
  destruct preprocess as [ | | | | | | c];
    try (cbn [in_place_only] in Hinj; rewrite Ht in Hinj; discriminate Hinj).
  cbn [in_place_only] in Hinj.
  apply andb_true_iff in Hinj; destruct Hinj as [Hinj Hind].
  apply andb_true_iff in Hinj; destruct Hinj as [Hinj Hk].
  apply andb_true_iff in Hinj; destruct Hinj as [Hmap Hinc].
  apply negb_true_iff in Hmap, Hinc.
  assert (Hne : c <> []) by (intros ->; discriminate Ht).
  rewrite !(in_place_run py_repr py_format c _ Hne Hmap Hinc).
  destruct (in_place_stages py_repr py_format (VDict c) m)
    as [out obj] eqn:Hrun.
  destruct (in_place_again py_repr py_format c Hk Hind _ _ _ Hrun)
    as [Hagain Hfin].
  assert (Hobj : match out with Ok r => r | Raise _ => obj end = obj)
    by (destruct out; [exact Hfin | reflexivity]).
  rewrite Hobj, Hagain; exact Hobj.
Qed.

(** Without a template that resolves, the transform is the preprocess
    step. *)
Lemma transform_unresolved (py_repr : value -> string)
  (py_format : string -> dict -> result string)
  (cfg preprocess template payload : value) :
  template_resolves cfg template = false ->
  transform py_repr py_format cfg preprocess template payload
  = preprocessed py_repr py_format preprocess payload.
Proof.
  intros Htpl; unfold transform; fold (preprocessed py_repr py_format
                                         preprocess payload).
  unfold template_resolves in Htpl.
  destruct (truthy template) eqn:Ht; [| reflexivity].
  unfold _apply_template; rewrite Ht.
  cbn [andb negb] in Htpl |- *.
  destruct (py_get cfg "templates" (VDict [])) as [templates | e];
    cbn [bind] in Htpl |- *; [| reflexivity].
  destruct (py_contains template templates) as [known | e];
    cbn [bind] in Htpl |- *; [| reflexivity].
  subst known; reflexivity.
Qed.

(** The template loop over values that substitution leaves alone. *)
Lemma template_loop_fixed (f : value -> result value) (entries acc : dict) :
  NoDup (keys acc ++ keys entries)%list ->
  (forall v, In v (map snd entries) -> f v = Ok v) ->
  fst (for_each
         (fun (entry : string * value) (acc : dict) =>
            bind (f (snd entry)) (fun v => Ok (dict_set (fst entry) v acc)))
         entries acc) = Ok (acc ++ entries)%list.
Proof.
  revert acc; induction entries as [| [k v] entries IH]; intros acc Hnd Hid.
  - cbn [for_each fst]; rewrite app_nil_r; reflexivity.
  - cbn [for_each fst snd].
    rewrite (Hid v (or_introl eq_refl)); cbn [bind].
    assert (Hfresh : dict_mem k acc = false).
    { apply dict_mem_keys; intros Hin.
      apply NoDup_remove_2 in Hnd; apply Hnd, in_or_app; left; exact Hin. }
    rewrite (dict_set_fresh _ _ _ Hfresh).
    assert (Hkeys : (keys (acc ++ [(k, v)]) ++ keys entries
                     = keys acc ++ keys ((k, v) :: entries))%list)
      by (rewrite keys_app, <- app_assoc; reflexivity).
    rewrite IH.
    + rewrite <- app_assoc; reflexivity.
    + rewrite Hkeys; exact Hnd.
    + intros x Hx; apply Hid; right; exact Hx.
Qed.

(** A template without placeholders is what the transform returns,
    whatever the payload and the preprocess spec. *)
Lemma transform_fixed (py_repr : value -> string)
  (py_format : string -> dict -> result string)
  (cfg preprocess template payload : value) (t : dict) :
  fixed_template cfg template t ->
  transform py_repr py_format cfg preprocess template payload = VDict t.
Proof.
  intros (c & templates & name & -> & -> & Hname & Hts & Ht & Hnd & Hfree).
  unfold transform.
  assert (Htr : truthy (VStr name) = true).
  { cbn [truthy]; destruct (String.eqb_spec name EmptyString);
      [contradiction | reflexivity]. }
  rewrite Htr; unfold _apply_template; rewrite Htr; cbn [negb].
  rewrite py_get_dict; unfold route_get; rewrite Hts; cbn [bind].
  rewrite py_contains_dict, (dict_mem_some _ _ _ Ht); cbn [bind negb].
  rewrite (py_getitem_dict _ _ _ Hts); cbn [bind].
  rewrite (py_getitem_dict _ _ _ Ht); cbn [bind py_items].
  match goal with
  | |- context [for_each ?body t []] =>
      rewrite (template_loop_fixed
                 (fun v => replace_variables py_format v _) t [] Hnd)
  end; [reflexivity |].
  intros v Hin; apply replace_variables_free.
  exact (placeholder_free_values t Hfree v Hin).
Qed.

(** C3, amended.  The transform is a function of the payload, the
    preprocess spec, the template name and the configuration.  Applied to
    its own output it gives that output again when the template name
    resolves to a template without placeholders (the output is the
    template, whatever the preprocess spec does), and when no template
    applies and the preprocess spec is not run or only updates the payload
    in place: no field mapping and no inclusion filter, type transforms
    that are no format strings, and paths of [transformations] and
    [add_fields] that part ways two by two. *)
Theorem transform_repeatable (py_repr : value -> string)
  (py_format : string -> dict -> result string)
  (cfg preprocess template payload : value) :
  repeatable cfg preprocess template ->
  let t := transform py_repr py_format cfg preprocess template in
  t (t payload) = t payload.
Proof.
  intros [[t Hfix] | [Htpl Hinj]]; cbv zeta.
  - rewrite !(transform_fixed py_repr py_format _ _ _ _ t Hfix); reflexivity.
  - rewrite !(transform_unresolved py_repr py_format _ _ _ _ Htpl).
    apply preprocessed_again; exact Hinj.
Qed.

Lemma transform_repeatable_witness :
  let preprocess :=
    VDict [("transformations", VDict [("price", VStr "to_int")]);
           ("add_fields",
            VDict [("data.source", VStr "tv"); ("data.env", VStr "prod")])] in
  let payload := VDict [("price", VStr "42")] in
  let t := transform plain_repr plain_format empty_config preprocess VNone in
  t payload
  = VDict [("price", VInt 42);
           ("data", VDict [("source", VStr "tv"); ("env", VStr "prod")])]
  /\ t (t payload) = t payload.
Proof.
  split; [reflexivity |].
  apply (transform_repeatable plain_repr plain_format empty_config
           (VDict [("transformations", VDict [("price", VStr "to_int")]);
                   ("add_fields",
                    VDict [("data.source", VStr "tv");
                           ("data.env", VStr "prod")])])
           VNone (VDict [("price", VStr "42")])).
  right; split; reflexivity.
Defined.
